(** * Bracketed next-day-gain aggregation of [src/src/Streamlit_fng.py]

    Shallow embedding of [analyze_combined_performance] together with the
    fragments of numpy and pandas it calls ([np.linspace], [DataFrame.tail],
    [Series.shift], [pd.cut], [groupby(...).agg(['mean', 'count'])]).

    Numbers: a float column is modelled by exact rationals ([Q]); a missing
    value (NaN) of the [Fear_Greed] column and of derived columns is [None].
    Rounding of binary floating point is outside the model, and so is the
    rounding pandas applies to the printed labels of the price intervals: an
    interval is identified by its two edges.  Where a property turns on the
    value of the edges, it is stated for every edge computation
    ([analyze_combined_performance_with]), of which the exact [np.linspace]
    is one.  The [close] column has no
    missing value ([load_data] drops such rows).  Dates are day numbers. *)

From Stdlib Require Import String List ZArith QArith Qminmax Lia Lqa Bool Arith.
From Stdlib Require Import Permutation Sorted.
Import ListNotations.

Set Implicit Arguments.

(** ** Exceptions *)

Inductive exn : Type :=
| ValueError_negative_samples (num : Z)  (* np.linspace: Number of samples must be non-negative *)
| ValueError_bins_not_monotonic          (* pd.cut: bins must increase monotonically *)
| ValueError_bin_edges_not_unique        (* pd.cut: Bin edges must be unique *)
| IndexError_no_bin_edge.                (* pd.cut: bins[0] on an empty array of edges *)

Definition raises (A : Type) : Type := (exn + A)%type.

Definition bind {A B : Type} (m : raises A) (k : A -> raises B) : raises B :=
  match m with
  | inl e => inl e
  | inr a => k a
  end.

Notation "x <- m ;; k" := (bind m (fun x => k))
  (at level 61, m at next level, right associativity).

(** ** numpy *)

Module np.

(** [np.linspace(start, stop, num)] with [endpoint=True]: [arange(0, num) *
    step + start] where [step = (stop - start) / (num - 1)], the last sample
    overwritten by [stop] when [num > 1].  (For a zero step numpy computes
    [arange / div * delta] instead, the same number in exact arithmetic.) *)
Definition linspace (start stop : Q) (num : Z) : raises (list Q) :=
  if (num <? 0)%Z then inl (ValueError_negative_samples num)
  else
    match Z.to_nat num with
    | O => inr []
    | S O => inr [start]
    | S div =>
        let step := (stop - start) / inject_Z (Z.of_nat div) in
        inr (map (fun i => inject_Z (Z.of_nat i) * step + start) (seq 0 div)
               ++ [stop])
    end.

End np.

(** ** pandas *)

Module pd.

(** [DataFrame.tail(n)]: [iloc[0:0]] when [n == 0], else [iloc[-n:]]; a
    negative [n] therefore drops the first [-n] rows. *)
Definition tail {A : Type} (n : Z) (l : list A) : list A :=
  if (n =? 0)%Z then []
  else if (0 <? n)%Z then skipn (length l - Z.to_nat n) l
  else skipn (Z.to_nat (- n)) l.

(** [Series.shift(-1)]: every value moves one position up, the last
    position becomes NaN. *)
Definition shift_m1 (s : list (option Q)) : list (option Q) :=
  match s with
  | [] => []
  | _ :: t => t ++ [None]
  end.

(** Element-wise subtraction of two float values; NaN propagates. *)
Definition sub (a b : option Q) : option Q :=
  match a, b with
  | Some x, Some y => Some (x - y)
  | _, _ => None
  end.

Fixpoint Series_sub (a b : list (option Q)) : list (option Q) :=
  match a, b with
  | x :: a', y :: b' => sub x y :: Series_sub a' b'
  | _, _ => []
  end.

(** [Series.min()] and [Series.max()] of a column without missing values.
    The empty column (NaN in pandas) does not occur: both are called on at
    least two rows. *)
Definition Series_min (s : list Q) : Q :=
  match s with
  | [] => 0
  | x :: t => fold_left Qmin t x
  end.

Definition Series_max (s : list Q) : Q :=
  match s with
  | [] => 0
  | x :: t => fold_left Qmax t x
  end.

(** [Index.is_monotonic_increasing]: non-strict. *)
Fixpoint is_monotonic_increasing (l : list Q) : bool :=
  match l with
  | a :: (b :: _) as t => Qle_bool a b && is_monotonic_increasing t
  | _ => true
  end.

(** [algos.unique]: first occurrences, in order. *)
Fixpoint unique (l : list Q) : list Q :=
  match l with
  | [] => []
  | x :: t => x :: filter (fun y => negb (Qeq_bool x y)) (unique t)
  end.

(** [bins.searchsorted(x, side='left')] on increasing [bins]: the number of
    edges strictly below [x]. *)
Fixpoint searchsorted_left (bins : list Q) (x : Q) : nat :=
  match bins with
  | [] => 0
  | b :: bs => if Qlt_le_dec b x then S (searchsorted_left bs x) else 0
  end.

(** One value through [_bins_to_cuts] with [right=True],
    [include_lowest=True]: the code of its category ([ids - 1]), or NaN. *)
Definition cut_one (bins : list Q) (b0 : Q) (x : option Q) : option nat :=
  match x with
  | None => None
  | Some v =>
      let ids := if Qeq_bool v b0 then 1%nat else searchsorted_left bins v in
      if (ids =? length bins)%nat || (ids =? 0)%nat then None
      else Some (ids - 1)%nat
  end.

(** [pd.cut(x, bins=bins, include_lowest=True)] for a sequence of edges:
    the category codes of [x]. *)
Definition cut (x : list (option Q)) (bins : list Q) : raises (list (option nat)) :=
  if negb (is_monotonic_increasing bins) then inl ValueError_bins_not_monotonic
  else if (length (unique bins) <? length bins)%nat && negb (length bins =? 2)%nat
       then inl ValueError_bin_edges_not_unique
  else
    match bins with
    | [] => inl IndexError_no_bin_edge
    | b0 :: _ => inr (map (cut_one bins b0) x)
    end.

(** [IntervalIndex.from_breaks(bins, closed='right')]: the categories of a
    cut, as (left, right] pairs of consecutive edges. *)
Definition from_breaks (bins : list Q) : list (Q * Q) :=
  combine (removelast bins) (List.tl bins).

Fixpoint Series_sum (v : list Q) : Q :=
  match v with
  | [] => 0
  | x :: t => x + Series_sum t
  end.

(** Aggregation ['mean'] over the defined values of a group: NaN on an empty
    group. *)
Definition Series_mean (v : list Q) : option Q :=
  match v with
  | [] => None
  | _ => Some (Series_sum v / inject_Z (Z.of_nat (length v)))
  end.

End pd.

(** ** The merged price / indicator table *)

(** One row of the frame returned by [load_data]: the columns read by the
    analysis. *)
Record Row : Type := mkRow {
  ticker : string;
  date : Z;
  close : Q;
  Fear_Greed : option Q
}.

Inductive FG : Type := Fear | Neutral | Greed.

Definition FG_eqb (a b : FG) : bool :=
  match a, b with
  | Fear, Fear | Neutral, Neutral | Greed, Greed => true
  | _, _ => false
  end.

Definition fg_bins : list Q := [0; 3333 # 100; 6667 # 100; 100].
Definition fg_labels : list FG := [Fear; Neutral; Greed].

(** A row of [subset_100] after the three derived columns are assigned. *)
Record ARow : Type := mkARow {
  a_close : Q;
  next_day_gain : option Q;
  price_bracket : option nat;   (* category code into the price intervals *)
  fg_bracket : option FG
}.

(** A row of [stats]: the index pair, the two aggregates, the ticker. *)
Record Cell : Type := mkCell {
  c_price_bracket : Q * Q;
  c_fg_bracket : FG;
  mean : option Q;
  count : nat;
  c_ticker : string
}.

(** What the function returns: [pd.DataFrame()] or the concatenated stats. *)
Inductive DataFrame : Type :=
| Empty_DataFrame
| Stats (cells : list Cell).

(** [df.sort_values(['ticker', 'date'])]: stable, lexicographic. *)
Definition key_leb (r h : Row) : bool :=
  match String.compare (ticker r) (ticker h) with
  | Lt => true
  | Eq => (date r <=? date h)%Z
  | Gt => false
  end.

Fixpoint insert_row (r : Row) (l : list Row) : list Row :=
  match l with
  | [] => [r]
  | h :: t => if key_leb r h then r :: l else h :: insert_row r t
  end.

Fixpoint sort_values (l : list Row) : list Row :=
  match l with
  | [] => []
  | h :: t => insert_row h (sort_values t)
  end.

(** Lines 62-69: filter on the ticker and on [date <= target_date], sort. *)
Definition prepare (df : list Row) (tk : string) (target_date : Z) : list Row :=
  sort_values
    (filter (fun r => (date r <=? target_date)%Z)
       (filter (fun r => String.eqb (ticker r) tk) df)).

(** [df.groupby('ticker')] on a frame sorted by ticker: one group per key,
    keys in order. *)
Definition groupby_ticker (df : list Row) : list (string * list Row) :=
  map (fun k => (k, filter (fun r => String.eqb (ticker r) k) df))
    (nodup string_dec (map ticker df)).

(** Lines 87-93: the analysis set with its three derived columns. *)
Fixpoint assign (closes : list Q) (gains : list (option Q))
    (pb : list (option nat)) (fb : list (option nat)) : list ARow :=
  match closes, gains, pb, fb with
  | c :: closes', g :: gains', p :: pb', f :: fb' =>
      mkARow c g p
        (match f with Some i => nth_error fg_labels i | None => None end)
        :: assign closes' gains' pb' fb'
  | _, _, _, _ => []
  end.

(** The values of [next_day_gain] aggregated in one group: rows whose two
    keys are the group's, missing gains skipped by both aggregates. *)
Definition group_values (rows : list ARow) (p : nat) (f : FG) : list Q :=
  flat_map (fun r =>
    match price_bracket r, fg_bracket r, next_day_gain r with
    | Some p', Some f', Some g => if (p' =? p)%nat && FG_eqb f' f then [g] else []
    | _, _, _ => []
    end) rows.

(** Line 96-98: [groupby(['price_bracket', 'fg_bracket'], observed=False)]
    enumerates the product of the categories of both keys, price first. *)
Definition stats (rows : list ARow) (intervals : list (Q * Q)) (tk : string)
  : list Cell :=
  flat_map (fun pi : nat * (Q * Q) =>
    map (fun f =>
           let v := group_values rows (fst pi) f in
           mkCell (snd pi) f (pd.Series_mean v) (List.length v) tk)
        fg_labels)
    (combine (seq 0 (List.length intervals)) intervals).

Definition analysis_rows (subset_100 : list Row) (p_bins : list Q)
  : raises (list ARow) :=
  let closes := map close subset_100 in
  let gains := pd.Series_sub (pd.shift_m1 (map Some closes)) (map Some closes) in
  pb <- pd.cut (map Some closes) p_bins ;;
  fb <- pd.cut (map Fear_Greed subset_100) fg_bins ;;
  inr (assign closes gains pb fb).

(** The body of the loop over the groups (lines 75-99): [None] stands for
    [continue], [Some stats] for the frame appended to [results]. *)
Definition loop_body (tk : string) (group : list Row)
    (lookback_window analysis_window num_brackets : Z)
  : raises (option (list Cell)) :=
  let subset_200 := pd.tail lookback_window group in
  if (List.length subset_200 <? 2)%nat then inr None
  else
    let min_close := pd.Series_min (map close subset_200) in
    let max_close := pd.Series_max (map close subset_200) in
    p_bins <- np.linspace min_close max_close (num_brackets + 1) ;;
    let subset_100 := pd.tail analysis_window group in
    rows <- analysis_rows subset_100 p_bins ;;
    inr (Some (stats rows (pd.from_breaks p_bins) tk)).

Fixpoint for_groups (groups : list (string * list Row))
    (lookback_window analysis_window num_brackets : Z)
    (results : list (list Cell)) : raises (list (list Cell)) :=
  match groups with
  | [] => inr results
  | (tk, group) :: rest =>
      r <- loop_body tk group lookback_window analysis_window num_brackets ;;
      for_groups rest lookback_window analysis_window num_brackets
        (match r with None => results | Some s => results ++ [s] end)
  end.

Definition analyze_combined_performance (df : list Row) (tk : string)
    (target_date : Z) (lookback_window analysis_window num_brackets : Z)
  : raises DataFrame :=
  results <- for_groups (groupby_ticker (prepare df tk target_date))
               lookback_window analysis_window num_brackets [] ;;
  match results with
  | [] => inr Empty_DataFrame
  | _ => inr (Stats (concat results))
  end.

(** ** The five-day scenario *)

Definition scenario_df : list Row :=
  [ mkRow "X" 0 100 (Some 20);
    mkRow "X" 1 102 (Some 40);
    mkRow "X" 2 98 (Some 60);
    mkRow "X" 3 101 (Some 80);
    mkRow "X" 4 103 None ].

(** * Vocabulary of the properties *)

(** The [i]-th interpolated edge between [mn] and [mx] for [nb] brackets. *)
Definition edge (mn mx : Q) (nb i : nat) : Q :=
  inject_Z (Z.of_nat i) * ((mx - mn) / inject_Z (Z.of_nat nb)) + mn.

Definition edges (mn mx : Q) (nb : nat) : list Q :=
  map (edge mn mx nb) (seq 0 nb) ++ [mx].

(** Order of the entries of a list, by position. *)
Definition increasing (l : list Q) : Prop :=
  forall i j, (i <= j)%nat -> (j < List.length l)%nat -> nth i l 0 <= nth j l 0.

Definition strictly_increasing (l : list Q) : Prop :=
  forall i j, (i < j)%nat -> (j < List.length l)%nat -> nth i l 0 < nth j l 0.

(** Membership of [v] in the [k]-th bracket of [bins]: the interval
    (bins[k], bins[k+1]], the first bracket also holding its lower edge. *)
Definition in_bracket (bins : list Q) (k : nat) (v : Q) : Prop :=
  (S k < List.length bins)%nat /\
  ((nth k bins 0 < v /\ v <= nth (S k) bins 0) \/
   (k = 0%nat /\ v == nth 0 bins 0)).

(** The bracket of one [Fear_Greed] value, as line 93 assigns it. *)
Definition fg_of (s : option Q) : option FG :=
  match pd.cut_one fg_bins 0 s with
  | Some i => nth_error fg_labels i
  | None => None
  end.

Definition gain_after (c : Q) (rest : list Row) : option Q :=
  match rest with
  | [] => None
  | r' :: _ => Some (close r' - c)
  end.

(** The rows built by lines 87-93, by recursion on the analysis set. *)
Fixpoint annotate (bins : list Q) (subset : list Row) : list ARow :=
  match subset with
  | [] => []
  | r :: rest =>
      mkARow (close r) (gain_after (close r) rest)
        (pd.cut_one bins (nth 0 bins 0) (Some (close r)))
        (fg_of (Fear_Greed r))
        :: annotate bins rest
  end.

Definition sum_count (cells : list Cell) : nat := list_sum (map count cells).

Definition key (c : Cell) : (Q * Q) * FG := (c_price_bracket c, c_fg_bracket c).

(** The rows of [stats] for the price categories numbered from [s]. *)
Definition cells_from (s : nat) (rows : list ARow) (intervals : list (Q * Q))
    (tk : string) : list Cell :=
  flat_map (fun pi : nat * (Q * Q) =>
    map (fun f =>
           let v := group_values rows (fst pi) f in
           mkCell (snd pi) f (pd.Series_mean v) (List.length v) tk)
        fg_labels)
    (combine (seq s (List.length intervals)) intervals).

(** Does a row of the analysis set fall in one of the [n] x 3 groups with a
    defined gain? *)
Definition in_grid (n : nat) (r : ARow) : bool :=
  match price_bracket r, fg_bracket r, next_day_gain r with
  | Some p, Some _, Some _ => (p <? n)%nat
  | _, _, _ => false
  end.

Definition row_count (rows : list ARow) (p : nat) : nat :=
  list_sum (map (fun f => List.length (group_values rows p f)) fg_labels).

Definition group_of (df : list Row) (tk : string) (d : Z) : list Row :=
  prepare df tk d.

Definition subset_200 (df : list Row) (tk : string) (d lb : Z) : list Row :=
  pd.tail lb (group_of df tk d).

Definition subset_100 (df : list Row) (tk : string) (d aw : Z) : list Row :=
  pd.tail aw (group_of df tk d).

Definition min_close (df : list Row) (tk : string) (d lb : Z) : Q :=
  pd.Series_min (map close (subset_200 df tk d lb)).

Definition max_close (df : list Row) (tk : string) (d lb : Z) : Q :=
  pd.Series_max (map close (subset_200 df tk d lb)).

Definition p_bins (df : list Row) (tk : string) (d lb nb : Z) : list Q :=
  edges (min_close df tk d lb) (max_close df tk d lb) (Z.to_nat nb).

(** A call that reaches the aggregation: enough data, at least one bracket,
    and edges [pd.cut] accepts (a proper price range, or a single bracket). *)
Definition computes_grid (df : list Row) (tk : string) (d lb nb : Z) : Prop :=
  (2 <= List.length (subset_200 df tk d lb))%nat /\
  (1 <= nb)%Z /\
  (min_close df tk d lb < max_close df tk d lb \/ nb = 1%Z).

(** A valid input: such a call with both windows in their ranges. *)
Definition valid_input (df : list Row) (tk : string) (d lb aw nb : Z) : Prop :=
  (2 <= lb)%Z /\ (1 <= aw)%Z /\ computes_grid df tk d lb nb.

Definition option_Qeq (a b : option Q) : Prop :=
  match a, b with
  | Some x, Some y => x == y
  | None, None => True
  | _, _ => False
  end.

Definition Cell_equiv (c e : Cell) : Prop :=
  fst (c_price_bracket c) == fst (c_price_bracket e) /\
  snd (c_price_bracket c) == snd (c_price_bracket e) /\
  c_fg_bracket c = c_fg_bracket e /\
  option_Qeq (mean c) (mean e) /\
  count c = count e /\
  c_ticker c = c_ticker e.

(** The grid as the scenario's text states it. *)
Definition scenario_stated_grid : list Cell :=
  [ mkCell (98, 201 # 2) Fear (Some 2) 1 "X";
    mkCell (98, 201 # 2) Neutral (Some (-4)) 1 "X";
    mkCell (98, 201 # 2) Greed None 0 "X";
    mkCell (201 # 2, 103) Fear None 0 "X";
    mkCell (201 # 2, 103) Neutral None 0 "X";
    mkCell (201 # 2, 103) Greed (Some (5 # 2)) 2 "X" ].

(** The grid the function returns. *)
Definition scenario_grid : list Cell :=
  [ mkCell (98, 201 # 2) Fear (Some 2) 1 "X";
    mkCell (98, 201 # 2) Neutral (Some 3) 1 "X";
    mkCell (98, 201 # 2) Greed None 0 "X";
    mkCell (201 # 2, 103) Fear None 0 "X";
    mkCell (201 # 2, 103) Neutral (Some (-4)) 1 "X";
    mkCell (201 # 2, 103) Greed (Some 2) 1 "X" ].

(** A frame with a gap at the target date. *)
Definition gap_df : list Row :=
  [ mkRow "X" 0 100 (Some 20);
    mkRow "X" 1 102 (Some 40);
    mkRow "X" 2 98 (Some 60);
    mkRow "X" 4 101 (Some 80) ].

(** Three days at one price. *)
Definition flat_df : list Row :=
  [ mkRow "X" 0 100 (Some 20);
    mkRow "X" 1 100 (Some 40);
    mkRow "X" 2 100 (Some 60) ].

Definition sentiment_defined (r : Row) : bool :=
  match Fear_Greed r with
  | Some _ => true
  | None => false
  end.

Definition close_within (mn mx : Q) (r : Row) : bool :=
  Qle_bool mn (close r) && Qle_bool (close r) mx.

(** The data model's range of a score that is present. *)
Definition sentiment_in_range (r : Row) : Prop :=
  match Fear_Greed r with
  | Some s => 0 <= s /\ s <= 100
  | None => True
  end.

Definition eligible (bins : list Q) (n : nat) (r : Row) : bool :=
  match pd.cut_one bins (nth 0 bins 0) (Some (close r)), fg_of (Fear_Greed r) with
  | Some p, Some _ => (p <? n)%nat
  | _, _ => false
  end.

(** A frame whose analysis window reaches back beyond the lookback window. *)
Definition drift_df : list Row :=
  [ mkRow "X" 0 90 (Some 50);
    mkRow "X" 1 100 (Some 50);
    mkRow "X" 2 102 (Some 50);
    mkRow "X" 3 101 (Some 50) ].

Definition has_fg_bracket (a : ARow) : bool :=
  match fg_bracket a with
  | Some _ => true
  | None => false
  end.

Definition row_within (mn mx : Q) (a : ARow) : bool :=
  Qle_bool mn (a_close a) && Qle_bool (a_close a) mx.

(** * The rest of [Streamlit_fng.py] *)

(** ** [load_data] (lines 14-52) *)

(** A line of the price file after [pd.to_datetime] and
    [pd.to_numeric(errors='coerce')]: a numeric cell that does not parse is
    NaN. *)
Record PriceLine : Type := mkPriceLine {
  pl_ticker : string;
  pl_date : Z;
  pl_close : option Q;
  pl_volume : option Q
}.

(** A line of the indicators file: the date may be missing (NaT). *)
Record IndicatorLine : Type := mkIndicatorLine {
  il_date : option Z;
  il_Fear_Greed : option Q
}.

(** Whatever [pd.read_csv] and the conversions of a [try] block raise. *)
Inductive read_error : Type :=
| Read_error (msg : string).

Inductive message : Type :=
| St_error (e : read_error)
| St_warning (e : read_error).

(** A price line that survives [dropna(subset=['close', 'volume'])]. *)
Record Price : Type := mkPrice {
  pr_ticker : string;
  pr_date : Z;
  pr_close : Q;
  pr_volume : Q
}.

(** Line 28: [df_prices.dropna(subset=['close', 'volume'])]. *)
Definition dropna_close_volume (lines : list PriceLine) : list Price :=
  flat_map (fun l =>
    match pl_close l, pl_volume l with
    | Some c, Some v => [mkPrice (pl_ticker l) (pl_date l) c v]
    | _, _ => []
    end) lines.

(** Line 44, first half: [dropna(subset=['date'])] on the two kept
    columns. *)
Definition dropna_date (lines : list IndicatorLine) : list (Z * option Q) :=
  flat_map (fun l =>
    match il_date l with
    | Some d => [(d, il_Fear_Greed l)]
    | None => []
    end) lines.

(** Line 44, second half: [drop_duplicates(subset=['date'])] keeps the first
    line of each date. *)
Fixpoint drop_duplicates_date (l : list (Z * option Q)) : list (Z * option Q) :=
  match l with
  | [] => []
  | x :: t =>
      x :: filter (fun y => negb (fst y =? fst x)%Z) (drop_duplicates_date t)
  end.

(** Line 51: [pd.merge(df_prices, indicators_subset, on='date',
    how='left')]: the left rows in their order, each once per matching right
    row (in the right order), or once with NaN when none matches. *)
Definition merge_left (left : list Price) (right : list (Z * option Q))
  : list Row :=
  flat_map (fun p =>
    match filter (fun i => (fst i =? pr_date p)%Z) right with
    | [] => [mkRow (pr_ticker p) (pr_date p) (pr_close p) None]
    | ms => map (fun i => mkRow (pr_ticker p) (pr_date p) (pr_close p) (snd i)) ms
    end) left.

(** What a call of [load_data] ends with: the returned pair, the merged
    frame (no row for [pd.DataFrame()]) and the [price_count] entry of
    [debug_info] if any; or the [ValueError] of [pd.merge], which no [try]
    block of the function covers. *)
Inductive loaded : Type :=
| Returned (merged_df : list Row) (price_count : option nat)
| Raised_merge_key_dtypes.

(** [load_data]: the two files are given by what reading them yields; the
    second component is the messages shown.  When the indicators fail to
    load, the placeholder frame has a [date] column of dtype object:
    [pd.merge] accepts it against the datetime keys of the prices as long as
    the prices have a row, and refuses the two dtypes when both frames are
    empty. *)
Definition load_data (price_file : read_error + list PriceLine)
    (indicators_file : read_error + list IndicatorLine)
  : loaded * list message :=
  match price_file with
  | inl e => (Returned [] None, [St_error e])
  | inr lines =>
      let df_prices := dropna_close_volume lines in
      let price_count := List.length df_prices in
      match indicators_file with
      | inl e =>
          match df_prices with
          | [] => (Raised_merge_key_dtypes, [St_warning e])
          | _ => (Returned (merge_left df_prices []) (Some price_count),
                  [St_warning e])
          end
      | inr ind =>
          (Returned
             (merge_left df_prices (drop_duplicates_date (dropna_date ind)))
             (Some price_count), [])
      end
  end.

(** The first line of the indicators file dated [d], if any. *)
Definition first_indicator (d : Z) (ind : list IndicatorLine)
  : option IndicatorLine :=
  find (fun l => match il_date l with
                 | Some d' => (d' =? d)%Z
                 | None => false
                 end) ind.

Definition Fear_Greed_on (d : Z) (ind : list IndicatorLine) : option Q :=
  match first_indicator d ind with
  | Some l => il_Fear_Greed l
  | None => None
  end.

(** ** The comparative matrix of the page (lines 185-234) *)

(** [perf_df.empty]: no row, whatever the columns. *)
Definition DataFrame_empty (df : DataFrame) : bool :=
  match df with
  | Empty_DataFrame => true
  | Stats cells => (List.length cells =? 0)%nat
  end.

(** What the matrix section puts on the page.  A column is named by its
    offset from the centre, -2 to 2. *)
Inductive element : Type :=
| Warning_no_trading_data (d : Z)
| Column_day (offset : Z) (row_date : Z) (row_close : Q) (row_fg : option Q)
| Column_chart (offset : Z) (perf : list Cell)
| Column_no_data (offset : Z)
| Column_out_of_range (offset : Z)
| Error_calculating_dates (e : exn).

(** Line 142: the rows of the selected ticker by date.  (On a single ticker
    the two-key sort is the sort by date.  Rows of one date stay in frame
    order here; pandas leaves their order to its sort, and no property below
    rests on it.) *)
Definition ticker_data (data : list Row) (selected_ticker : string) : list Row :=
  sort_values (filter (fun r => String.eqb (ticker r) selected_ticker) data).

(** Line 187: the positions of the rows dated [target_ts]. *)
Fixpoint idx_list_from (i : nat) (td : list Row) (target_ts : Z) : list nat :=
  match td with
  | [] => []
  | r :: t =>
      if (date r =? target_ts)%Z then i :: idx_list_from (S i) t target_ts
      else idx_list_from (S i) t target_ts
  end.

Definition idx_list (td : list Row) (target_ts : Z) : list nat :=
  idx_list_from 0 td target_ts.

Definition scenarios : list Z := [-2; -1; 0; 1; 2]%Z.

(** The body of the loop over the scenarios (lines 207-231): what it shows,
    and the exception that ends it, if any.  The day's line is on the page
    before the analysis runs. *)
Definition column (data : list Row) (selected_ticker : string)
    (td : list Row) (center_idx : nat) (offset : Z)
  : list element * option exn :=
  let idx := (Z.of_nat center_idx + offset)%Z in
  if (0 <=? idx)%Z && (idx <? Z.of_nat (List.length td))%Z then
    match nth_error td (Z.to_nat idx) with
    | Some row =>
        let day := Column_day offset (date row) (close row) (Fear_Greed row) in
        match analyze_combined_performance data selected_ticker (date row)
                200 100 10 with
        | inl e => ([day], Some e)
        | inr perf_df =>
            if negb (DataFrame_empty perf_df) then
              ([day; Column_chart offset
                       (match perf_df with
                        | Stats cells => cells
                        | Empty_DataFrame => []
                        end)], None)
            else ([day; Column_no_data offset], None)
        end
    | None => ([], None)
    end
  else ([Column_out_of_range offset], None).

Fixpoint columns (data : list Row) (selected_ticker : string)
    (td : list Row) (center_idx : nat) (offsets : list Z)
  : list element * option exn :=
  match offsets with
  | [] => ([], None)
  | o :: rest =>
      match column data selected_ticker td center_idx o with
      | (out, Some e) => (out, Some e)
      | (out, None) =>
          let '(out', e') := columns data selected_ticker td center_idx rest in
          (out ++ out', e')
      end
  end.

(** Lines 185-234: the [try] block around the whole matrix (the page comes
    here only with a non-empty [ticker_data]).  The drawing calls of
    streamlit and altair are taken to succeed: the analysis is the one call
    that may raise. *)
Definition matrix_section (data : list Row) (selected_ticker : string)
    (matrix_date_input : Z) : list element :=
  let td := ticker_data data selected_ticker in
  match idx_list td matrix_date_input with
  | [] => [Warning_no_trading_data matrix_date_input]
  | center_idx :: _ =>
      match columns data selected_ticker td center_idx scenarios with
      | (out, Some e) => out ++ [Error_calculating_dates e]
      | (out, None) => out
      end
  end.

(** Rows the analysis reads for a ticker and a target date. *)
Definition relevant (tk : string) (d : Z) (r : Row) : bool :=
  String.eqb (ticker r) tk && (date r <=? d)%Z.

(** Frames for the examples. *)
Definition price_lines : list PriceLine :=
  [ mkPriceLine "X" 0 (Some 100) (Some 10);
    mkPriceLine "X" 1 None (Some 10);
    mkPriceLine "X" 2 (Some 98) (Some 10);
    mkPriceLine "X" 3 (Some 101) None;
    mkPriceLine "X" 4 (Some 103) (Some 10) ].

Definition indicator_lines : list IndicatorLine :=
  [ mkIndicatorLine (Some 0%Z) (Some 20);
    mkIndicatorLine None (Some 99);
    mkIndicatorLine (Some 2%Z) (Some 60);
    mkIndicatorLine (Some 2%Z) (Some 61);
    mkIndicatorLine (Some 3%Z) (Some 80) ].

Definition shuffled_df : list Row :=
  [ mkRow "X" 3 101 (Some 80);
    mkRow "Y" 1 7 (Some 40);
    mkRow "X" 0 100 (Some 20);
    mkRow "X" 4 103 None;
    mkRow "X" 2 98 (Some 60);
    mkRow "X" 9 500 (Some 10);
    mkRow "X" 1 102 (Some 40) ].

(** The order of two rows by date. *)
Definition date_le (a b : Row) : Prop := (date a <= date b)%Z.

(** * The analysis, whatever the rounding of the edges *)

(** The loop body with the edge computation of line 81 left open:
    [linspace] stands for [np.linspace] under any rounding of its samples;
    every other line is that of [loop_body]. *)
Definition loop_body_with (linspace : Q -> Q -> Z -> raises (list Q))
    (tk : string) (group : list Row)
    (lookback_window analysis_window num_brackets : Z)
  : raises (option (list Cell)) :=
  let subset_200 := pd.tail lookback_window group in
  if (List.length subset_200 <? 2)%nat then inr None
  else
    let min_close := pd.Series_min (map close subset_200) in
    let max_close := pd.Series_max (map close subset_200) in
    p_bins <- linspace min_close max_close (num_brackets + 1)%Z ;;
    let subset_100 := pd.tail analysis_window group in
    rows <- analysis_rows subset_100 p_bins ;;
    inr (Some (stats rows (pd.from_breaks p_bins) tk)).

Fixpoint for_groups_with (linspace : Q -> Q -> Z -> raises (list Q))
    (groups : list (string * list Row))
    (lookback_window analysis_window num_brackets : Z)
    (results : list (list Cell)) : raises (list (list Cell)) :=
  match groups with
  | [] => inr results
  | (tk, group) :: rest =>
      r <- loop_body_with linspace tk group lookback_window analysis_window
             num_brackets ;;
      for_groups_with linspace rest lookback_window analysis_window num_brackets
        (match r with None => results | Some s => results ++ [s] end)
  end.

Definition analyze_combined_performance_with
    (linspace : Q -> Q -> Z -> raises (list Q)) (df : list Row) (tk : string)
    (target_date : Z) (lookback_window analysis_window num_brackets : Z)
  : raises DataFrame :=
  results <- for_groups_with linspace (groupby_ticker (prepare df tk target_date))
               lookback_window analysis_window num_brackets [] ;;
  match results with
  | [] => inr Empty_DataFrame
  | _ => inr (Stats (concat results))
  end.

(** An edge computation for the examples: the samples of two prices a hair
    apart, all but the last collapsed on the start. *)
Definition coarse_linspace (start stop : Q) (num : Z) : raises (list Q) :=
  if (num <? 0)%Z then inl (ValueError_negative_samples num)
  else inr (repeat start (Z.to_nat num - 1) ++ [stop]).

(** * Vocabulary of the further properties *)

(** A price line with a number in both [close] and [volume]. *)
Definition usable_line (l : PriceLine) : bool :=
  match pl_close l, pl_volume l with
  | Some _, Some _ => true
  | _, _ => false
  end.

(** The position of a sentiment bracket among the three. *)
Definition fg_index (f : FG) : nat :=
  match f with
  | Fear => 0
  | Neutral => 1
  | Greed => 2
  end.

(** The forward differences of a column: entry [i] is [c[i+1] - c[i]], so
    there is one entry fewer than the column has. *)
Fixpoint forward_differences (c : list Q) : list Q :=
  match c with
  | x :: (y :: _) as t => (y - x) :: forward_differences t
  | _ => []
  end.

(** Does a row of the analysis set carry the two keys of cell [(p, f)]? *)
Definition cell_member (p : nat) (f : FG) (a : ARow) : bool :=
  match price_bracket a, fg_bracket a with
  | Some p', Some f' => (p' =? p)%nat && FG_eqb f' f
  | _, _ => false
  end.

(** The forward differences of the closes [c], taken at the rows that carry
    the keys of cell [(p, f)]; the last row has no forward difference. *)
Definition cell_gains (rows : list ARow) (c : list Q) (p : nat) (f : FG)
  : list Q :=
  map snd (filter (fun x => cell_member p f (fst x))
             (combine rows (forward_differences c))).

Definition Qsum (v : list Q) : Q := fold_right Qplus 0 v.

(** Some value stands at two positions of the list. *)
Definition repeated (l : list Q) : Prop :=
  exists i j, (i < j)%nat /\ (j < List.length l)%nat /\ nth i l 0 == nth j l 0.
(** * Properties *)

(** ** Lists and windows *)

Section Windows.
Context {A : Type}.

Lemma In_skipn (n : nat) (l : list A) (x : A) : In x (skipn n l) -> In x l.
Proof.
  intros H. rewrite <- (firstn_skipn n l). apply in_or_app. now right.
Qed.

Lemma tail_nil (n : Z) : pd.tail n (@nil A) = [].
Proof.
  unfold pd.tail.
  destruct (n =? 0)%Z; [reflexivity|].
  destruct (0 <? n)%Z; apply skipn_nil.
Qed.

Lemma tail_In (n : Z) (l : list A) (x : A) : In x (pd.tail n l) -> In x l.
Proof.
  unfold pd.tail.
  destruct (n =? 0)%Z; [intros []|].
  destruct (0 <? n)%Z; apply In_skipn.
Qed.

Lemma tail_zero (l : list A) : pd.tail 0 l = [].
Proof. reflexivity. Qed.

Lemma tail_one_length (l : list A) : (List.length (pd.tail 1 l) <= 1)%nat.
Proof.
  unfold pd.tail. simpl. rewrite length_skipn. lia.
Qed.

(** A shorter positive window is contained in a longer one. *)
Lemma tail_In_mono (n m : Z) (l : list A) (x : A) :
  (0 < n <= m)%Z -> In x (pd.tail n l) -> In x (pd.tail m l).
Proof.
  intros Hnm. unfold pd.tail.
  destruct (Z.eqb_spec n 0); [lia|].
  destruct (Z.eqb_spec m 0); [lia|].
  destruct (Z.ltb_spec 0 n); [|lia].
  destruct (Z.ltb_spec 0 m); [|lia].
  set (a := (List.length l - Z.to_nat n)%nat).
  set (b := (List.length l - Z.to_nat m)%nat).
  assert (Hab : (a = (a - b) + b)%nat) by (unfold a, b; lia).
  rewrite Hab, <- skipn_skipn. apply In_skipn.
Qed.
End Windows.

(** ** Preparing the group *)

Lemma insert_row_Forall (P : Row -> Prop) (r : Row) (l : list Row) :
  P r -> Forall P l -> Forall P (insert_row r l).
Proof.
  intros Hr Hl. induction Hl as [|h t Hh Ht IH]; simpl.
  - now constructor.
  - destruct (key_leb r h); repeat constructor; assumption.
Qed.

Lemma sort_values_Forall (P : Row -> Prop) (l : list Row) :
  Forall P l -> Forall P (sort_values l).
Proof.
  induction 1; simpl; [constructor | now apply insert_row_Forall].
Qed.

Lemma prepare_ticker (df : list Row) (tk : string) (d : Z) :
  Forall (fun r => ticker r = tk) (prepare df tk d).
Proof.
  unfold prepare. apply sort_values_Forall.
  apply Forall_forall. intros r Hr.
  apply filter_In in Hr as [Hr _].
  apply filter_In in Hr as [_ Hr].
  now apply String.eqb_eq.
Qed.

Lemma prepare_date (df : list Row) (tk : string) (d : Z) :
  Forall (fun r => (date r <= d)%Z) (prepare df tk d).
Proof.
  unfold prepare. apply sort_values_Forall.
  apply Forall_forall. intros r Hr.
  apply filter_In in Hr as [_ Hr]. lia.
Qed.

Lemma nodup_const (a : string) (l : list string) :
  l <> [] -> Forall (fun x => x = a) l -> nodup string_dec l = [a].
Proof.
  induction l as [|x t IH]; [congruence|].
  intros _ H. inversion H as [|? ? Hx Ht]; subst. simpl.
  destruct t as [|y t'].
  - destruct (in_dec string_dec a []) as [[]|]; reflexivity.
  - destruct (in_dec string_dec a (y :: t')) as [_|Hn].
    + apply IH; [discriminate | assumption].
    + exfalso. apply Hn. inversion Ht; subst. now left.
Qed.

Lemma filter_all {B : Type} (f : B -> bool) (l : list B) :
  Forall (fun x => f x = true) l -> filter f l = l.
Proof.
  induction 1 as [|x t Hx Ht IH]; simpl; [reflexivity|].
  now rewrite Hx, IH.
Qed.

(** After the filter on the ticker the frame holds at most one group, so the
    loop runs its body at most once, on the prepared frame itself. *)
Lemma groupby_prepare (df : list Row) (tk : string) (d : Z) :
  groupby_ticker (prepare df tk d) =
  match prepare df tk d with
  | [] => []
  | g => [(tk, g)]
  end.
Proof.
  pose proof (prepare_ticker df tk d) as H.
  destruct (prepare df tk d) as [|r g] eqn:E; [reflexivity|].
  unfold groupby_ticker.
  rewrite (@nodup_const tk).
  - cbn [map]. rewrite filter_all; [reflexivity|].
    eapply Forall_impl; [|exact H].
    intros x Hx. now apply String.eqb_eq.
  - discriminate.
  - apply Forall_forall. intros x Hx. apply in_map_iff in Hx as [y [<- Hy]].
    rewrite Forall_forall in H. now apply H.
Qed.

Lemma loop_body_nil (tk : string) (lb aw nb : Z) :
  loop_body tk [] lb aw nb = inr None.
Proof.
  unfold loop_body. now rewrite tail_nil.
Qed.

(** The function is the loop body run on the prepared frame. *)
Lemma analyze_loop_body (df : list Row) (tk : string) (d lb aw nb : Z) :
  analyze_combined_performance df tk d lb aw nb =
  match loop_body tk (prepare df tk d) lb aw nb with
  | inl e => inl e
  | inr None => inr Empty_DataFrame
  | inr (Some s) => inr (Stats s)
  end.
Proof.
  unfold analyze_combined_performance. rewrite groupby_prepare.
  destruct (prepare df tk d) as [|r g] eqn:E.
  - now rewrite loop_body_nil.
  - simpl for_groups.
    destruct (loop_body tk (r :: g) lb aw nb) as [e|[s|]]; simpl; try reflexivity.
    destruct s; simpl; [reflexivity|]. now rewrite app_nil_r.
Qed.

(** ** Edges: [np.linspace] *)

Lemma linspace_edges (mn mx : Q) (nb : Z) :
  (1 <= nb)%Z ->
  np.linspace mn mx (nb + 1) = inr (edges mn mx (Z.to_nat nb)).
Proof.
  intros H. unfold np.linspace.
  destruct (Z.ltb_spec (nb + 1) 0); [lia|].
  replace (Z.to_nat (nb + 1)) with (S (Z.to_nat nb)) by lia.
  destruct (Z.to_nat nb) as [|n] eqn:E; [lia|]. reflexivity.
Qed.

Lemma edges_length (mn mx : Q) (nb : nat) :
  List.length (edges mn mx nb) = S nb.
Proof.
  unfold edges. rewrite length_app, length_map, length_seq. simpl. lia.
Qed.

Lemma edges_nth_lt (mn mx : Q) (nb i : nat) :
  (i < nb)%nat -> nth i (edges mn mx nb) 0 = edge mn mx nb i.
Proof.
  intros H. unfold edges.
  rewrite app_nth1 by (rewrite length_map, length_seq; lia).
  rewrite (nth_indep _ 0 (edge mn mx nb 0%nat))
    by (rewrite length_map, length_seq; lia).
  rewrite map_nth, seq_nth by lia. reflexivity.
Qed.

Lemma edges_nth_last (mn mx : Q) (nb : nat) :
  nth nb (edges mn mx nb) 0 = mx.
Proof.
  unfold edges.
  rewrite app_nth2 by (rewrite length_map, length_seq; lia).
  rewrite length_map, length_seq, Nat.sub_diag. reflexivity.
Qed.

Lemma edge_last (mn mx : Q) (nb : nat) :
  (0 < nb)%nat -> edge mn mx nb nb == mx.
Proof.
  intros H. unfold edge.
  assert (Hn : ~ inject_Z (Z.of_nat nb) == 0).
  { intros E. assert (0 < inject_Z (Z.of_nat nb)); [|lra].
    rewrite <- (Zlt_Qlt 0). lia. }
  field. exact Hn.
Qed.

(** Every edge, the last one included, is the linear interpolation. *)
Lemma edges_nth (mn mx : Q) (nb i : nat) :
  (0 < nb)%nat -> (i <= nb)%nat ->
  nth i (edges mn mx nb) 0 == edge mn mx nb i.
Proof.
  intros Hnb Hi. destruct (Nat.eq_dec i nb) as [->|Hne].
  - rewrite edges_nth_last. symmetry. now apply edge_last.
  - rewrite edges_nth_lt by lia. reflexivity.
Qed.

Lemma edges_first (mn mx : Q) (nb : nat) :
  (0 < nb)%nat -> nth 0 (edges mn mx nb) 0 == mn.
Proof.
  intros H. rewrite edges_nth by lia. unfold edge. simpl. field.
  intros E. assert (0 < inject_Z (Z.of_nat nb)); [|lra].
  rewrite <- (Zlt_Qlt 0). lia.
Qed.

Lemma edge_step (mn mx : Q) (nb i : nat) :
  edge mn mx nb (S i) - edge mn mx nb i == (mx - mn) / inject_Z (Z.of_nat nb).
Proof.
  unfold edge. rewrite Nat2Z.inj_succ. unfold Z.succ.
  rewrite inject_Z_plus. ring.
Qed.

Lemma step_nonneg (mn mx : Q) (nb : nat) :
  mn <= mx -> 0 <= (mx - mn) / inject_Z (Z.of_nat nb).
Proof.
  intros H. unfold Qdiv. apply Qmult_le_0_compat; [lra|].
  apply Qinv_le_0_compat. rewrite <- (Zle_Qle 0). lia.
Qed.

Lemma step_pos (mn mx : Q) (nb : nat) :
  (0 < nb)%nat -> mn < mx -> 0 < (mx - mn) / inject_Z (Z.of_nat nb).
Proof.
  intros Hn H. unfold Qdiv. apply Qmult_lt_0_compat; [lra|].
  apply Qinv_lt_0_compat. rewrite <- (Zlt_Qlt 0). lia.
Qed.

Lemma edge_mono (mn mx : Q) (nb i j : nat) :
  mn <= mx -> (i <= j)%nat -> edge mn mx nb i <= edge mn mx nb j.
Proof.
  intros H Hij. unfold edge.
  pose proof (step_nonneg nb H) as Hs.
  assert (inject_Z (Z.of_nat i) <= inject_Z (Z.of_nat j))
    by (rewrite <- Zle_Qle; lia).
  assert (inject_Z (Z.of_nat i) * ((mx - mn) / inject_Z (Z.of_nat nb)) <=
          inject_Z (Z.of_nat j) * ((mx - mn) / inject_Z (Z.of_nat nb)))
    by (apply Qmult_le_compat_r; assumption).
  lra.
Qed.

Lemma edge_strict (mn mx : Q) (nb i j : nat) :
  (0 < nb)%nat -> mn < mx -> (i < j)%nat -> edge mn mx nb i < edge mn mx nb j.
Proof.
  intros Hn H Hij. unfold edge.
  pose proof (step_pos Hn H) as Hs.
  assert (inject_Z (Z.of_nat i) < inject_Z (Z.of_nat j))
    by (rewrite <- Zlt_Qlt; lia).
  assert (inject_Z (Z.of_nat i) * ((mx - mn) / inject_Z (Z.of_nat nb)) <
          inject_Z (Z.of_nat j) * ((mx - mn) / inject_Z (Z.of_nat nb)))
    by (apply Qmult_lt_compat_r; assumption).
  lra.
Qed.

Lemma edges_increasing (mn mx : Q) (nb : nat) :
  (0 < nb)%nat -> mn <= mx -> increasing (edges mn mx nb).
Proof.
  intros Hn H i j Hij Hj. rewrite edges_length in Hj.
  rewrite !edges_nth by lia. now apply edge_mono.
Qed.

Lemma edges_strictly_increasing (mn mx : Q) (nb : nat) :
  (0 < nb)%nat -> mn < mx -> strictly_increasing (edges mn mx nb).
Proof.
  intros Hn H i j Hij Hj. rewrite edges_length in Hj.
  rewrite !edges_nth by lia. now apply edge_strict.
Qed.

(** ** Binning: [pd.cut] *)

Lemma last_nth {A : Type} (l : list A) (d : A) :
  last l d = nth (List.length l - 1) l d.
Proof.
  induction l as [|a t IH]; [reflexivity|].
  destruct t as [|b t']; [reflexivity|].
  change (last (a :: b :: t') d) with (last (b :: t') d). rewrite IH.
  simpl. now rewrite Nat.sub_0_r.
Qed.

Lemma increasing_tl (a : Q) (l : list Q) : increasing (a :: l) -> increasing l.
Proof.
  intros H i j Hij Hj. apply (H (S i) (S j)); simpl; lia.
Qed.

Lemma strictly_increasing_tl (a : Q) (l : list Q) :
  strictly_increasing (a :: l) -> strictly_increasing l.
Proof.
  intros H i j Hij Hj. apply (H (S i) (S j)); simpl; lia.
Qed.

Lemma is_monotonic_increasing_iff (l : list Q) :
  pd.is_monotonic_increasing l = true <-> increasing l.
Proof.
  induction l as [|a t IH].
  - split; [|reflexivity]. intros _ i j _ Hj. simpl in Hj. lia.
  - destruct t as [|b t'].
    + split; [|reflexivity]. intros _ i j Hij Hj. simpl in Hj.
      assert (i = 0%nat) by lia. assert (j = 0%nat) by lia. subst. simpl. lra.
    + change (pd.is_monotonic_increasing (a :: b :: t'))
        with (Qle_bool a b && pd.is_monotonic_increasing (b :: t')).
      rewrite andb_true_iff, Qle_bool_iff, IH. split.
      * intros [Hab Ht] i j Hij Hj.
        destruct i as [|i'].
        -- destruct j as [|j']; [simpl; lra|].
           apply Qle_trans with b; [exact Hab|].
           apply (Ht 0%nat j'); simpl in *; lia.
        -- destruct j as [|j']; [lia|].
           apply (Ht i' j'); simpl in *; lia.
      * intros H. split.
        -- apply (H 0%nat 1%nat); simpl; lia.
        -- eapply increasing_tl, H.
Qed.

Lemma strictly_increasing_unique (l : list Q) :
  strictly_increasing l -> pd.unique l = l.
Proof.
  induction l as [|a t IH]; [reflexivity|].
  intros H. simpl. rewrite IH by (eapply strictly_increasing_tl, H).
  f_equal. apply filter_all, Forall_forall. intros y Hy.
  destruct (In_nth _ _ 0 Hy) as [k [Hk <-]].
  specialize (H 0%nat (S k)). simpl in H.
  destruct (Qeq_bool a (nth k t 0)) eqn:E; [|reflexivity].
  apply Qeq_bool_iff in E.
  assert (a < nth k t 0) by (apply H; lia). lra.
Qed.

(** The insertion point separates the edges strictly below [v] from the
    others. *)
Lemma searchsorted_left_le (bins : list Q) (v : Q) :
  (pd.searchsorted_left bins v <= List.length bins)%nat.
Proof.
  induction bins as [|b bs IH]; simpl; [lia|].
  destruct (Qlt_le_dec b v); lia.
Qed.

Lemma searchsorted_left_below (bins : list Q) (v : Q) (i : nat) :
  (i < pd.searchsorted_left bins v)%nat -> nth i bins 0 < v.
Proof.
  revert i. induction bins as [|b bs IH]; simpl; intros i Hi; [lia|].
  destruct (Qlt_le_dec b v) as [Hb|Hb]; [|lia].
  destruct i as [|i']; [exact Hb|]. apply IH. lia.
Qed.

Lemma searchsorted_left_at (bins : list Q) (v : Q) :
  (pd.searchsorted_left bins v < List.length bins)%nat ->
  v <= nth (pd.searchsorted_left bins v) bins 0.
Proof.
  induction bins as [|b bs IH]; simpl; intros H; [lia|].
  destruct (Qlt_le_dec b v) as [Hb|Hb]; [|exact Hb].
  apply IH. lia.
Qed.

Lemma cut_one_in_bracket (bins : list Q) (v : Q) (k : nat) :
  bins <> [] -> increasing bins ->
  pd.cut_one bins (nth 0 bins 0) (Some v) = Some k <-> in_bracket bins k v.
Proof.
  intros Hne Hinc.
  pose proof (searchsorted_left_le bins v) as Hle.
  unfold pd.cut_one, in_bracket.
  destruct (Qeq_bool v (nth 0 bins 0)) eqn:E.
  - apply Qeq_bool_iff in E.
    destruct (Nat.eqb_spec 1 (List.length bins)) as [H1|H1]; cbn [orb].
    + split; [discriminate|]. intros [Hk _]. lia.
    + destruct (Nat.eqb_spec 1 0) as [|_]; [lia|]. split.
      * intros [= <-]. split.
        -- destruct bins as [|? [|? ?]]; simpl in *; [congruence|lia|lia].
        -- right. split; [reflexivity|exact E].
      * intros [Hk [[Hlo Hhi]|[-> _]]]; [|reflexivity].
        exfalso. assert (nth 0 bins 0 <= nth k bins 0) by (apply Hinc; lia).
        lra.
  - apply Qeq_bool_neq in E.
    remember (pd.searchsorted_left bins v) as s eqn:Hs.
    destruct (Nat.eqb_spec s (List.length bins)) as [Hsl|Hsl]; cbn [orb].
    + split; [discriminate|]. intros [Hk [[Hlo Hhi]|[_ Hv]]]; [|now elim E].
      assert (nth (S k) bins 0 < v)
        by (apply searchsorted_left_below; lia).
      lra.
    + destruct (Nat.eqb_spec s 0) as [H0|H0].
      * split; [discriminate|]. intros [Hk [[Hlo Hhi]|[_ Hv]]]; [|now elim E].
        assert (v <= nth s bins 0)
          by (rewrite Hs; apply searchsorted_left_at; lia).
        assert (nth s bins 0 <= nth k bins 0) by (apply Hinc; lia).
        lra.
      * split.
        -- intros [= <-]. split; [lia|]. left. split.
           ++ apply searchsorted_left_below. lia.
           ++ replace (S (s - 1)) with s by lia.
              rewrite Hs. apply searchsorted_left_at. lia.
        -- intros [Hk [[Hlo Hhi]|[_ Hv]]]; [|now elim E].
           f_equal.
           destruct (Nat.lt_trichotomy s (S k)) as [Hlt|[Heq|Hgt]]; [| lia |].
           ++ assert (v <= nth s bins 0)
                by (rewrite Hs; apply searchsorted_left_at; lia).
              assert (nth s bins 0 <= nth k bins 0) by (apply Hinc; lia).
              lra.
           ++ assert (nth (S k) bins 0 < v)
                by (apply searchsorted_left_below; lia).
              lra.
Qed.

(** A value is in at most one bracket. *)
Lemma in_bracket_unique (bins : list Q) (v : Q) (j k : nat) :
  increasing bins ->
  in_bracket bins j v -> in_bracket bins k v -> j = k.
Proof.
  intros Hinc Hj Hk.
  assert (Hne : bins <> []) by (destruct Hj as [Hj _]; destruct bins; simpl in *; [lia|discriminate]).
  apply (cut_one_in_bracket v j Hne Hinc) in Hj.
  apply (cut_one_in_bracket v k Hne Hinc) in Hk.
  congruence.
Qed.

(** A value between the first and the last edge is in some bracket. *)
Lemma cut_one_covers (bins : list Q) (v : Q) :
  (2 <= List.length bins)%nat -> increasing bins ->
  nth 0 bins 0 <= v -> v <= last bins 0 ->
  exists k, pd.cut_one bins (nth 0 bins 0) (Some v) = Some k.
Proof.
  intros Hlen Hinc Hlo Hhi. rewrite last_nth in Hhi.
  pose proof (searchsorted_left_le bins v) as Hle.
  unfold pd.cut_one.
  destruct (Qeq_bool v (nth 0 bins 0)) eqn:E.
  - destruct (Nat.eqb_spec 1 (List.length bins)); [lia|]. simpl. eauto.
  - apply Qeq_bool_neq in E.
    remember (pd.searchsorted_left bins v) as s eqn:Hs.
    destruct (Nat.eqb_spec s (List.length bins)) as [Hsl|Hsl]; cbn [orb].
    + exfalso.
      assert (nth (List.length bins - 1) bins 0 < v)
        by (apply searchsorted_left_below; lia).
      lra.
    + destruct (Nat.eqb_spec s 0) as [H0|H0]; [|eauto].
      exfalso.
      assert (v <= nth s bins 0)
        by (rewrite Hs; apply searchsorted_left_at; lia).
      rewrite H0 in H. apply E. lra.
Qed.

(** A value below the first edge or above the last edge gets no bracket. *)
Lemma cut_one_outside (bins : list Q) (v : Q) :
  bins <> [] -> increasing bins ->
  v < nth 0 bins 0 \/ last bins 0 < v ->
  pd.cut_one bins (nth 0 bins 0) (Some v) = None.
Proof.
  intros Hne Hinc Hout. rewrite last_nth in Hout.
  destruct (pd.cut_one bins (nth 0 bins 0) (Some v)) as [k|] eqn:E;
    [|reflexivity].
  exfalso. apply (cut_one_in_bracket v k Hne Hinc) in E.
  destruct E as [Hk Hin].
  assert (H0 : nth 0 bins 0 <= nth k bins 0) by (apply Hinc; lia).
  assert (H1 : nth (S k) bins 0 <= nth (List.length bins - 1) bins 0)
    by (apply Hinc; lia).
  assert (H2 : nth 0 bins 0 <= nth (S k) bins 0) by (apply Hinc; lia).
  destruct Hout as [Hout|Hout], Hin as [[Hlo Hhi]|[-> Hv]]; lra.
Qed.

(** The code of a category is always one of the categories. *)
Lemma cut_one_code_lt (bins : list Q) (b0 : Q) (x : option Q) (k : nat) :
  bins <> [] ->
  pd.cut_one bins b0 x = Some k -> (S k < List.length bins)%nat.
Proof.
  intros Hne. unfold pd.cut_one. destruct x as [v|]; [|discriminate].
  pose proof (searchsorted_left_le bins v).
  destruct (Qeq_bool v b0).
  - destruct (Nat.eqb_spec 1 (List.length bins)); cbn [orb]; [discriminate|].
    destruct (Nat.eqb_spec 1 0); [lia|].
    intros [= <-]. destruct bins as [|? [|? ?]]; simpl in *; [congruence|lia|lia].
  - destruct (Nat.eqb_spec (pd.searchsorted_left bins v) (List.length bins));
      [discriminate|].
    destruct (Nat.eqb_spec (pd.searchsorted_left bins v) 0); cbn [orb];
      [discriminate|].
    intros [= <-]. lia.
Qed.

Lemma cut_inr (x : list (option Q)) (bins : list Q) :
  bins <> [] -> increasing bins ->
  strictly_increasing bins \/ List.length bins = 2%nat ->
  pd.cut x bins = inr (map (pd.cut_one bins (nth 0 bins 0)) x).
Proof.
  intros Hne Hinc Hu. unfold pd.cut.
  apply is_monotonic_increasing_iff in Hinc. rewrite Hinc. cbn [negb].
  assert (E : (List.length (pd.unique bins) <? List.length bins)%nat
              && negb (List.length bins =? 2)%nat = false).
  { destruct Hu as [Hs|H2].
    - rewrite (strictly_increasing_unique Hs), Nat.ltb_irrefl. reflexivity.
    - rewrite H2. apply andb_false_r. }
  rewrite E. destruct bins; [congruence|reflexivity].
Qed.

Lemma cut_inv (x : list (option Q)) (bins : list Q) (codes : list (option nat)) :
  pd.cut x bins = inr codes ->
  bins <> [] /\ increasing bins /\
  codes = map (pd.cut_one bins (nth 0 bins 0)) x.
Proof.
  unfold pd.cut.
  destruct (pd.is_monotonic_increasing bins) eqn:Hm; cbn [negb]; [|discriminate].
  destruct ((List.length (pd.unique bins) <? List.length bins)%nat
            && negb (List.length bins =? 2)%nat); [discriminate|].
  destruct bins as [|b0 bs]; [discriminate|].
  intros [= <-]. split; [discriminate|]. split; [|reflexivity].
  now apply is_monotonic_increasing_iff.
Qed.

(** ** The sentiment brackets *)

Lemma fg_bins_increasing : increasing fg_bins.
Proof. apply is_monotonic_increasing_iff. reflexivity. Qed.

Lemma cut_fg_bins (x : list (option Q)) :
  pd.cut x fg_bins = inr (map (pd.cut_one fg_bins 0) x).
Proof.
  unfold pd.cut.
  assert (E1 : pd.is_monotonic_increasing fg_bins = true) by reflexivity.
  assert (E2 : (List.length (pd.unique fg_bins) <? List.length fg_bins)%nat
               = false) by reflexivity.
  rewrite E1, E2. reflexivity.
Qed.

Lemma fg_of_code (s : Q) (f : FG) (k : nat) :
  nth_error fg_labels k = Some f ->
  fg_of (Some s) = Some f <-> in_bracket fg_bins k s.
Proof.
  intros Hk. unfold fg_of.
  assert (Hne : fg_bins <> []) by discriminate.
  rewrite <- (cut_one_in_bracket s k Hne fg_bins_increasing).
  change (nth 0 fg_bins 0) with 0.
  destruct (pd.cut_one fg_bins 0 (Some s)) as [i|] eqn:E.
  - pose proof (@cut_one_code_lt _ _ _ _ Hne E) as Hi. simpl in Hi.
    split.
    + intros H. f_equal.
      destruct i as [|[|[|i]]], k as [|[|[|k]]]; simpl in *;
        try congruence; try lia; destruct k; discriminate.
    + intros [= ->]. exact Hk.
  - split; discriminate.
Qed.

Lemma fg_of_Fear (s : Q) :
  fg_of (Some s) = Some Fear <-> 0 <= s /\ s <= 3333 # 100.
Proof.
  rewrite (@fg_of_code s Fear 0) by reflexivity.
  unfold in_bracket. simpl. split.
  - intros [_ [[H1 H2]|[_ H]]]; lra.
  - intros [H1 H2]. split; [lia|].
    destruct (Qlt_le_dec 0 s); [left; split; assumption|right].
    split; [reflexivity|lra].
Qed.

Lemma fg_of_Neutral (s : Q) :
  fg_of (Some s) = Some Neutral <-> 3333 # 100 < s /\ s <= 6667 # 100.
Proof.
  rewrite (@fg_of_code s Neutral 1) by reflexivity.
  unfold in_bracket. simpl. split.
  - intros [_ [H|[H _]]]; [exact H|discriminate].
  - intros H. split; [lia|]. now left.
Qed.

Lemma fg_of_Greed (s : Q) :
  fg_of (Some s) = Some Greed <-> 6667 # 100 < s /\ s <= 100.
Proof.
  rewrite (@fg_of_code s Greed 2) by reflexivity.
  unfold in_bracket. simpl. split.
  - intros [_ [H|[H _]]]; [exact H|discriminate].
  - intros H. split; [lia|]. now left.
Qed.

Lemma fg_of_None : fg_of None = None.
Proof. reflexivity. Qed.

(** ** The analysis set, row by row *)

Lemma assign_annotate (bins : list Q) (r : Row) (rest : list Row) :
  assign (map close (r :: rest))
    (pd.Series_sub (map Some (map close rest) ++ [None])
       (map Some (map close (r :: rest))))
    (map (pd.cut_one bins (nth 0 bins 0)) (map Some (map close (r :: rest))))
    (map (pd.cut_one fg_bins 0) (map Fear_Greed (r :: rest)))
  = annotate bins (r :: rest).
Proof.
  revert r. induction rest as [|r' rest' IH]; intros r.
  - reflexivity.
  - specialize (IH r'). cbn [map app pd.Series_sub assign annotate] in *.
    rewrite IH. reflexivity.
Qed.

Lemma analysis_rows_annotate (subset : list Row) (bins : list Q) :
  bins <> [] -> increasing bins ->
  strictly_increasing bins \/ List.length bins = 2%nat ->
  analysis_rows subset bins = inr (annotate bins subset).
Proof.
  intros Hne Hinc Hu. unfold analysis_rows.
  rewrite (cut_inr _ Hne Hinc Hu), cut_fg_bins. cbn [bind].
  destruct subset as [|r rest]; [reflexivity|].
  f_equal. apply assign_annotate.
Qed.

Lemma analysis_rows_inv (subset : list Row) (bins : list Q) (rows : list ARow) :
  analysis_rows subset bins = inr rows ->
  bins <> [] /\ increasing bins /\ rows = annotate bins subset.
Proof.
  unfold analysis_rows. intros H.
  destruct (pd.cut (map Some (map close subset)) bins) as [e|pb] eqn:E;
    [discriminate|].
  apply cut_inv in E as [Hne [Hinc ->]].
  rewrite cut_fg_bins in H. cbn [bind] in H.
  split; [exact Hne|]. split; [exact Hinc|].
  injection H as <-. destruct subset as [|r rest]; [reflexivity|].
  exact (assign_annotate bins r rest).
Qed.

(** ** Minimum and maximum of the lookback window *)

Lemma fold_min_le (t : list Q) (x : Q) :
  fold_left Qmin t x <= x /\ Forall (fun y => fold_left Qmin t x <= y) t.
Proof.
  revert x. induction t as [|a t IH]; intros x; simpl.
  - split; [lra|constructor].
  - destruct (IH (Qmin x a)) as [H1 H2].
    pose proof (Q.le_min_l x a). pose proof (Q.le_min_r x a).
    split; [lra|]. constructor; [lra|exact H2].
Qed.

Lemma fold_max_ge (t : list Q) (x : Q) :
  x <= fold_left Qmax t x /\ Forall (fun y => y <= fold_left Qmax t x) t.
Proof.
  revert x. induction t as [|a t IH]; intros x; simpl.
  - split; [lra|constructor].
  - destruct (IH (Qmax x a)) as [H1 H2].
    pose proof (Q.le_max_l x a). pose proof (Q.le_max_r x a).
    split; [lra|]. constructor; [lra|exact H2].
Qed.

Lemma Series_min_le (s : list Q) (y : Q) : In y s -> pd.Series_min s <= y.
Proof.
  destruct s as [|x t]; [intros []|]. simpl.
  destruct (fold_min_le t x) as [H1 H2].
  intros [<-|Hy]; [exact H1|].
  rewrite Forall_forall in H2. now apply H2.
Qed.

Lemma Series_max_ge (s : list Q) (y : Q) : In y s -> y <= pd.Series_max s.
Proof.
  destruct s as [|x t]; [intros []|]. simpl.
  destruct (fold_max_ge t x) as [H1 H2].
  intros [<-|Hy]; [exact H1|].
  rewrite Forall_forall in H2. now apply H2.
Qed.

Lemma Series_min_le_max (s : list Q) : pd.Series_min s <= pd.Series_max s.
Proof.
  destruct s as [|x t]; [simpl; lra|].
  apply Qle_trans with x.
  - apply Series_min_le. now left.
  - apply Series_max_ge. now left.
Qed.

(** ** The aggregated grid *)

Lemma stats_cells_from (rows : list ARow) (intervals : list (Q * Q)) (tk : string) :
  stats rows intervals tk = cells_from 0 rows intervals tk.
Proof. reflexivity. Qed.

Lemma cells_from_cons (s : nat) (rows : list ARow) (iv : Q * Q)
    (ivs : list (Q * Q)) (tk : string) :
  cells_from s rows (iv :: ivs) tk =
  map (fun f =>
         let v := group_values rows s f in
         mkCell iv f (pd.Series_mean v) (List.length v) tk) fg_labels
  ++ cells_from (S s) rows ivs tk.
Proof. reflexivity. Qed.

Lemma cells_from_length (s : nat) (rows : list ARow) (ivs : list (Q * Q))
    (tk : string) :
  List.length (cells_from s rows ivs tk) = (List.length ivs * 3)%nat.
Proof.
  revert s. induction ivs as [|iv ivs IH]; intros s; [reflexivity|].
  rewrite cells_from_cons, length_app, IH. simpl. lia.
Qed.

Lemma cells_from_keys (s : nat) (rows : list ARow) (ivs : list (Q * Q))
    (tk : string) :
  map key (cells_from s rows ivs tk) = list_prod ivs fg_labels.
Proof.
  revert s. induction ivs as [|iv ivs IH]; intros s; [reflexivity|].
  rewrite cells_from_cons, map_app, IH. reflexivity.
Qed.

Lemma cells_from_ticker (s : nat) (rows : list ARow) (ivs : list (Q * Q))
    (tk : string) :
  Forall (fun c => c_ticker c = tk) (cells_from s rows ivs tk).
Proof.
  revert s. induction ivs as [|iv ivs IH]; intros s; [constructor|].
  rewrite cells_from_cons. apply Forall_app. split; [|apply IH].
  repeat constructor.
Qed.

Lemma Series_mean_None (v : list Q) :
  pd.Series_mean v = None <-> List.length v = 0%nat.
Proof.
  destruct v; simpl; split; congruence.
Qed.

(** An empty group has count 0 and an undefined mean; a non-empty group has
    a defined mean, zero or not. *)
Lemma cells_from_empty_groups (s : nat) (rows : list ARow) (ivs : list (Q * Q))
    (tk : string) :
  Forall (fun c => count c = 0%nat <-> mean c = None) (cells_from s rows ivs tk).
Proof.
  revert s. induction ivs as [|iv ivs IH]; intros s; [constructor|].
  rewrite cells_from_cons. apply Forall_app. split; [|apply IH].
  cbn [map fg_labels].
  repeat (apply Forall_cons;
          [cbn [count mean]; symmetry; apply Series_mean_None|]).
  apply Forall_nil.
Qed.

Lemma cells_from_sum_count (s : nat) (rows : list ARow) (ivs : list (Q * Q))
    (tk : string) :
  sum_count (cells_from s rows ivs tk) =
  list_sum (map (row_count rows) (seq s (List.length ivs))).
Proof.
  revert s. induction ivs as [|iv ivs IH]; intros s; [reflexivity|].
  rewrite cells_from_cons. unfold sum_count in *.
  rewrite map_app, list_sum_app, IH. cbn [List.length seq map list_sum].
  f_equal. unfold row_count. simpl. lia.
Qed.

Lemma row_count_cons (r : ARow) (rows : list ARow) (p : nat) :
  row_count (r :: rows) p =
  ((match price_bracket r, fg_bracket r, next_day_gain r with
    | Some p', Some _, Some _ => if (p' =? p)%nat then 1 else 0
    | _, _, _ => 0
    end) + row_count rows p)%nat.
Proof.
  unfold row_count, group_values. cbn [flat_map map fg_labels list_sum].
  rewrite !length_app.
  destruct (price_bracket r) as [p'|]; [|simpl; lia].
  destruct (fg_bracket r) as [f'|]; [|simpl; lia].
  destruct (next_day_gain r) as [g|]; [|simpl; lia].
  destruct (p' =? p)%nat; [|simpl; lia].
  destruct f'; simpl; lia.
Qed.

Lemma sum_indicator (p' s n : nat) :
  list_sum (map (fun p => if (p' =? p)%nat then 1 else 0)%nat (seq s n)) =
  (if (s <=? p')%nat && (p' <? s + n)%nat then 1 else 0)%nat.
Proof.
  revert s. induction n as [|n IH]; intros s.
  - simpl. destruct (Nat.leb_spec s p'), (Nat.ltb_spec p' (s + 0)); simpl; lia.
  - change (seq s (S n)) with (s :: seq (S s) n).
    change (list_sum (map (fun p => if (p' =? p)%nat then 1 else 0)%nat
                        (s :: seq (S s) n)))
      with ((if (p' =? s)%nat then 1 else 0) +
            list_sum (map (fun p => if (p' =? p)%nat then 1 else 0)%nat
                        (seq (S s) n)))%nat.
    rewrite IH.
    destruct (Nat.eqb_spec p' s), (Nat.leb_spec s p'), (Nat.leb_spec (S s) p'),
      (Nat.ltb_spec p' (s + S n)), (Nat.ltb_spec p' (S s + n)); simpl; lia.
Qed.

Lemma list_sum_map_add {B : Type} (f g : B -> nat) (l : list B) :
  list_sum (map (fun x => f x + g x)%nat l) =
  (list_sum (map f l) + list_sum (map g l))%nat.
Proof.
  induction l as [|x t IH]; simpl; [reflexivity|]. rewrite IH. lia.
Qed.

Lemma list_sum_map_zero {B : Type} (l : list B) :
  list_sum (map (fun _ => 0%nat) l) = 0%nat.
Proof.
  induction l; simpl; auto.
Qed.

(** Count conservation at the level of the grid: the counts add up to the
    number of rows that have both keys and a gain. *)
Lemma stats_sum_count (rows : list ARow) (ivs : list (Q * Q)) (tk : string) :
  sum_count (stats rows ivs tk) =
  List.length (filter (in_grid (List.length ivs)) rows).
Proof.
  rewrite stats_cells_from, cells_from_sum_count.
  induction rows as [|r rows IH].
  - unfold row_count, group_values. simpl. apply list_sum_map_zero.
  - rewrite (map_ext _ _ (row_count_cons r rows)), list_sum_map_add, IH.
    cbn [filter]. unfold in_grid at 2.
    destruct (price_bracket r) as [p'|]; [|now rewrite list_sum_map_zero].
    destruct (fg_bracket r) as [f'|]; [|now rewrite list_sum_map_zero].
    destruct (next_day_gain r) as [g|]; [|now rewrite list_sum_map_zero].
    rewrite sum_indicator. simpl.
    destruct (Nat.ltb_spec p' (List.length ivs)); reflexivity.
Qed.

Lemma length_removelast' {B : Type} (l : list B) :
  List.length (removelast l) = (List.length l - 1)%nat.
Proof.
  rewrite removelast_firstn_len, length_firstn. lia.
Qed.

Lemma In_removelast {B : Type} (l : list B) (x : B) :
  In x (removelast l) -> In x l.
Proof.
  rewrite removelast_firstn_len. intros H.
  rewrite <- (firstn_skipn (Nat.pred (List.length l)) l).
  apply in_or_app. now left.
Qed.

Lemma from_breaks_length (bins : list Q) :
  List.length (pd.from_breaks bins) = (List.length bins - 1)%nat.
Proof.
  unfold pd.from_breaks. rewrite length_combine, length_removelast'.
  destruct bins; simpl; lia.
Qed.

Lemma group_values_app (r1 r2 : list ARow) (p : nat) (f : FG) :
  group_values (r1 ++ r2) p f = group_values r1 p f ++ group_values r2 p f.
Proof. apply flat_map_app. Qed.

(** Rows lacking a key or a gain can be dropped without changing a group. *)
Lemma group_values_filter (keep : ARow -> bool) (rows : list ARow)
    (p : nat) (f : FG) :
  (forall a, In a rows -> keep a = false ->
     price_bracket a = None \/ fg_bracket a = None \/ next_day_gain a = None) ->
  group_values (filter keep rows) p f = group_values rows p f.
Proof.
  induction rows as [|a rows IH]; intros H; [reflexivity|].
  assert (IH' : group_values (filter keep rows) p f = group_values rows p f)
    by (apply IH; intros b Hb; apply H; now right).
  cbn [filter]. destruct (keep a) eqn:E.
  - unfold group_values in *. cbn [flat_map]. now rewrite IH'.
  - rewrite IH'. unfold group_values at 2. cbn [flat_map].
    fold (group_values rows p f).
    destruct (H a (or_introl eq_refl) E) as [-> | [-> | ->]];
      [reflexivity | |].
    + destruct (price_bracket a); reflexivity.
    + destruct (price_bracket a); [destruct (fg_bracket a)|]; reflexivity.
Qed.

Lemma cells_from_ext (s : nat) (rows rows' : list ARow) (ivs : list (Q * Q))
    (tk : string) :
  (forall p f, group_values rows p f = group_values rows' p f) ->
  cells_from s rows ivs tk = cells_from s rows' ivs tk.
Proof.
  intros H. revert s. induction ivs as [|iv ivs IH]; intros s; [reflexivity|].
  rewrite !cells_from_cons, IH. f_equal.
  apply map_ext. intros f. cbn zeta. now rewrite H.
Qed.

Lemma stats_filter (keep : ARow -> bool) (rows : list ARow)
    (ivs : list (Q * Q)) (tk : string) :
  (forall a, In a rows -> keep a = false ->
     price_bracket a = None \/ fg_bracket a = None \/ next_day_gain a = None) ->
  stats (filter keep rows) ivs tk = stats rows ivs tk.
Proof.
  intros H. rewrite !stats_cells_from. apply cells_from_ext.
  intros p f. now apply group_values_filter.
Qed.

(** Position by position, what lines 87-93 assign to a row. *)
Lemma annotate_nth_error (bins : list Q) (sub : list Row) (i : nat) :
  nth_error (annotate bins sub) i =
  option_map (fun r =>
    mkARow (close r)
      (option_map (fun r' => close r' - close r) (nth_error sub (S i)))
      (pd.cut_one bins (nth 0 bins 0) (Some (close r)))
      (fg_of (Fear_Greed r)))
    (nth_error sub i).
Proof.
  revert i. induction sub as [|r rest IH]; intros i.
  - destruct i; reflexivity.
  - destruct i as [|i'].
    + cbn [annotate nth_error option_map]. f_equal. f_equal.
      destruct rest; reflexivity.
    + cbn [annotate nth_error]. apply IH.
Qed.

Lemma annotate_length (bins : list Q) (sub : list Row) :
  List.length (annotate bins sub) = List.length sub.
Proof.
  induction sub; simpl; congruence.
Qed.

Lemma annotate_app_last (bins : list Q) (sub : list Row) (r : Row) :
  annotate bins (sub ++ [r]) =
  removelast (annotate bins (sub ++ [r])) ++
  [mkARow (close r) None (pd.cut_one bins (nth 0 bins 0) (Some (close r)))
     (fg_of (Fear_Greed r))].
Proof.
  induction sub as [|x sub IH]; [reflexivity|].
  cbn [app annotate]. rewrite IH at 1.
  remember (annotate bins (sub ++ [r])) as l eqn:El.
  destruct l as [|a l'].
  - destruct sub; discriminate.
  - cbn [removelast app]. reflexivity.
Qed.

(** The last row of the analysis set, having no gain, is in no group. *)
Lemma stats_removelast (bins : list Q) (sub : list Row) (ivs : list (Q * Q))
    (tk : string) :
  stats (removelast (annotate bins sub)) ivs tk = stats (annotate bins sub) ivs tk.
Proof.
  induction sub as [|r0 sub0 _] using rev_ind; [reflexivity|].
  rewrite annotate_app_last at 2.
  rewrite !stats_cells_from. apply cells_from_ext. intros p f.
  rewrite group_values_app.
  assert (E : forall a, next_day_gain a = None -> group_values [a] p f = []).
  { intros a Ha. unfold group_values. cbn [flat_map]. rewrite Ha.
    destruct (price_bracket a); [destruct (fg_bracket a)|]; reflexivity. }
  rewrite E by reflexivity. now rewrite app_nil_r.
Qed.

(** ** The call, by its parts *)

Lemma min_close_le_max_close (df : list Row) (tk : string) (d lb : Z) :
  min_close df tk d lb <= max_close df tk d lb.
Proof. apply Series_min_le_max. Qed.

Lemma p_bins_facts (df : list Row) (tk : string) (d lb nb : Z) :
  (1 <= nb)%Z ->
  (min_close df tk d lb < max_close df tk d lb \/ nb = 1%Z) ->
  p_bins df tk d lb nb <> [] /\ increasing (p_bins df tk d lb nb) /\
  (strictly_increasing (p_bins df tk d lb nb) \/
   List.length (p_bins df tk d lb nb) = 2%nat).
Proof.
  intros Hnb Hr. unfold p_bins.
  split; [|split].
  - intros E. apply (f_equal (@List.length Q)) in E.
    rewrite edges_length in E. discriminate.
  - apply edges_increasing; [lia|apply min_close_le_max_close].
  - destruct Hr as [Hr| ->].
    + left. apply edges_strictly_increasing; [lia|exact Hr].
    + right. now rewrite edges_length.
Qed.

(** On a valid input the call returns the grid over the interpolated edges. *)
Lemma analyze_grid (df : list Row) (tk : string) (d lb aw nb : Z) :
  (2 <= List.length (subset_200 df tk d lb))%nat ->
  (1 <= nb)%Z ->
  (min_close df tk d lb < max_close df tk d lb \/ nb = 1%Z) ->
  analysis_rows (subset_100 df tk d aw) (p_bins df tk d lb nb) =
    inr (annotate (p_bins df tk d lb nb) (subset_100 df tk d aw)) /\
  analyze_combined_performance df tk d lb aw nb =
    inr (Stats (stats (annotate (p_bins df tk d lb nb) (subset_100 df tk d aw))
                  (pd.from_breaks (p_bins df tk d lb nb)) tk)).
Proof.
  intros Hlen Hnb Hr.
  destruct (p_bins_facts df tk d lb Hnb Hr) as [Hne [Hinc Hu]].
  pose proof (analysis_rows_annotate (subset_100 df tk d aw) Hne Hinc Hu) as HA.
  split; [exact HA|].
  rewrite analyze_loop_body. unfold loop_body.
  fold (group_of df tk d). fold (subset_200 df tk d lb).
  destruct (Nat.ltb_spec (List.length (subset_200 df tk d lb)) 2); [lia|].
  fold (min_close df tk d lb). fold (max_close df tk d lb).
  rewrite (linspace_edges _ _ Hnb). cbn [bind].
  fold (p_bins df tk d lb nb). fold (subset_100 df tk d aw).
  rewrite HA. reflexivity.
Qed.

(** ** Comparing grids up to the value of the rationals *)

Lemma Forall2_Cell_equiv_count (g e : list Cell) :
  Forall2 Cell_equiv g e -> map count g = map count e.
Proof.
  induction 1 as [|c c' g e Hc _ IH]; [reflexivity|].
  destruct Hc as (_ & _ & _ & _ & Hn & _). simpl. now rewrite Hn, IH.
Qed.

(** ** The five-day scenario *)

(** C1, as stated, fails: on the five-day scenario the function does not
    return the stated grid (the score 60 is at most 66.67, hence Neutral, and
    the close 102 lies in the upper price bracket). *)
Lemma scenario_stated_grid_counterexample :
  ~ (exists g,
       analyze_combined_performance scenario_df "X" 4 5 5 2 = inr (Stats g) /\
       Forall2 Cell_equiv g scenario_stated_grid).
Proof.
  intros [g [H1 H2]].
  apply Forall2_Cell_equiv_count in H2.
  vm_compute in H1. injection H1 as <-. discriminate H2.
Qed.

(** C1, amended: on the five-day scenario (closes 100, 102, 98, 101, 103,
    scores 20, 40, 60, 80, NaN, both windows 5, 2 brackets, target the last
    day) the edges are 98, 100.5, 103, the next-day gains of days 0-3 are
    2, -4, 3, 2, the sentiment brackets of days 0-3 are Fear, Neutral,
    Neutral, Greed, and the grid is: ([98,100.5], Fear) mean 2 count 1,
    ([98,100.5], Neutral) mean 3 count 1, ((100.5,103], Neutral) mean -4
    count 1, ((100.5,103], Greed) mean 2 count 1, the two other cells
    count 0 with no mean. *)
Theorem scenario_grid_computed :
  (exists bins rows,
     np.linspace (min_close scenario_df "X" 4 5) (max_close scenario_df "X" 4 5)
       (2 + 1) = inr bins /\
     Forall2 Qeq bins [98; 201 # 2; 103] /\
     analysis_rows (subset_100 scenario_df "X" 4 5) bins = inr rows /\
     Forall2 option_Qeq (map next_day_gain rows)
       [Some 2; Some (-4); Some 3; Some 2; None] /\
     map price_bracket rows = [Some 0; Some 1; Some 0; Some 1; Some 1]%nat /\
     map fg_bracket rows =
       [Some Fear; Some Neutral; Some Neutral; Some Greed; None]) /\
  exists g,
    analyze_combined_performance scenario_df "X" 4 5 5 2 = inr (Stats g) /\
    Forall2 Cell_equiv g scenario_grid.
Proof.
  split.
  - eexists. eexists.
    split; [vm_compute; reflexivity|].
    split; [repeat constructor|].
    split; [vm_compute; reflexivity|].
    split; [|split]; [repeat constructor | reflexivity | reflexivity].
  - eexists. split; [vm_compute; reflexivity|].
    repeat (constructor; [repeat split; reflexivity|]). constructor.
Qed.

(** ** No data *)

Lemma loop_body_not_continue (tk : string) (g : list Row) (lb aw nb : Z) :
  loop_body tk g lb aw nb = inr None <-> (List.length (pd.tail lb g) < 2)%nat.
Proof.
  unfold loop_body.
  destruct (Nat.ltb_spec (List.length (pd.tail lb g)) 2) as [H|H].
  - split; [intros _; exact H|reflexivity].
  - split; [|lia].
    destruct (np.linspace _ _ _) as [e|bins]; cbn [bind]; [discriminate|].
    destruct (analysis_rows _ _) as [e|rows]; cbn [bind]; discriminate.
Qed.

(** A frame dated after the target only: the same empty result. *)
Lemma no_observation_no_data (df : list Row) (tk : string) (d lb aw nb : Z) :
  (forall r, In r df -> ticker r = tk -> (d < date r)%Z) ->
  analyze_combined_performance df tk d lb aw nb = inr Empty_DataFrame.
Proof.
  intros H. rewrite analyze_loop_body.
  assert (E : prepare df tk d = []).
  { unfold prepare.
    replace (filter (fun r => (date r <=? d)%Z)
               (filter (fun r => String.eqb (ticker r) tk) df)) with (@nil Row);
      [reflexivity|].
    symmetry. induction df as [|r df IH]; [reflexivity|]. cbn [filter].
    assert (IH' : filter (fun r => (date r <=? d)%Z)
                    (filter (fun r => String.eqb (ticker r) tk) df) = [])
      by (apply IH; intros x Hx; apply H; now right).
    destruct (String.eqb_spec (ticker r) tk) as [Ht|Ht]; [|exact IH'].
    cbn [filter]. specialize (H r (or_introl eq_refl) Ht).
    destruct (Z.leb_spec (date r) d); [lia|exact IH']. }
  rewrite E, loop_body_nil. reflexivity.
Qed.

(** C3, as stated, fails: a target date absent from the series does not
    give the empty result when earlier observations exist. *)
Lemma target_date_absent_counterexample :
  ~ (~ In 3%Z (map date gap_df) ->
     analyze_combined_performance gap_df "X" 3 200 100 10 = inr Empty_DataFrame).
Proof.
  intros H.
  assert (Hn : ~ In 3%Z (map date gap_df)).
  { simpl. intros [E|[E|[E|[E|[]]]]]; discriminate E. }
  specialize (H Hn). vm_compute in H. discriminate H.
Qed.

Lemma short_window_no_data (df : list Row) (tk : string) (d lb aw nb : Z) :
  (List.length (subset_200 df tk d lb) < 2)%nat ->
  analyze_combined_performance df tk d lb aw nb = inr Empty_DataFrame.
Proof.
  intros H. rewrite analyze_loop_body.
  apply (loop_body_not_continue tk (prepare df tk d) lb aw nb) in H.
  now rewrite H.
Qed.

(** C3, amended: the function returns the empty frame, never an error nor a
    grid, exactly when fewer than 2 observations of the ticker dated at or
    before the target date fall in the trailing lookback window (which
    covers an unknown ticker and a target before the first observation); a
    target date merely absent from the series is no such case. *)
Theorem no_data_iff (df : list Row) (tk : string) (d lb aw nb : Z) :
  analyze_combined_performance df tk d lb aw nb = inr Empty_DataFrame <->
  (List.length (subset_200 df tk d lb) < 2)%nat.
Proof.
  unfold subset_200, group_of.
  rewrite analyze_loop_body,
    <- (loop_body_not_continue tk (prepare df tk d) lb aw nb).
  destruct (loop_body tk (prepare df tk d) lb aw nb) as [e|[s|]];
    split; intros H; try discriminate H; reflexivity.
Qed.

Lemma no_data_iff_witness :
  (List.length (subset_200 gap_df "X" 0 200) < 2)%nat /\
  analyze_combined_performance gap_df "X" 0 200 100 10 = inr Empty_DataFrame.
Proof.
  assert (H : (List.length (subset_200 gap_df "X" 0 200) < 2)%nat)
    by (vm_compute; lia).
  split; [exact H|].
  exact (proj2 (no_data_iff gap_df "X" 0 200 100 10) H).
Defined.

(** ** Degenerate price range *)

Lemma unique_In (l : list Q) (y : Q) : In y (pd.unique l) -> In y l.
Proof.
  induction l as [|a t IH]; [intros []|]. simpl.
  intros [->|H]; [now left|]. right. apply IH.
  now apply filter_In in H as [H _].
Qed.

Lemma filter_none {B : Type} (f : B -> bool) (l : list B) :
  Forall (fun x => f x = false) l -> filter f l = [].
Proof.
  induction 1 as [|x t Hx _ IH]; simpl; [reflexivity|]. now rewrite Hx.
Qed.

Lemma unique_constant (a : Q) (t : list Q) :
  Forall (fun y => y == a) t -> pd.unique (a :: t) = [a].
Proof.
  intros H. simpl. f_equal. apply filter_none, Forall_forall.
  intros y Hy. apply unique_In in Hy. rewrite Forall_forall in H.
  specialize (H y Hy). apply negb_false_iff, Qeq_bool_iff. now symmetry.
Qed.

Lemma edges_constant (mn mx : Q) (nb : nat) :
  (0 < nb)%nat -> mn == mx -> Forall (fun y => y == mn) (edges mn mx nb).
Proof.
  intros Hn E. apply Forall_forall. intros y Hy.
  destruct (In_nth _ _ 0 Hy) as [i [Hi <-]]. rewrite edges_length in Hi.
  rewrite edges_nth by lia. unfold edge.
  assert (Hz : ~ inject_Z (Z.of_nat nb) == 0).
  { intros F. assert (0 < inject_Z (Z.of_nat nb)); [|lra].
    rewrite <- (Zlt_Qlt 0). lia. }
  rewrite <- E. field. exact Hz.
Qed.

Lemma Series_min_constant (c : Q) (s : list Q) :
  s <> [] -> Forall (fun y => y == c) s -> pd.Series_min s == c.
Proof.
  destruct s as [|x t]; [congruence|]. intros _ H.
  inversion H as [|? ? Hx Ht]; subst. simpl.
  clear H. revert x Hx. induction Ht as [|a t Ha _ IH]; intros x Hx; simpl.
  - exact Hx.
  - apply IH. destruct (Q.min_spec x a) as [[_ ->]|[_ ->]]; assumption.
Qed.

Lemma Series_max_constant (c : Q) (s : list Q) :
  s <> [] -> Forall (fun y => y == c) s -> pd.Series_max s == c.
Proof.
  destruct s as [|x t]; [congruence|]. intros _ H.
  inversion H as [|? ? Hx Ht]; subst. simpl.
  clear H. revert x Hx. induction Ht as [|a t Ha _ IH]; intros x Hx; simpl.
  - exact Hx.
  - apply IH. destruct (Q.max_spec x a) as [[_ ->]|[_ ->]]; assumption.
Qed.

(** With all closes of the lookback window equal and two brackets or more,
    every interpolated edge is the same number and [pd.cut] rejects them:
    the call raises instead of returning a grid. *)
Lemma degenerate_range_raises (df : list Row) (tk : string) (d lb aw nb : Z)
    (c : Q) :
  (2 <= List.length (subset_200 df tk d lb))%nat ->
  Forall (fun r => close r == c) (subset_200 df tk d lb) ->
  (2 <= nb)%Z ->
  analyze_combined_performance df tk d lb aw nb =
  inl ValueError_bin_edges_not_unique.
Proof.
  intros Hlen Hc Hnb.
  assert (Hs : map close (subset_200 df tk d lb) <> []).
  { intros E. apply (f_equal (@List.length Q)) in E.
    rewrite length_map in E. simpl in E. lia. }
  assert (Hall : Forall (fun y => y == c) (map close (subset_200 df tk d lb))).
  { apply Forall_forall. intros y Hy. apply in_map_iff in Hy as [r [<- Hr]].
    rewrite Forall_forall in Hc. now apply Hc. }
  pose proof (Series_min_constant Hs Hall) as Hmin.
  pose proof (Series_max_constant Hs Hall) as Hmax.
  fold (min_close df tk d lb) in Hmin. fold (max_close df tk d lb) in Hmax.
  rewrite analyze_loop_body. unfold loop_body.
  fold (group_of df tk d). fold (subset_200 df tk d lb).
  destruct (Nat.ltb_spec (List.length (subset_200 df tk d lb)) 2); [lia|].
  fold (min_close df tk d lb). fold (max_close df tk d lb).
  rewrite linspace_edges by lia. cbn [bind].
  set (mn := min_close df tk d lb) in *. set (mx := max_close df tk d lb) in *.
  assert (Hinc : increasing (edges mn mx (Z.to_nat nb)))
    by (apply edges_increasing; [lia|lra]).
  assert (Hcst : Forall (fun y => y == mn) (edges mn mx (Z.to_nat nb)))
    by (apply edges_constant; [lia|lra]).
  pose proof (edges_length mn mx (Z.to_nat nb)) as Hl.
  unfold analysis_rows, pd.cut.
  apply is_monotonic_increasing_iff in Hinc. rewrite Hinc. cbn [negb].
  destruct (edges mn mx (Z.to_nat nb)) as [|a t] eqn:He; [discriminate|].
  rewrite unique_constant.
  - rewrite Hl. cbn [List.length].
    destruct (Nat.ltb_spec 1 (S (Z.to_nat nb))); [|lia].
    destruct (Nat.eqb_spec (S (Z.to_nat nb)) 2); [lia|]. reflexivity.
  - inversion Hcst as [|? ? Ha Ht]; subst.
    eapply Forall_impl; [|exact Ht]. intros y Hy. simpl in Hy. lra.
Qed.

(** C2: on a series whose lookback closes are all equal, with the default
    parameters, the function does not complete: [pd.cut] raises on the
    repeated edges, where the claim promises a single effective bracket. *)
Theorem flat_prices_raise :
  analyze_combined_performance flat_df "X" 2 200 100 10 =
  inl ValueError_bin_edges_not_unique.
Proof. vm_compute. reflexivity. Qed.

(** With a single bracket the two equal edges are accepted, and the flat
    closes all fall in that bracket. *)
Example flat_prices_single_bracket :
  exists cells,
    analyze_combined_performance flat_df "X" 2 200 100 1 = inr (Stats cells) /\
    map count cells = [1; 1; 0]%nat.
Proof. eexists. split; vm_compute; reflexivity. Qed.

(** ** Parameters outside their range *)

(** C4, as stated, fails: a lookback window of 1 raises nothing. *)
Lemma lookback_one_counterexample :
  ~ (exists e, analyze_combined_performance scenario_df "X" 4 1 5 2 = inl e).
Proof.
  intros [e H]. vm_compute in H. discriminate H.
Qed.

Lemma stats_no_rows (ivs : list (Q * Q)) (tk : string) :
  Forall (fun c => count c = 0%nat /\ mean c = None) (stats [] ivs tk).
Proof.
  rewrite stats_cells_from.
  assert (H : forall s, Forall (fun c => count c = 0%nat /\ mean c = None)
                          (cells_from s [] ivs tk)); [|apply H].
  induction ivs as [|iv ivs IH]; intros s; [constructor|].
  rewrite cells_from_cons. apply Forall_app. split; [|apply IH].
  repeat constructor.
Qed.

(** C4, amended: the function checks none of its parameters.  A lookback
    window of 0 or 1 gives the empty frame; an analysis window of 0, on data
    that is otherwise usable, gives the full grid with count 0 and no mean in
    every cell; a negative number of brackets makes numpy or pandas raise,
    once the lookback window holds 2 observations. *)
Theorem parameters_not_validated (df : list Row) (tk : string) (d : Z) :
  (forall lb aw nb, (0 <= lb < 2)%Z ->
     analyze_combined_performance df tk d lb aw nb = inr Empty_DataFrame) /\
  (forall lb nb,
     (2 <= List.length (subset_200 df tk d lb))%nat -> (1 <= nb)%Z ->
     (min_close df tk d lb < max_close df tk d lb \/ nb = 1%Z) ->
     exists cells,
       analyze_combined_performance df tk d lb 0 nb = inr (Stats cells) /\
       List.length cells = (Z.to_nat nb * 3)%nat /\
       Forall (fun c => count c = 0%nat /\ mean c = None) cells) /\
  (forall lb aw nb,
     (2 <= List.length (subset_200 df tk d lb))%nat -> (nb < 0)%Z ->
     exists e, analyze_combined_performance df tk d lb aw nb = inl e).
Proof.
  split; [|split].
  - intros lb aw nb Hlb. apply short_window_no_data. unfold subset_200.
    assert (lb = 0 \/ lb = 1)%Z as [-> | ->] by lia.
    + rewrite tail_zero. simpl. lia.
    + pose proof (tail_one_length (group_of df tk d)). lia.
  - intros lb nb Hlen Hnb Hr.
    destruct (analyze_grid df tk d lb 0 Hlen Hnb Hr) as [_ H].
    eexists. split; [exact H|].
    unfold subset_100. rewrite tail_zero. cbn [annotate]. split.
    + rewrite stats_cells_from, cells_from_length, from_breaks_length.
      unfold p_bins. rewrite edges_length. lia.
    + apply stats_no_rows.
  - intros lb aw nb Hlen Hnb.
    rewrite analyze_loop_body. unfold loop_body.
    fold (group_of df tk d). fold (subset_200 df tk d lb).
    destruct (Nat.ltb_spec (List.length (subset_200 df tk d lb)) 2); [lia|].
    unfold np.linspace.
    destruct (Z.ltb_spec (nb + 1) 0) as [Hneg|Hneg]; cbn [bind]; [eauto|].
    assert (nb = -1)%Z as -> by lia. cbn [Z.add Z.to_nat Z.opp Z.pos_sub bind].
    unfold analysis_rows, pd.cut. cbn. eauto.
Qed.

Lemma parameters_not_validated_witness :
  analyze_combined_performance scenario_df "X" 4 1 5 2 = inr Empty_DataFrame /\
  (exists cells,
     analyze_combined_performance scenario_df "X" 4 5 0 2 = inr (Stats cells) /\
     List.length cells = 6%nat /\
     Forall (fun c => count c = 0%nat /\ mean c = None) cells) /\
  (exists e, analyze_combined_performance scenario_df "X" 4 5 5 (-3) = inl e).
Proof.
  destruct (parameters_not_validated scenario_df "X" 4) as [H1 [H2 H3]].
  split; [apply H1; lia|]. split.
  - apply H2; [vm_compute; lia | lia | left; reflexivity].
  - apply H3; [vm_compute; lia | lia].
Defined.

(** ** Which rows are counted *)

Lemma annotate_in_grid (bins : list Q) (n : nat) (sub : list Row) :
  List.length (filter (in_grid n) (annotate bins sub)) =
  List.length (filter (eligible bins n) (removelast sub)).
Proof.
  induction sub as [|r rest IH]; [reflexivity|].
  destruct rest as [|r' t].
  - cbn [annotate removelast gain_after filter]. unfold in_grid.
    cbn [price_bracket fg_bracket next_day_gain].
    destruct (pd.cut_one bins (nth 0 bins 0) (Some (close r)));
      [destruct (fg_of (Fear_Greed r))|]; reflexivity.
  - change (removelast (r :: r' :: t)) with (r :: removelast (r' :: t)).
    change (annotate bins (r :: r' :: t))
      with (mkARow (close r) (Some (close r' - close r))
              (pd.cut_one bins (nth 0 bins 0) (Some (close r)))
              (fg_of (Fear_Greed r)) :: annotate bins (r' :: t)).
    cbn [filter]. unfold in_grid at 1, eligible at 1.
    cbn [price_bracket fg_bracket next_day_gain].
    destruct (pd.cut_one bins (nth 0 bins 0) (Some (close r))) as [p|];
      [destruct (fg_of (Fear_Greed r)); [destruct (p <? n)%nat|]|];
      cbn [List.length]; rewrite IH; reflexivity.
Qed.

Lemma fg_of_defined (s : Q) :
  0 <= s -> s <= 100 -> exists f, fg_of (Some s) = Some f.
Proof.
  intros H0 H1.
  destruct (Qlt_le_dec (3333 # 100) s) as [Ha|Ha].
  - destruct (Qlt_le_dec (6667 # 100) s) as [Hb|Hb].
    + exists Greed. apply fg_of_Greed. split; assumption.
    + exists Neutral. apply fg_of_Neutral. split; assumption.
  - exists Fear. apply fg_of_Fear. split; assumption.
Qed.

Lemma edges_last (mn mx : Q) (nb : nat) : last (edges mn mx nb) 0 = mx.
Proof. unfold edges. apply last_last. Qed.

(** A close gets a price bracket exactly when it lies between the minimum
    and the maximum of the lookback window. *)
Lemma cut_one_edges (mn mx : Q) (nb : nat) (c : Q) :
  (0 < nb)%nat -> mn <= mx ->
  let bins := edges mn mx nb in
  (mn <= c /\ c <= mx ->
     exists k, pd.cut_one bins (nth 0 bins 0) (Some c) = Some k /\ (k < nb)%nat) /\
  (c < mn \/ mx < c -> pd.cut_one bins (nth 0 bins 0) (Some c) = None).
Proof.
  intros Hn Hr bins.
  assert (Hne : bins <> []).
  { intros E. apply (f_equal (@List.length Q)) in E. unfold bins in E.
    rewrite edges_length in E. discriminate. }
  assert (Hinc : increasing bins) by (now apply edges_increasing).
  pose proof (edges_first mn mx Hn) as Hfirst. fold bins in Hfirst.
  pose proof (edges_last mn mx nb) as Hlast. fold bins in Hlast.
  split.
  - intros [Hlo Hhi].
    destruct (@cut_one_covers bins c) as [k Hk].
    + unfold bins. rewrite edges_length. lia.
    + exact Hinc.
    + rewrite Hfirst. exact Hlo.
    + rewrite Hlast. exact Hhi.
    + exists k. split; [exact Hk|].
      apply cut_one_code_lt in Hk; [|exact Hne].
      unfold bins in Hk. rewrite edges_length in Hk. lia.
  - intros Hout. apply cut_one_outside; [exact Hne|exact Hinc|].
    rewrite Hlast, Hfirst. exact Hout.
Qed.

Lemma eligible_spec (mn mx : Q) (nb : nat) (r : Row) :
  (0 < nb)%nat -> mn <= mx -> sentiment_in_range r ->
  eligible (edges mn mx nb) nb r = sentiment_defined r && close_within mn mx r.
Proof.
  intros Hn Hr Hs. unfold eligible, sentiment_defined, close_within.
  unfold sentiment_in_range in Hs.
  destruct (cut_one_edges (close r) Hn Hr) as [Hin Hout].
  destruct (Fear_Greed r) as [s|].
  - destruct Hs as [H0 H1]. destruct (fg_of_defined H0 H1) as [f ->].
    cbn [andb].
    destruct (Qle_bool mn (close r)) eqn:E1.
    + destruct (Qle_bool (close r) mx) eqn:E2.
      * apply Qle_bool_iff in E1, E2.
        destruct (Hin (conj E1 E2)) as [k [-> Hk]].
        cbn [andb]. now apply Nat.ltb_lt.
      * rewrite Hout; [reflexivity|]. right.
        apply Qnot_le_lt. intros F. apply Qle_bool_iff in F. congruence.
    + rewrite Hout; [reflexivity|]. left.
      apply Qnot_le_lt. intros F. apply Qle_bool_iff in F. congruence.
  - rewrite fg_of_None.
    destruct (pd.cut_one _ _ _); reflexivity.
Qed.

(** C5, as stated, fails: on this valid input, with lookback 2 and
    analysis 4, two of the three days that have a score and a next day lie
    below the lookback minimum and are in no cell, so the counts add up to
    1, not 3. *)
Lemma count_conservation_counterexample :
  valid_input drift_df "X" 3 2 4 2 /\
  Forall sentiment_in_range (subset_100 drift_df "X" 3 4) /\
  exists cells,
    analyze_combined_performance drift_df "X" 3 2 4 2 = inr (Stats cells) /\
    sum_count cells <>
    List.length (filter sentiment_defined
                   (removelast (subset_100 drift_df "X" 3 4))).
Proof.
  split; [|split].
  - unfold valid_input, computes_grid. repeat split; try lia.
    + vm_compute. lia.
    + left. reflexivity.
  - vm_compute. repeat constructor; discriminate.
  - eexists. split; [vm_compute; reflexivity|]. vm_compute. discriminate.
Qed.

(** C5, amended: for every valid input whose scores lie in [0, 100], the
    counts of all cells add up to the number of observations of the analysis
    window, the last one excluded, whose sentiment score is defined and
    whose close lies within [min_close, max_close] of the lookback window;
    this is at most the length of the analysis window minus 1, and when the
    analysis window is no longer than the lookback window it is the number
    of observations, the last one excluded, whose score is defined. *)
Theorem count_conservation (df : list Row) (tk : string) (d lb aw nb : Z) :
  valid_input df tk d lb aw nb ->
  Forall sentiment_in_range (subset_100 df tk d aw) ->
  exists cells,
    analyze_combined_performance df tk d lb aw nb = inr (Stats cells) /\
    sum_count cells =
      List.length
        (filter (fun r => sentiment_defined r &&
                          close_within (min_close df tk d lb)
                            (max_close df tk d lb) r)
           (removelast (subset_100 df tk d aw))) /\
    (sum_count cells <= List.length (subset_100 df tk d aw) - 1)%nat /\
    ((aw <= lb)%Z ->
     sum_count cells =
       List.length (filter sentiment_defined
                      (removelast (subset_100 df tk d aw)))).
Proof.
  intros (Hlb & Haw & Hlen & Hnb & Hr) Hs.
  destruct (analyze_grid df tk d lb aw Hlen Hnb Hr) as [_ H].
  eexists. split; [exact H|].
  set (mn := min_close df tk d lb). set (mx := max_close df tk d lb).
  set (sub := subset_100 df tk d aw) in *.
  assert (Hmm : mn <= mx) by apply min_close_le_max_close.
  assert (E : sum_count
                (stats (annotate (p_bins df tk d lb nb) sub)
                   (pd.from_breaks (p_bins df tk d lb nb)) tk) =
              List.length
                (filter (fun r => sentiment_defined r && close_within mn mx r)
                   (removelast sub))).
  { rewrite stats_sum_count, annotate_in_grid, from_breaks_length.
    unfold p_bins. fold mn. fold mx. rewrite edges_length.
    replace (S (Z.to_nat nb) - 1)%nat with (Z.to_nat nb) by lia.
    f_equal. apply filter_ext_in. intros r Hin.
    apply eligible_spec; [lia|exact Hmm|].
    rewrite Forall_forall in Hs. apply Hs. now apply In_removelast. }
  split; [exact E|]. split.
  - rewrite E, <- length_removelast'. apply filter_length_le.
  - intros Hle. rewrite E. f_equal. apply filter_ext_in. intros r Hin.
    apply In_removelast in Hin.
    assert (Hin200 : In r (subset_200 df tk d lb)).
    { unfold sub, subset_100 in Hin. unfold subset_200.
      eapply tail_In_mono; [|exact Hin]. lia. }
    assert (Hc : In (close r) (map close (subset_200 df tk d lb)))
      by (now apply in_map).
    pose proof (Series_min_le _ _ Hc) as H1.
    pose proof (Series_max_ge _ _ Hc) as H2.
    unfold close_within.
    apply Qle_bool_iff in H1, H2. unfold mn, mx, min_close, max_close.
    rewrite H1, H2. apply andb_true_r.
Qed.

Lemma count_conservation_witness :
  exists cells,
    analyze_combined_performance scenario_df "X" 4 5 5 2 = inr (Stats cells) /\
    sum_count cells = 4%nat.
Proof.
  assert (Hv : valid_input scenario_df "X" 4 5 5 2).
  { unfold valid_input, computes_grid. repeat split; try lia.
    - vm_compute. lia.
    - left. reflexivity. }
  assert (Hs : Forall sentiment_in_range (subset_100 scenario_df "X" 4 5)).
  { vm_compute. repeat constructor; discriminate. }
  destruct (count_conservation Hv Hs) as [cells [H1 [_ [_ H2]]]].
  exists cells. split; [exact H1|].
  rewrite H2 by lia. reflexivity.
Defined.

(** ** The categories of the grid *)

Lemma from_breaks_cons (a b : Q) (t : list Q) :
  pd.from_breaks (a :: b :: t) = (a, b) :: pd.from_breaks (b :: t).
Proof. reflexivity. Qed.

(** The [k]-th price category is the interval between edges [k] and
    [k + 1]. *)
Lemma from_breaks_nth_error (bins : list Q) (k : nat) :
  (S k < List.length bins)%nat ->
  nth_error (pd.from_breaks bins) k = Some (nth k bins 0, nth (S k) bins 0).
Proof.
  revert k. induction bins as [|a t IH]; intros k Hk; [simpl in Hk; lia|].
  destruct t as [|b t']; [simpl in Hk; lia|].
  rewrite from_breaks_cons. destruct k as [|k']; [reflexivity|].
  cbn [nth_error]. rewrite IH by (simpl in *; lia). reflexivity.
Qed.

Lemma strictly_increasing_NoDup (l : list Q) :
  strictly_increasing l -> NoDup l.
Proof.
  induction l as [|a t IH]; intros H; constructor.
  - intros Hin. destruct (In_nth _ _ 0 Hin) as [k [Hk E]].
    specialize (H 0%nat (S k)). simpl in H. rewrite E in H.
    assert (a < a) by (apply H; lia). lra.
  - eapply IH, strictly_increasing_tl, H.
Qed.

Lemma NoDup_combine_r {B C : Type} (l : list B) (l' : list C) :
  NoDup l' -> NoDup (combine l l').
Proof.
  intros H. revert l. induction H as [|y l' Hy _ IH]; intros l.
  - destruct l; constructor.
  - destruct l as [|x l]; cbn [combine]; constructor; [|apply IH].
    intros Hin. apply in_combine_r in Hin. contradiction.
Qed.

Lemma NoDup_list_prod {B C : Type} (l : list B) (l' : list C) :
  NoDup l -> NoDup l' -> NoDup (list_prod l l').
Proof.
  intros Hl Hl'. induction Hl as [|x l Hx _ IH]; [constructor|].
  cbn [list_prod]. apply NoDup_app.
  - apply NoDup_map_NoDup_ForallPairs; [|exact Hl'].
    intros a b _ _ E. now injection E.
  - exact IH.
  - intros [x' y] H1 H2. apply in_map_iff in H1 as [y' [E _]].
    injection E as <- <-. apply in_prod_iff in H2 as [H2 _]. contradiction.
Qed.

Lemma NoDup_short {B : Type} (l : list B) : (List.length l <= 1)%nat -> NoDup l.
Proof.
  destruct l as [|a [|b t]]; simpl; intros H.
  - constructor.
  - constructor; [intros []|constructor].
  - lia.
Qed.

Lemma from_breaks_NoDup (bins : list Q) :
  strictly_increasing bins \/ List.length bins = 2%nat ->
  NoDup (pd.from_breaks bins).
Proof.
  intros [H|H].
  - unfold pd.from_breaks. apply NoDup_combine_r.
    destruct bins as [|a t]; [constructor|].
    eapply strictly_increasing_NoDup, strictly_increasing_tl, H.
  - apply NoDup_short. rewrite from_breaks_length. lia.
Qed.

Lemma fg_labels_NoDup : NoDup fg_labels.
Proof.
  repeat constructor; simpl; intuition discriminate.
Qed.

Lemma annotate_In (bins : list Q) (sub : list Row) (a : ARow) :
  In a (annotate bins sub) ->
  exists r, In r sub /\ a_close a = close r /\
    price_bracket a = pd.cut_one bins (nth 0 bins 0) (Some (close r)) /\
    fg_bracket a = fg_of (Fear_Greed r).
Proof.
  induction sub as [|r rest IH]; [intros []|].
  cbn [annotate]. intros [<-|H].
  - exists r. repeat split. now left.
  - destruct (IH H) as [r' [Hin Hr']]. exists r'. split; [now right|exact Hr'].
Qed.

(** C6: for every valid input the result holds exactly [num_brackets * 3]
    cells, one for each pair of a price interval and a sentiment bracket of
    the full product, no pair twice; a cell without members has count 0 and
    no mean (a mean is absent exactly when the count is 0, so it is never
    confused with a mean of zero); with every score of the analysis window
    missing all cells are such. *)
Theorem partition_completeness (df : list Row) (tk : string) (d lb aw nb : Z) :
  valid_input df tk d lb aw nb ->
  exists cells,
    analyze_combined_performance df tk d lb aw nb = inr (Stats cells) /\
    List.length cells = (Z.to_nat nb * 3)%nat /\
    List.length (pd.from_breaks (p_bins df tk d lb nb)) = Z.to_nat nb /\
    map key cells = list_prod (pd.from_breaks (p_bins df tk d lb nb)) fg_labels /\
    NoDup (map key cells) /\
    Forall (fun c => c_ticker c = tk) cells /\
    Forall (fun c => count c = 0%nat <-> mean c = None) cells /\
    (Forall (fun r => Fear_Greed r = None) (subset_100 df tk d aw) ->
     Forall (fun c => count c = 0%nat /\ mean c = None) cells).
Proof.
  intros (Hlb & Haw & Hlen & Hnb & Hr).
  destruct (analyze_grid df tk d lb aw Hlen Hnb Hr) as [_ H].
  destruct (p_bins_facts df tk d lb Hnb Hr) as [Hne [Hinc Hu]].
  assert (Hn : List.length (pd.from_breaks (p_bins df tk d lb nb)) = Z.to_nat nb).
  { rewrite from_breaks_length. unfold p_bins. rewrite edges_length. lia. }
  eexists. split; [exact H|].
  rewrite stats_cells_from.
  split; [now rewrite cells_from_length, Hn|].
  split; [exact Hn|].
  split; [apply cells_from_keys|].
  split.
  { rewrite cells_from_keys. apply NoDup_list_prod.
    - now apply from_breaks_NoDup.
    - apply fg_labels_NoDup. }
  split; [apply cells_from_ticker|].
  split; [apply cells_from_empty_groups|].
  intros Hnone. rewrite <- stats_cells_from.
  rewrite <- (stats_filter (fun _ => false)).
  - rewrite filter_none by (apply Forall_forall; reflexivity).
    apply stats_no_rows.
  - intros a Ha _. right. left.
    apply annotate_In in Ha as [r [Hin [_ [_ ->]]]].
    rewrite Forall_forall in Hnone. now rewrite (Hnone r Hin).
Qed.

Lemma partition_completeness_witness :
  exists cells,
    analyze_combined_performance scenario_df "X" 4 5 5 2 = inr (Stats cells) /\
    List.length cells = 6%nat.
Proof.
  assert (Hv : valid_input scenario_df "X" 4 5 5 2).
  { unfold valid_input, computes_grid. repeat split; try lia.
    - vm_compute. lia.
    - left. reflexivity. }
  destruct (partition_completeness Hv) as [cells [H1 [H2 _]]].
  exists cells. split; [exact H1|exact H2].
Defined.

(** ** Rows of the analysis set, one at a time *)

Lemma annotate_at (bins : list Q) (sub : list Row) (i : nat) (r : Row) :
  nth_error sub i = Some r ->
  nth_error (annotate bins sub) i =
  Some (mkARow (close r)
          (option_map (fun r' => close r' - close r) (nth_error sub (S i)))
          (pd.cut_one bins (nth 0 bins 0) (Some (close r)))
          (fg_of (Fear_Greed r))).
Proof.
  intros H. rewrite annotate_nth_error, H. reflexivity.
Qed.

(** C8: for every call that reaches the aggregation a row's sentiment bracket is Fear exactly for a
    score in [0, 33.33], Neutral exactly for (33.33, 66.67], Greed exactly
    for (66.67, 100], so that every score in [0, 100] has one bracket; a row
    without score has no bracket, and the rows without bracket can be removed
    without changing any cell. *)
Theorem sentiment_brackets (df : list Row) (tk : string) (d lb aw nb : Z) :
  computes_grid df tk d lb nb ->
  exists rows,
    analysis_rows (subset_100 df tk d aw) (p_bins df tk d lb nb) = inr rows /\
    analyze_combined_performance df tk d lb aw nb =
      inr (Stats (stats rows (pd.from_breaks (p_bins df tk d lb nb)) tk)) /\
    (forall i r, nth_error (subset_100 df tk d aw) i = Some r ->
       exists a, nth_error rows i = Some a /\ a_close a = close r /\
         match Fear_Greed r with
         | None => fg_bracket a = None
         | Some s =>
             (fg_bracket a = Some Fear <-> 0 <= s /\ s <= 3333 # 100) /\
             (fg_bracket a = Some Neutral <-> 3333 # 100 < s /\ s <= 6667 # 100) /\
             (fg_bracket a = Some Greed <-> 6667 # 100 < s /\ s <= 100) /\
             (0 <= s /\ s <= 100 -> exists f, fg_bracket a = Some f)
         end) /\
    stats (filter has_fg_bracket rows) (pd.from_breaks (p_bins df tk d lb nb)) tk
    = stats rows (pd.from_breaks (p_bins df tk d lb nb)) tk.
Proof.
  intros (Hlen & Hnb & Hr).
  destruct (analyze_grid df tk d lb aw Hlen Hnb Hr) as [HA H].
  eexists. split; [exact HA|]. split; [exact H|]. split.
  - intros i r Hi. eexists. split; [apply annotate_at, Hi|].
    cbn [a_close fg_bracket]. split; [reflexivity|].
    destruct (Fear_Greed r) as [s|]; [|reflexivity].
    split; [apply fg_of_Fear|]. split; [apply fg_of_Neutral|].
    split; [apply fg_of_Greed|]. intros [H0 H1]. now apply fg_of_defined.
  - apply stats_filter. intros a _ Hk. right. left.
    unfold has_fg_bracket in Hk. destruct (fg_bracket a); [discriminate|reflexivity].
Qed.

Lemma sentiment_brackets_witness :
  exists rows,
    analysis_rows (subset_100 scenario_df "X" 4 5) (p_bins scenario_df "X" 4 5 2)
      = inr rows /\
    map fg_bracket (filter has_fg_bracket rows) =
      [Some Fear; Some Neutral; Some Neutral; Some Greed].
Proof.
  assert (Hv : computes_grid scenario_df "X" 4 5 2).
  { unfold computes_grid. repeat split; try lia.
    - vm_compute. lia.
    - left. reflexivity. }
  destruct (@sentiment_brackets scenario_df "X"%string 4%Z 5%Z 5%Z 2%Z Hv) as [rows [H1 _]].
  exists rows. split; [exact H1|].
  vm_compute in H1. injection H1 as <-. reflexivity.
Defined.

(** The cell of price category [k] and sentiment bracket [f] stands at
    position [3 * k + fg_index f] of the grid. *)
Lemma cells_from_nth_error (s : nat) (rows : list ARow) (ivs : list (Q * Q))
    (tk : string) (k : nat) (f : FG) (iv : Q * Q) :
  nth_error ivs k = Some iv ->
  nth_error (cells_from s rows ivs tk) (3 * k + fg_index f) =
  Some (mkCell iv f (pd.Series_mean (group_values rows (s + k) f))
          (List.length (group_values rows (s + k) f)) tk).
Proof.
  revert s k. induction ivs as [|iv0 t IH]; intros s k H.
  - destruct k; discriminate.
  - rewrite cells_from_cons. destruct k as [|k].
    + injection H as ->. rewrite Nat.add_0_r. destruct f; reflexivity.
    + cbn [nth_error] in H.
      replace (3 * S k + fg_index f)%nat with (3 + (3 * k + fg_index f))%nat by lia.
      rewrite nth_error_app2 by (cbn; lia).
      cbn [map fg_labels List.length].
      replace (3 + (3 * k + fg_index f) - 3)%nat with (3 * k + fg_index f)%nat by lia.
      rewrite (IH (S s) k H).
      replace (S s + k)%nat with (s + S k)%nat by lia. reflexivity.
Qed.

(** What a group aggregates: the forward differences of the closes at the
    rows of the group. *)
Lemma group_values_cell_gains (bins : list Q) (sub : list Row) (p : nat) (f : FG) :
  group_values (annotate bins sub) p f =
  cell_gains (annotate bins sub) (map close sub) p f.
Proof.
  unfold cell_gains, group_values.
  induction sub as [|r rest IH]; [reflexivity|].
  cbn [annotate map flat_map].
  destruct rest as [|r' rest'].
  - cbn [gain_after price_bracket fg_bracket next_day_gain annotate
         forward_differences map combine filter app].
    destruct (pd.cut_one bins (nth 0 bins 0) (Some (close r)));
      destruct (fg_of (Fear_Greed r)); reflexivity.
  - rewrite IH. clear IH.
    cbn [gain_after price_bracket fg_bracket next_day_gain map].
    change (forward_differences (close r :: close r' :: map close rest'))
      with ((close r' - close r) :: forward_differences (close r' :: map close rest')).
    cbn [combine filter fst]. unfold cell_member at 2.
    cbn [price_bracket fg_bracket].
    destruct (pd.cut_one bins (nth 0 bins 0) (Some (close r))) as [p'|];
      [|reflexivity].
    destruct (fg_of (Fear_Greed r)) as [f'|]; [|reflexivity].
    destruct ((p' =? p)%nat && FG_eqb f' f); reflexivity.
Qed.

Lemma Series_sum_Qsum (v : list Q) : pd.Series_sum v = Qsum v.
Proof.
  induction v as [|x t IH]; [reflexivity|]. cbn. now rewrite IH.
Qed.

(** C9: for every call that reaches the aggregation the gain of every row of the analysis set but the
    last is the close of the next row minus its own close; the last row has
    no gain, and removing it changes no cell.  What a cell aggregates is this
    forward difference: the cell of price bracket [k] and sentiment bracket
    [f] counts the rows but the last that carry both keys, and its mean is
    the sum of [close[i+1] - close[i]] over these rows divided by their
    number, undefined when there is none. *)
Theorem next_day_gain_forward_difference
    (df : list Row) (tk : string) (d lb aw nb : Z) :
  computes_grid df tk d lb nb ->
  exists rows,
    analysis_rows (subset_100 df tk d aw) (p_bins df tk d lb nb) = inr rows /\
    analyze_combined_performance df tk d lb aw nb =
      inr (Stats (stats rows (pd.from_breaks (p_bins df tk d lb nb)) tk)) /\
    List.length rows = List.length (subset_100 df tk d aw) /\
    (forall i r, nth_error (subset_100 df tk d aw) i = Some r ->
       exists a, nth_error rows i = Some a /\ a_close a = close r /\
         (forall r', nth_error (subset_100 df tk d aw) (S i) = Some r' ->
            next_day_gain a = Some (close r' - close r)) /\
         (S i = List.length (subset_100 df tk d aw) -> next_day_gain a = None)) /\
    (forall k f iv,
       nth_error (pd.from_breaks (p_bins df tk d lb nb)) k = Some iv ->
       let gains :=
         cell_gains rows (map close (subset_100 df tk d aw)) k f in
       exists c,
         nth_error (stats rows (pd.from_breaks (p_bins df tk d lb nb)) tk)
           (3 * k + fg_index f) = Some c /\
         c_price_bracket c = iv /\ c_fg_bracket c = f /\
         count c = List.length gains /\
         match mean c with
         | Some m =>
             gains <> [] /\
             m == Qsum gains / inject_Z (Z.of_nat (List.length gains))
         | None => gains = []
         end) /\
    stats (removelast rows) (pd.from_breaks (p_bins df tk d lb nb)) tk
    = stats rows (pd.from_breaks (p_bins df tk d lb nb)) tk.
Proof.
  intros (Hlen & Hnb & Hr).
  destruct (analyze_grid df tk d lb aw Hlen Hnb Hr) as [HA H].
  eexists. split; [exact HA|]. split; [exact H|].
  split; [apply annotate_length|]. split; [|split].
  - intros i r Hi. eexists. split; [apply annotate_at, Hi|].
    cbn [a_close next_day_gain]. split; [reflexivity|]. split.
    + intros r' Hr'. now rewrite Hr'.
    + intros Hlast.
      assert (E : nth_error (subset_100 df tk d aw) (S i) = None)
        by (apply nth_error_None; lia).
      now rewrite E.
  - intros k f iv Hk gains. eexists.
    split; [rewrite stats_cells_from; apply cells_from_nth_error, Hk|].
    cbn [c_price_bracket c_fg_bracket count mean Nat.add].
    rewrite group_values_cell_gains. fold gains.
    split; [reflexivity|]. split; [reflexivity|]. split; [reflexivity|].
    unfold pd.Series_mean. destruct gains as [|g t] eqn:Eg; [reflexivity|].
    split; [discriminate|]. rewrite Series_sum_Qsum. reflexivity.
  - apply stats_removelast.
Qed.

Lemma next_day_gain_forward_difference_witness :
  exists rows,
    analysis_rows (subset_100 scenario_df "X" 4 5) (p_bins scenario_df "X" 4 5 2)
      = inr rows /\
    List.length rows = 5%nat /\
    cell_gains rows (map close (subset_100 scenario_df "X" 4 5)) 1 Neutral =
      [98 - 102].
Proof.
  assert (Hv : computes_grid scenario_df "X" 4 5 2).
  { unfold computes_grid. repeat split; try lia.
    - vm_compute. lia.
    - left. reflexivity. }
  destruct (@next_day_gain_forward_difference scenario_df "X"%string 4%Z 5%Z 5%Z 2%Z Hv) as [rows [H1 [_ [H2 _]]]].
  exists rows. split; [exact H1|]. split; [exact H2|].
  vm_compute in H1. injection H1 as <-. reflexivity.
Defined.

(** C10: for every call that reaches the aggregation a row of the analysis set whose close is below
    the minimum or above the maximum of the lookback window has no price
    bracket, and all such rows can be removed without changing any cell:
    they are dropped, not moved into the first or the last bracket. *)
Theorem out_of_range_dropped (df : list Row) (tk : string) (d lb aw nb : Z) :
  computes_grid df tk d lb nb ->
  let mn := min_close df tk d lb in
  let mx := max_close df tk d lb in
  exists rows,
    analysis_rows (subset_100 df tk d aw) (p_bins df tk d lb nb) = inr rows /\
    analyze_combined_performance df tk d lb aw nb =
      inr (Stats (stats rows (pd.from_breaks (p_bins df tk d lb nb)) tk)) /\
    (forall i r, nth_error (subset_100 df tk d aw) i = Some r ->
       close r < mn \/ mx < close r ->
       exists a, nth_error rows i = Some a /\ a_close a = close r /\
         price_bracket a = None /\ row_within mn mx a = false) /\
    stats (filter (row_within mn mx) rows)
      (pd.from_breaks (p_bins df tk d lb nb)) tk
    = stats rows (pd.from_breaks (p_bins df tk d lb nb)) tk.
Proof.
  intros (Hlen & Hnb & Hr) mn mx.
  destruct (analyze_grid df tk d lb aw Hlen Hnb Hr) as [HA H].
  assert (Hn : (0 < Z.to_nat nb)%nat) by lia.
  assert (Hmm : mn <= mx) by apply min_close_le_max_close.
  assert (Hout : forall c, Qle_bool mn c && Qle_bool c mx = false ->
                           c < mn \/ mx < c).
  { intros c Hc. apply andb_false_iff in Hc as [Hc|Hc]; [left|right];
      apply Qnot_le_lt; intros F; apply Qle_bool_iff in F; congruence. }
  eexists. split; [exact HA|]. split; [exact H|]. split.
  - intros i r Hi Ho. eexists. split; [apply annotate_at, Hi|].
    cbn [a_close price_bracket]. split; [reflexivity|]. split.
    + now apply (cut_one_edges (close r) Hn Hmm).
    + unfold row_within. cbn [a_close].
      destruct (Qle_bool mn (close r)) eqn:E1; [|reflexivity].
      destruct (Qle_bool (close r) mx) eqn:E2; [|reflexivity].
      apply Qle_bool_iff in E1, E2. fold mn mx in Ho. lra.
  - apply stats_filter. intros a Ha Hk. left.
    apply annotate_In in Ha as [r [_ [Hc [-> _]]]].
    unfold row_within in Hk. rewrite Hc in Hk.
    now apply (cut_one_edges (close r) Hn Hmm), Hout.
Qed.

Lemma out_of_range_dropped_witness :
  exists rows,
    analysis_rows (subset_100 drift_df "X" 3 4) (p_bins drift_df "X" 3 2 2)
      = inr rows /\
    map price_bracket rows = [None; None; Some 1%nat; Some 0%nat].
Proof.
  assert (Hv : computes_grid drift_df "X" 3 2 2).
  { unfold computes_grid. repeat split; try lia.
    - vm_compute. lia.
    - left. reflexivity. }
  destruct (@out_of_range_dropped drift_df "X"%string 3%Z 2%Z 4%Z 2%Z Hv) as [rows [H1 _]].
  exists rows. split; [exact H1|].
  vm_compute in H1. injection H1 as <-. reflexivity.
Defined.

(** * Further properties of [Streamlit_fng.py] *)

(** ** Loading and merging *)

Lemma filter_filter_andb {B : Type} (f g : B -> bool) (l : list B) :
  filter f (filter g l) = filter (fun x => g x && f x) l.
Proof.
  induction l as [|x t IH]; [reflexivity|]. cbn [filter].
  destruct (g x); cbn [filter andb]; [destruct (f x)|]; now rewrite IH.
Qed.

(** After [drop_duplicates] a date selects at most one line: the first of
    that date. *)
Lemma drop_duplicates_date_filter (d : Z) (l : list (Z * option Q)) :
  filter (fun i => (fst i =? d)%Z) (drop_duplicates_date l) =
  match find (fun i => (fst i =? d)%Z) l with
  | Some x => [x]
  | None => []
  end.
Proof.
  induction l as [|x t IH]; [reflexivity|].
  cbn [drop_duplicates_date filter find].
  rewrite filter_filter_andb.
  destruct (Z.eqb_spec (fst x) d) as [E|E].
  - f_equal. apply filter_none, Forall_forall. intros y _.
    destruct (Z.eqb_spec (fst y) (fst x)) as [F|F]; [reflexivity|].
    cbn [negb andb]. apply Z.eqb_neq. congruence.
  - rewrite <- IH. apply filter_ext. intros y.
    destruct (Z.eqb_spec (fst y) d) as [F|F]; [|apply andb_false_r].
    destruct (Z.eqb_spec (fst y) (fst x)) as [G|G]; [congruence|reflexivity].
Qed.

Lemma dropna_date_find (d : Z) (ind : list IndicatorLine) :
  find (fun i => (fst i =? d)%Z) (dropna_date ind) =
  option_map (fun l => (d, il_Fear_Greed l)) (first_indicator d ind).
Proof.
  unfold first_indicator.
  induction ind as [|l t IH]; [reflexivity|].
  cbn [dropna_date flat_map find].
  destruct (il_date l) as [d'|]; cbn [app find fst]; [|exact IH].
  destruct (Z.eqb_spec d' d) as [->|E]; [reflexivity|exact IH].
Qed.

Lemma flat_map_singleton {B C : Type} (f : B -> list C) (g : B -> C)
    (l : list B) :
  (forall x, f x = [g x]) -> flat_map f l = map g l.
Proof.
  intros H. induction l as [|x t IH]; [reflexivity|].
  cbn [flat_map map]. now rewrite H, IH.
Qed.

(** The merge, row by row: one row per price, with the value of the first
    indicator line of its date. *)
Lemma merge_left_lookup (prices : list Price) (ind : list IndicatorLine) :
  merge_left prices (drop_duplicates_date (dropna_date ind)) =
  map (fun p => mkRow (pr_ticker p) (pr_date p) (pr_close p)
                  (Fear_Greed_on (pr_date p) ind)) prices.
Proof.
  unfold merge_left. apply flat_map_singleton. intros p.
  rewrite drop_duplicates_date_filter, dropna_date_find.
  unfold Fear_Greed_on.
  destruct (first_indicator (pr_date p) ind); reflexivity.
Qed.

Lemma merge_left_nil (prices : list Price) :
  merge_left prices [] =
  map (fun p => mkRow (pr_ticker p) (pr_date p) (pr_close p) None) prices.
Proof.
  unfold merge_left. now apply flat_map_singleton.
Qed.

(** [dropna] keeps the usable lines, in their order. *)
Lemma dropna_close_volume_usable (lines : list PriceLine) :
  map (fun p => (pr_ticker p, pr_date p, Some (pr_close p)))
    (dropna_close_volume lines) =
  map (fun l => (pl_ticker l, pl_date l, pl_close l)) (filter usable_line lines).
Proof.
  induction lines as [|l t IH]; [reflexivity|].
  cbn [dropna_close_volume flat_map filter]. unfold usable_line at 1.
  destruct (pl_close l) as [c|] eqn:Ec; [|exact IH].
  destruct (pl_volume l) as [v|] eqn:Ev; [|exact IH].
  cbn [app map pr_ticker pr_date pr_close]. rewrite Ec. f_equal. exact IH.
Qed.

(** X1: when the price file loads, and the indicators file loads too or at
    least one price line has both a close and a volume, the merged frame
    holds exactly the lines of the price file whose close and volume are
    both numbers, once each and in file order, with their ticker, date and
    close (the left join neither drops nor repeats a price row, whatever the
    indicators file holds): every such line has its row, every row comes
    from such a line, and [price_count] is the number of those lines and of
    the rows of the merged frame. *)
Theorem load_data_keeps_price_rows (lines : list PriceLine)
    (indicators_file : read_error + list IndicatorLine) :
  (exists ind, indicators_file = inr ind) \/
  (exists l, In l lines /\ usable_line l = true) ->
  exists merged,
    fst (load_data (inr lines) indicators_file) =
      Returned merged (Some (List.length merged)) /\
    map (fun r => (ticker r, date r, Some (close r))) merged =
      map (fun l => (pl_ticker l, pl_date l, pl_close l))
        (filter usable_line lines) /\
    List.length merged = List.length (filter usable_line lines) /\
    (forall l, In l lines -> usable_line l = true ->
       exists r, In r merged /\ ticker r = pl_ticker l /\ date r = pl_date l /\
         Some (close r) = pl_close l) /\
    (forall r, In r merged ->
       exists l v, In l lines /\ pl_ticker l = ticker r /\ pl_date l = date r /\
         pl_close l = Some (close r) /\ pl_volume l = Some v).
Proof.
  intros Hok.
  assert (E : exists fg,
             fst (load_data (inr lines) indicators_file) =
             Returned
               (map (fun p => mkRow (pr_ticker p) (pr_date p) (pr_close p) (fg p))
                  (dropna_close_volume lines))
               (Some (List.length (dropna_close_volume lines)))).
  { destruct indicators_file as [e|ind]; cbn [load_data].
    - destruct Hok as [[ind F]|[l [Hl Hu]]]; [discriminate F|].
      exists (fun _ => None). rewrite <- merge_left_nil.
      destruct (dropna_close_volume lines) eqn:Ed; [|reflexivity].
      exfalso.
      pose proof (dropna_close_volume_usable lines) as Hm. rewrite Ed in Hm.
      apply (f_equal (@List.length _)) in Hm. rewrite length_map in Hm.
      cbn in Hm.
      assert (Hin : In l (filter usable_line lines)) by (apply filter_In; now split).
      destruct (filter usable_line lines); [destruct Hin|discriminate Hm].
    - exists (fun p => Fear_Greed_on (pr_date p) ind).
      now rewrite merge_left_lookup. }
  destruct E as [fg ->]. eexists.
  assert (Hm : map (fun r => (ticker r, date r, Some (close r)))
                 (map (fun p => mkRow (pr_ticker p) (pr_date p) (pr_close p) (fg p))
                    (dropna_close_volume lines)) =
               map (fun l => (pl_ticker l, pl_date l, pl_close l))
                 (filter usable_line lines)).
  { rewrite map_map. cbn [ticker date close]. apply dropna_close_volume_usable. }
  split; [|split; [|split; [|split]]].
  - now rewrite length_map.
  - exact Hm.
  - pose proof (f_equal (@List.length _) Hm) as Hl.
    rewrite !length_map in Hl. now rewrite length_map.
  - intros l Hl Hu.
    assert (Hin : In (pl_ticker l, pl_date l, pl_close l)
                    (map (fun l => (pl_ticker l, pl_date l, pl_close l))
                       (filter usable_line lines))).
    { apply in_map_iff. exists l. split; [reflexivity|]. apply filter_In. now split. }
    rewrite <- Hm in Hin. apply in_map_iff in Hin as [r [Er Hr]].
    exists r. injection Er as E1 E2 E3. now repeat split.
  - intros r Hr. apply in_map_iff in Hr as [p [<- Hp]].
    unfold dropna_close_volume in Hp.
    apply in_flat_map in Hp as [l [Hl Hp]].
    destruct (pl_close l) as [c|] eqn:Ec; [|destruct Hp].
    destruct (pl_volume l) as [v|] eqn:Ev; [|destruct Hp].
    destruct Hp as [<-|[]]. exists l, v. cbn. now repeat split.
Qed.

Lemma load_data_keeps_price_rows_witness :
  exists merged,
    fst (load_data (inr price_lines) (inr indicator_lines)) =
      Returned merged (Some 3%nat) /\
    map (fun r => (ticker r, date r, Some (close r))) merged =
      [("X"%string, 0%Z, Some 100); ("X"%string, 2%Z, Some 98);
       ("X"%string, 4%Z, Some 103)].
Proof.
  destruct (@load_data_keeps_price_rows price_lines (inr indicator_lines))
    as [merged [H1 [H2 [H3 _]]]].
  - left. now exists indicator_lines.
  - exists merged. split; [|exact H2].
    rewrite H1, H3. reflexivity.
Defined.

(** X2: when both files load, no message is shown and the [Fear_Greed] of
    a merged row is the value on the first line of the indicators file that
    bears the row's date, lines without date being skipped; it is NaN when no
    line bears that date.  Later lines of the same date never show. *)
Theorem load_data_first_indicator_wins (lines : list PriceLine)
    (ind : list IndicatorLine) :
  exists merged count,
    load_data (inr lines) (inr ind) = (Returned merged count, []) /\
    forall r, In r merged ->
      Fear_Greed r = Fear_Greed_on (date r) ind /\
      (forall s, Fear_Greed r = Some s ->
         exists pre l post,
           ind = pre ++ l :: post /\ il_date l = Some (date r) /\
           il_Fear_Greed l = Some s /\
           Forall (fun l' => il_date l' <> Some (date r)) pre).
Proof.
  cbn [load_data]. eexists. eexists. split; [reflexivity|].
  rewrite merge_left_lookup. intros r Hr.
  apply in_map_iff in Hr as [p [<- _]]. cbn [Fear_Greed date].
  split; [reflexivity|].
  intros s Hs. unfold Fear_Greed_on, first_indicator in Hs.
  generalize dependent Hs. generalize (pr_date p). intros d.
  induction ind as [|l t IH]; [discriminate|].
  cbn [find]. destruct (il_date l) as [d'|] eqn:Ed.
  - destruct (Z.eqb_spec d' d) as [->|Hne].
    + intros Hs. exists [], l, t. repeat split; [exact Ed|exact Hs|constructor].
    + intros Hs. destruct (IH Hs) as (pre & l0 & post & -> & H1 & H2 & H3).
      exists (l :: pre), l0, post. repeat split; try assumption.
      constructor; [|exact H3]. rewrite Ed. congruence.
  - intros Hs. destruct (IH Hs) as (pre & l0 & post & -> & H1 & H2 & H3).
    exists (l :: pre), l0, post. repeat split; try assumption.
    constructor; [|exact H3]. rewrite Ed. discriminate.
Qed.

Lemma load_data_first_indicator_wins_witness :
  exists merged count,
    load_data (inr price_lines) (inr indicator_lines) = (Returned merged count, []) /\
    map Fear_Greed merged = [Some 20; Some 60; None].
Proof.
  destruct (load_data_first_indicator_wins price_lines indicator_lines)
    as (merged & count & H & _).
  exists merged, count. split; [exact H|].
  vm_compute in H. injection H as <- _. reflexivity.
Defined.

(** ** What a returned grid is made of *)

Lemma prepare_In (df : list Row) (tk : string) (d : Z) (r : Row) :
  In r (prepare df tk d) -> In r df.
Proof.
  intros H.
  assert (F : Forall (fun x => In x df) (prepare df tk d)).
  { unfold prepare. apply sort_values_Forall, Forall_forall.
    intros x Hx. apply filter_In in Hx as [Hx _].
    now apply filter_In in Hx as [Hx _]. }
  rewrite Forall_forall in F. now apply F.
Qed.

Lemma subset_100_In (df : list Row) (tk : string) (d aw : Z) (r : Row) :
  In r (subset_100 df tk d aw) -> In r df.
Proof.
  unfold subset_100, group_of. intros H.
  eapply prepare_In, tail_In, H.
Qed.

(** Whenever the call returns a grid, it is the aggregation of the annotated
    analysis set over the intervals of some increasing edges. *)
Lemma analyze_Stats_inv (df : list Row) (tk : string) (d lb aw nb : Z)
    (cells : list Cell) :
  analyze_combined_performance df tk d lb aw nb = inr (Stats cells) ->
  exists bins,
    np.linspace (min_close df tk d lb) (max_close df tk d lb) (nb + 1) = inr bins /\
    bins <> [] /\ increasing bins /\
    (2 <= List.length (subset_200 df tk d lb))%nat /\
    cells = stats (annotate bins (subset_100 df tk d aw)) (pd.from_breaks bins) tk.
Proof.
  rewrite analyze_loop_body. unfold loop_body.
  fold (group_of df tk d). fold (subset_200 df tk d lb).
  destruct (Nat.ltb_spec (List.length (subset_200 df tk d lb)) 2) as [Hl|Hl];
    [discriminate|].
  fold (min_close df tk d lb). fold (max_close df tk d lb).
  destruct (np.linspace _ _ _) as [e|bins]; cbn [bind]; [discriminate|].
  fold (subset_100 df tk d aw).
  destruct (analysis_rows (subset_100 df tk d aw) bins) as [e|rows] eqn:E;
    cbn [bind]; [discriminate|].
  intros [= <-]. apply analysis_rows_inv in E as [Hne [Hinc ->]].
  exists bins. repeat split; assumption.
Qed.

(** X3: when only the indicators file fails to load and at least one price
    line has a close and a volume, the prices are still returned, with one
    warning and no error, every [Fear_Greed] is NaN, and every grid the
    analysis then returns on that frame is empty of observations: count 0
    and no mean in each cell. *)
Theorem load_data_without_indicators (lines : list PriceLine) (e : read_error) :
  dropna_close_volume lines <> [] ->
  exists data,
    load_data (inr lines) (inl e) =
      (Returned data (Some (List.length data)), [St_warning e]) /\
    List.length data = List.length (dropna_close_volume lines) /\
    Forall (fun r => Fear_Greed r = None) data /\
    forall tk d lb aw nb cells,
      analyze_combined_performance data tk d lb aw nb = inr (Stats cells) ->
      Forall (fun c => count c = 0%nat /\ mean c = None) cells.
Proof.
  intros Hne. cbn [load_data].
  exists (merge_left (dropna_close_volume lines) []).
  assert (Hlen : List.length (merge_left (dropna_close_volume lines) []) =
                 List.length (dropna_close_volume lines))
    by (rewrite merge_left_nil; apply length_map).
  split; [|split; [exact Hlen|]].
  { rewrite Hlen. destruct (dropna_close_volume lines); [congruence|reflexivity]. }
  rewrite merge_left_nil.
  assert (Hnone : Forall (fun r => Fear_Greed r = None)
            (map (fun p => mkRow (pr_ticker p) (pr_date p) (pr_close p) None)
               (dropna_close_volume lines))).
  { apply Forall_forall. intros r Hr. now apply in_map_iff in Hr as [p [<- _]]. }
  split; [exact Hnone|].
  intros tk d lb aw nb cells H.
  apply analyze_Stats_inv in H as (bins & _ & _ & _ & _ & ->).
  rewrite <- (stats_filter (fun _ => false)).
  - rewrite filter_none by (apply Forall_forall; reflexivity).
    apply stats_no_rows.
  - intros a Ha _. right. left.
    apply annotate_In in Ha as [r [Hin [_ [_ ->]]]].
    apply subset_100_In in Hin. rewrite Forall_forall in Hnone.
    now rewrite (Hnone r Hin).
Qed.

Lemma load_data_without_indicators_witness :
  exists data cells,
    fst (load_data (inr price_lines) (inl (Read_error "no file"))) =
      Returned data (Some 3%nat) /\
    analyze_combined_performance data "X" 4 200 100 10 = inr (Stats cells) /\
    Forall (fun c => count c = 0%nat /\ mean c = None) cells.
Proof.
  destruct (@load_data_without_indicators price_lines (Read_error "no file"))
    as (data & H1 & H2 & _ & H).
  - vm_compute. discriminate.
  - vm_compute in H1. injection H1 as <-.
    eexists. eexists. split; [reflexivity|].
    split; [vm_compute; reflexivity|].
    apply (H "X"%string 4%Z 200%Z 100%Z 10%Z). vm_compute. reflexivity.
Defined.

(** ** Only the ticker's rows up to the target date are read *)

Lemma prepare_relevant (df : list Row) (tk : string) (d : Z) :
  prepare df tk d = sort_values (filter (relevant tk d) df).
Proof.
  unfold prepare, relevant. now rewrite filter_filter_andb.
Qed.

(** X4: the result depends only on the rows of the requested ticker dated
    at or before the target date, in their order: rows of other tickers and
    rows after the target date, wherever they stand in the frame, change
    nothing (no look-ahead). *)
Theorem analysis_reads_relevant_rows_only (df df' : list Row) (tk : string)
    (d lb aw nb : Z) :
  filter (relevant tk d) df = filter (relevant tk d) df' ->
  analyze_combined_performance df tk d lb aw nb =
  analyze_combined_performance df' tk d lb aw nb.
Proof.
  intros H. rewrite !analyze_loop_body, !prepare_relevant, H. reflexivity.
Qed.

Lemma analysis_reads_relevant_rows_only_witness :
  analyze_combined_performance
    (scenario_df ++ [mkRow "X" 9 500 (Some 10); mkRow "Y" 1 7 (Some 40)])
    "X" 4 5 5 2 =
  analyze_combined_performance scenario_df "X" 4 5 5 2.
Proof.
  apply analysis_reads_relevant_rows_only. reflexivity.
Defined.

(** ** Brackets follow the order of the prices *)

(** X5: in a call that reaches the aggregation a higher close never gets a
    lower price bracket: for two rows of the analysis set that both have a
    bracket, the order of their closes is the order of their bracket codes. *)
Theorem price_brackets_monotone (df : list Row) (tk : string) (d lb aw nb : Z) :
  computes_grid df tk d lb nb ->
  exists rows,
    analysis_rows (subset_100 df tk d aw) (p_bins df tk d lb nb) = inr rows /\
    analyze_combined_performance df tk d lb aw nb =
      inr (Stats (stats rows (pd.from_breaks (p_bins df tk d lb nb)) tk)) /\
    forall a b ka kb, In a rows -> In b rows ->
      price_bracket a = Some ka -> price_bracket b = Some kb ->
      a_close a <= a_close b -> (ka <= kb)%nat.
Proof.
  intros (Hlen & Hnb & Hr).
  destruct (analyze_grid df tk d lb aw Hlen Hnb Hr) as [HA H].
  destruct (p_bins_facts df tk d lb Hnb Hr) as [Hne [Hinc _]].
  eexists. split; [exact HA|]. split; [exact H|].
  intros a b ka kb Ha Hb Hka Hkb Hle.
  apply annotate_In in Ha as [ra [_ [Hca [Hpa _]]]].
  apply annotate_In in Hb as [rb [_ [Hcb [Hpb _]]]].
  rewrite Hpa in Hka. rewrite Hpb in Hkb. rewrite Hca, Hcb in Hle.
  apply (cut_one_in_bracket _ _ Hne Hinc) in Hka, Hkb.
  destruct Hka as [Hla Hina], Hkb as [Hlb Hinb].
  destruct (Nat.le_gt_cases ka kb) as [Hok|Hgt]; [exact Hok|exfalso].
  set (bins := p_bins df tk d lb nb) in *.
  assert (H1 : nth (S kb) bins 0 <= nth ka bins 0) by (apply Hinc; lia).
  assert (H2 : nth 0 bins 0 <= nth (S kb) bins 0) by (apply Hinc; lia).
  destruct Hina as [[Ha1 Ha2]|[Ha1 _]]; [|lia].
  destruct Hinb as [[Hb1 Hb2]|[_ Hb2]]; lra.
Qed.

Lemma price_brackets_monotone_witness :
  exists rows,
    analysis_rows (subset_100 scenario_df "X" 4 5) (p_bins scenario_df "X" 4 5 2)
      = inr rows /\
    map price_bracket rows = [Some 0; Some 1; Some 0; Some 1; Some 1]%nat.
Proof.
  assert (Hv : computes_grid scenario_df "X" 4 5 2).
  { unfold computes_grid. repeat split; try lia.
    - vm_compute. lia.
    - left. reflexivity. }
  destruct (@price_brackets_monotone scenario_df "X"%string 4%Z 5%Z 5%Z 2%Z Hv)
    as [rows [H1 _]].
  exists rows. split; [exact H1|].
  vm_compute in H1. injection H1 as <-. reflexivity.
Defined.

(** ** The defensive sort *)

Lemma compare_refl (s : string) : String.compare s s = Eq.
Proof.
  pose proof (String.compare_antisym s s) as H.
  destruct (String.compare s s); simpl in H; congruence.
Qed.

Lemma key_leb_same_ticker (r h : Row) :
  ticker r = ticker h -> key_leb r h = (date r <=? date h)%Z.
Proof.
  intros E. unfold key_leb. now rewrite E, compare_refl.
Qed.

Lemma insert_row_Permutation (r : Row) (l : list Row) :
  Permutation (insert_row r l) (r :: l).
Proof.
  induction l as [|h t IH]; simpl; [apply Permutation_refl|].
  destruct (key_leb r h); [apply Permutation_refl|].
  eapply perm_trans; [apply perm_skip, IH|apply perm_swap].
Qed.

Lemma sort_values_Permutation (l : list Row) : Permutation (sort_values l) l.
Proof.
  induction l as [|h t IH]; simpl; [constructor|].
  eapply perm_trans; [apply insert_row_Permutation|now apply perm_skip].
Qed.

Lemma insert_row_sorted (tk : string) (r : Row) (l : list Row) :
  ticker r = tk -> Forall (fun x => ticker x = tk) l ->
  StronglySorted date_le l -> StronglySorted date_le (insert_row r l).
Proof.
  intros Hr Hl Hs. induction Hs as [|h t Hs IH Hh]; simpl.
  - repeat constructor.
  - inversion Hl as [|? ? Hth Htt]; subst.
    rewrite key_leb_same_ticker by congruence.
    destruct (Z.leb_spec (date r) (date h)) as [Hle|Hgt].
    + constructor; [now constructor|].
      constructor; [exact Hle|].
      eapply Forall_impl; [|exact Hh]. unfold date_le. intros x Hx. lia.
    + constructor; [now apply IH|].
      apply insert_row_Forall; [unfold date_le; lia|exact Hh].
Qed.

Lemma sort_values_sorted (tk : string) (l : list Row) :
  Forall (fun x => ticker x = tk) l -> StronglySorted date_le (sort_values l).
Proof.
  induction 1 as [|h t Hh Ht IH]; simpl; [constructor|].
  apply insert_row_sorted with (tk := tk);
    [exact Hh|now apply sort_values_Forall|exact IH].
Qed.

Lemma Permutation_filter {B : Type} (f : B -> bool) (l l' : list B) :
  Permutation l l' -> Permutation (filter f l) (filter f l').
Proof.
  induction 1 as [|x l l' _ IH|x y l|l l' l'' _ IH1 _ IH2]; simpl.
  - constructor.
  - destruct (f x); [now constructor|exact IH].
  - destruct (f x), (f y); try apply Permutation_refl. apply perm_swap.
  - now apply perm_trans with (filter f l').
Qed.

Lemma NoDup_map_injective {B C : Type} (f : B -> C) (l : list B) (x y : B) :
  NoDup (map f l) -> In x l -> In y l -> f x = f y -> x = y.
Proof.
  induction l as [|a t IH]; [intros _ []|].
  cbn [map]. intros Hnd Hx Hy E. inversion Hnd as [|? ? Hna Hnt]; subst.
  destruct Hx as [<-|Hx], Hy as [<-|Hy]; try reflexivity.
  - exfalso. apply Hna. rewrite E. now apply in_map.
  - exfalso. apply Hna. rewrite <- E. now apply in_map.
  - now apply IH.
Qed.

(** Two lists sorted by date that hold the same rows, all of different
    dates, are the same list. *)
Lemma sorted_Permutation_eq (l1 l2 : list Row) :
  StronglySorted date_le l1 -> StronglySorted date_le l2 ->
  Permutation l1 l2 -> NoDup (map date l1) -> l1 = l2.
Proof.
  revert l2. induction l1 as [|a t1 IH]; intros l2 H1 H2 Hp Hnd.
  - apply Permutation_nil in Hp. now subst.
  - destruct l2 as [|b t2].
    + apply Permutation_sym, Permutation_nil in Hp. discriminate.
    + apply StronglySorted_inv in H1 as [H1 Ha].
      apply StronglySorted_inv in H2 as [H2 Hb].
      assert (Hba : In b (a :: t1))
        by (eapply Permutation_in; [apply Permutation_sym, Hp|now left]).
      assert (Hab : In a (b :: t2))
        by (eapply Permutation_in; [exact Hp|now left]).
      assert (E : a = b).
      { apply (NoDup_map_injective date (a :: t1)); [exact Hnd|now left|exact Hba|].
        rewrite Forall_forall in Ha, Hb. unfold date_le in *.
        destruct Hba as [->|Hba]; [reflexivity|].
        destruct Hab as [->|Hab]; [reflexivity|].
        specialize (Ha b Hba). specialize (Hb a Hab). lia. }
      subst b. f_equal. apply IH; [exact H1|exact H2| |].
      * eapply Permutation_cons_inv, Hp.
      * cbn [map] in Hnd. now inversion Hnd.
Qed.

(** X6: the order of the rows in the frame is irrelevant as long as the
    ticker has one row per date up to the target: any rearrangement of the
    frame gives the same result, errors included. *)
Theorem row_order_irrelevant (df df' : list Row) (tk : string) (d lb aw nb : Z) :
  Permutation df df' ->
  NoDup (map date (filter (relevant tk d) df)) ->
  analyze_combined_performance df tk d lb aw nb =
  analyze_combined_performance df' tk d lb aw nb.
Proof.
  intros Hp Hnd. rewrite !analyze_loop_body.
  replace (prepare df' tk d) with (prepare df tk d); [reflexivity|].
  rewrite !prepare_relevant.
  assert (Htk : forall l, Forall (fun x => ticker x = tk) (filter (relevant tk d) l)).
  { intros l. apply Forall_forall. intros x Hx.
    apply filter_In in Hx as [_ Hx]. unfold relevant in Hx.
    apply andb_true_iff in Hx as [Hx _]. now apply String.eqb_eq. }
  apply sorted_Permutation_eq.
  - apply sort_values_sorted with (tk := tk), Htk.
  - apply sort_values_sorted with (tk := tk), Htk.
  - eapply perm_trans; [apply sort_values_Permutation|].
    eapply perm_trans; [apply Permutation_filter, Hp|].
    apply Permutation_sym, sort_values_Permutation.
  - eapply Permutation_NoDup; [|exact Hnd].
    apply Permutation_map, Permutation_sym, sort_values_Permutation.
Qed.

Lemma row_order_irrelevant_witness :
  analyze_combined_performance scenario_df "X" 4 5 5 2 =
  analyze_combined_performance (rev scenario_df) "X" 4 5 5 2.
Proof.
  apply row_order_irrelevant.
  - apply Permutation_rev.
  - vm_compute. repeat constructor; simpl; intuition discriminate.
Defined.

(** ** The calls the page makes *)

Lemma ticker_data_ticker (data : list Row) (sel : string) :
  Forall (fun x => ticker x = sel) (ticker_data data sel).
Proof.
  unfold ticker_data. apply sort_values_Forall, Forall_forall.
  intros x Hx. apply filter_In in Hx as [_ Hx]. now apply String.eqb_eq.
Qed.

Lemma ticker_data_sorted (data : list Row) (sel : string) :
  StronglySorted date_le (ticker_data data sel).
Proof.
  unfold ticker_data. apply sort_values_sorted with (tk := sel).
  apply Forall_forall. intros x Hx.
  apply filter_In in Hx as [_ Hx]. now apply String.eqb_eq.
Qed.

Lemma sorted_prefix_le (l : list Row) (i : nat) (row : Row) :
  StronglySorted date_le l -> nth_error l i = Some row ->
  Forall (fun x => (date x <=? date row)%Z = true) (firstn (S i) l).
Proof.
  intros Hs. revert i. induction Hs as [|a t Hs IH Ha]; intros i Hi.
  - destruct i; discriminate.
  - destruct i as [|i']; cbn [nth_error] in Hi.
    + injection Hi as <-. cbn [firstn]. repeat constructor. apply Z.leb_refl.
    + change (firstn (S (S i')) (a :: t)) with (a :: firstn (S i') t).
      constructor; [|now apply IH].
      apply nth_error_In in Hi. rewrite Forall_forall in Ha.
      specialize (Ha row Hi). unfold date_le in Ha. now apply Z.leb_le.
Qed.

(** The row at position [i] of the ticker's rows has at least [i + 1] rows
    dated at or before it. *)
Lemma prepare_length_ge (data : list Row) (sel : string) (i : nat) (row : Row) :
  nth_error (ticker_data data sel) i = Some row ->
  (S i <= List.length (prepare data sel (date row)))%nat.
Proof.
  intros Hi. unfold prepare.
  rewrite (Permutation_length (sort_values_Permutation _)).
  rewrite <- (Permutation_length
                (Permutation_filter (fun r => (date r <=? date row)%Z)
                   (sort_values_Permutation
                      (filter (fun r => String.eqb (ticker r) sel) data)))).
  fold (ticker_data data sel).
  pose proof (@sorted_prefix_le _ _ _ (ticker_data_sorted data sel) Hi) as Hp.
  rewrite <- (firstn_skipn (S i) (ticker_data data sel)), filter_app, length_app.
  rewrite (filter_all _ Hp), length_firstn.
  assert (i < List.length (ticker_data data sel))%nat
    by (apply nth_error_Some; congruence).
  lia.
Qed.

Lemma tail_length_pos {B : Type} (n : Z) (l : list B) :
  (0 < n)%Z -> List.length (pd.tail n l) = Nat.min (List.length l) (Z.to_nat n).
Proof.
  intros Hn. unfold pd.tail.
  destruct (Z.eqb_spec n 0); [lia|]. destruct (Z.ltb_spec 0 n); [|lia].
  rewrite length_skipn. lia.
Qed.

Lemma analyze_Empty_inv (df : list Row) (tk : string) (d lb aw nb : Z) :
  analyze_combined_performance df tk d lb aw nb = inr Empty_DataFrame ->
  (List.length (subset_200 df tk d lb) < 2)%nat.
Proof.
  rewrite analyze_loop_body. intros H.
  apply (loop_body_not_continue tk (prepare df tk d) lb aw nb).
  destruct (loop_body tk (prepare df tk d) lb aw nb) as [e|[s|]];
    try discriminate H; reflexivity.
Qed.

(** With equal minimum and maximum and two brackets or more, [pd.cut]
    rejects the edges. *)
Lemma flat_range_raises (df : list Row) (tk : string) (d lb aw nb : Z) :
  (2 <= List.length (subset_200 df tk d lb))%nat ->
  min_close df tk d lb == max_close df tk d lb ->
  (2 <= nb)%Z ->
  analyze_combined_performance df tk d lb aw nb =
  inl ValueError_bin_edges_not_unique.
Proof.
  intros Hlen Heq Hnb.
  rewrite analyze_loop_body. unfold loop_body.
  fold (group_of df tk d). fold (subset_200 df tk d lb).
  destruct (Nat.ltb_spec (List.length (subset_200 df tk d lb)) 2); [lia|].
  fold (min_close df tk d lb). fold (max_close df tk d lb).
  rewrite linspace_edges by lia. cbn [bind].
  remember (min_close df tk d lb) as mn eqn:Emn.
  remember (max_close df tk d lb) as mx eqn:Emx.
  assert (Hinc : increasing (edges mn mx (Z.to_nat nb)))
    by (apply edges_increasing; [lia|lra]).
  assert (Hcst : Forall (fun y => y == mn) (edges mn mx (Z.to_nat nb)))
    by (apply edges_constant; [lia|exact Heq]).
  pose proof (edges_length mn mx (Z.to_nat nb)) as Hl.
  unfold analysis_rows, pd.cut.
  apply is_monotonic_increasing_iff in Hinc. rewrite Hinc. cbn [negb].
  destruct (edges mn mx (Z.to_nat nb)) as [|a t] eqn:He; [discriminate|].
  rewrite unique_constant.
  - rewrite Hl. cbn [List.length].
    destruct (Nat.ltb_spec 1 (S (Z.to_nat nb))); [|lia].
    destruct (Nat.eqb_spec (S (Z.to_nat nb)) 2); [lia|]. reflexivity.
  - inversion Hcst as [|? ? Ha Ht]; subst.
    eapply Forall_impl; [|exact Ht]. intros y Hy. simpl in Hy. lra.
Qed.

(** The three outcomes of a call with the default parameters. *)
Lemma analyze_default_outcomes (df : list Row) (tk : string) (d : Z) :
  ((List.length (subset_200 df tk d 200) < 2)%nat /\
   analyze_combined_performance df tk d 200 100 10 = inr Empty_DataFrame) \/
  ((2 <= List.length (subset_200 df tk d 200))%nat /\
   min_close df tk d 200 < max_close df tk d 200 /\
   exists cells,
     analyze_combined_performance df tk d 200 100 10 = inr (Stats cells) /\
     List.length cells = 30%nat) \/
  ((2 <= List.length (subset_200 df tk d 200))%nat /\
   min_close df tk d 200 == max_close df tk d 200 /\
   analyze_combined_performance df tk d 200 100 10 =
   inl ValueError_bin_edges_not_unique).
Proof.
  destruct (Nat.lt_ge_cases (List.length (subset_200 df tk d 200)) 2) as [Hl|Hl].
  - left. split; [exact Hl|]. now apply short_window_no_data.
  - right. pose proof (min_close_le_max_close df tk d 200) as Hle.
    destruct (Qlt_le_dec (min_close df tk d 200) (max_close df tk d 200))
      as [Hlt|Hge].
    + left. split; [exact Hl|]. split; [exact Hlt|].
      assert (Hnb : (1 <= 10)%Z) by lia.
      destruct (analyze_grid df tk d 200 100 Hl Hnb (or_introl Hlt)) as [_ H].
      eexists. split; [exact H|].
      rewrite stats_cells_from, cells_from_length, from_breaks_length.
      unfold p_bins. rewrite edges_length. reflexivity.
    + right. split; [exact Hl|].
      assert (Heq : min_close df tk d 200 == max_close df tk d 200) by lra.
      split; [exact Heq|]. apply flat_range_raises; [exact Hl|exact Heq|lia].
Qed.

Lemma idx_list_from_In (i : nat) (td : list Row) (target : Z) (k : nat) :
  In k (idx_list_from i td target) ->
  exists row, nth_error td (k - i) = Some row /\ date row = target /\ (i <= k)%nat.
Proof.
  revert i. induction td as [|r t IH]; intros i; [intros []|].
  cbn [idx_list_from].
  assert (Hrec : In k (idx_list_from (S i) t target) ->
                 exists row, nth_error (r :: t) (k - i) = Some row /\
                             date row = target /\ (i <= k)%nat).
  { intros H. destruct (IH _ H) as [row [H1 [H2 H3]]].
    exists row. replace (k - i)%nat with (S (k - S i)) by lia.
    repeat split; [exact H1|exact H2|lia]. }
  destruct (Z.eqb_spec (date r) target) as [E|E]; [|exact Hrec].
  intros [<-|H]; [|now apply Hrec].
  exists r. rewrite Nat.sub_diag. repeat split; [exact E|lia].
Qed.

(** What one column shows, by the position of its day. *)
Lemma column_cases (data : list Row) (sel : string) (center : nat) (o : Z) :
  let td := ticker_data data sel in
  let idx := (Z.of_nat center + o)%Z in
  ((idx < 0 \/ Z.of_nat (List.length td) <= idx)%Z /\
   column data sel td center o = ([Column_out_of_range o], None)) \/
  exists row, let day := Column_day o (date row) (close row) (Fear_Greed row) in
    (0 <= idx)%Z /\ nth_error td (Z.to_nat idx) = Some row /\
    ((idx = 0%Z /\
      analyze_combined_performance data sel (date row) 200 100 10 =
        inr Empty_DataFrame /\
      column data sel td center o = ([day; Column_no_data o], None)) \/
     (exists cells,
        analyze_combined_performance data sel (date row) 200 100 10 =
          inr (Stats cells) /\ List.length cells = 30%nat /\
        column data sel td center o = ([day; Column_chart o cells], None)) \/
     (min_close data sel (date row) 200 == max_close data sel (date row) 200 /\
      (2 <= List.length (subset_200 data sel (date row) 200))%nat /\
      column data sel td center o =
        ([day], Some ValueError_bin_edges_not_unique))).
Proof.
  intros td idx. unfold column. fold td. fold idx.
  destruct (Z.leb_spec 0 idx) as [H0|H0]; cbn [andb];
    [|left; split; [lia|reflexivity]].
  destruct (Z.ltb_spec idx (Z.of_nat (List.length td))) as [H1|H1];
    [|left; split; [lia|reflexivity]].
  right.
  destruct (nth_error td (Z.to_nat idx)) as [row|] eqn:Hrow;
    [|apply nth_error_None in Hrow; lia].
  exists row. cbn zeta. split; [exact H0|]. split; [reflexivity|].
  destruct (analyze_default_outcomes data sel (date row))
    as [[Hl He]|[(Hl & Hlt & cells & Hs & Hc)|(Hl & Heq & Hr)]].
  - left. rewrite He. cbn [DataFrame_empty negb].
    split; [|split; reflexivity].
    pose proof (@prepare_length_ge data sel _ _ Hrow) as Hp.
    unfold subset_200, group_of in Hl.
    rewrite tail_length_pos in Hl by lia. lia.
  - right. left. exists cells. rewrite Hs. cbn [DataFrame_empty].
    rewrite Hc. cbn [Nat.eqb negb]. repeat split; assumption.
  - right. right. rewrite Hr. repeat split; assumption.
Qed.

Lemma columns_cons (data : list Row) (sel : string) (td : list Row)
    (center : nat) (o : Z) (rest : list Z) :
  columns data sel td center (o :: rest) =
  match column data sel td center o with
  | (out, Some e) => (out, Some e)
  | (out, None) =>
      (out ++ fst (columns data sel td center rest),
       snd (columns data sel td center rest))
  end.
Proof.
  cbn [columns]. destruct (column data sel td center o) as [out [e|]];
    [reflexivity|].
  now destruct (columns data sel td center rest).
Qed.

Lemma columns_In (data : list Row) (sel : string) (td : list Row)
    (center : nat) (offsets : list Z) (x : element) :
  In x (fst (columns data sel td center offsets)) ->
  exists o, In o offsets /\ In x (fst (column data sel td center o)).
Proof.
  induction offsets as [|o rest IH]; [intros []|].
  rewrite columns_cons.
  destruct (column data sel td center o) as [out [e|]] eqn:E; cbn [fst].
  - intros H. exists o. split; [now left|]. now rewrite E.
  - intros H. apply in_app_or in H as [H|H].
    + exists o. split; [now left|]. now rewrite E.
    + destruct (IH H) as [o' [Ho' Hx]]. exists o'. split; [now right|exact Hx].
Qed.

(** When the loop ends on an exception, the page ends with what the raising
    column had shown. *)
Lemma columns_exn (data : list Row) (sel : string) (td : list Row)
    (center : nat) (offsets : list Z) (e : exn) :
  snd (columns data sel td center offsets) = Some e ->
  exists pre o out,
    In o offsets /\ column data sel td center o = (out, Some e) /\
    fst (columns data sel td center offsets) = pre ++ out.
Proof.
  induction offsets as [|o rest IH]; [discriminate|].
  rewrite columns_cons.
  destruct (column data sel td center o) as [out [e0|]] eqn:E; cbn [fst snd].
  - intros [= ->]. exists [], o, out. repeat split; [now left|exact E].
  - intros H. destruct (IH H) as (pre & o' & out' & Ho' & Hc & Hf).
    exists (out ++ pre), o', out'. repeat split; [now right|exact Hc|].
    now rewrite Hf, app_assoc.
Qed.

Lemma matrix_section_unfold (data : list Row) (sel : string) (d : Z)
    (center : nat) (rest : list nat) :
  idx_list (ticker_data data sel) d = center :: rest ->
  matrix_section data sel d =
  fst (columns data sel (ticker_data data sel) center scenarios) ++
  match snd (columns data sel (ticker_data data sel) center scenarios) with
  | Some e => [Error_calculating_dates e]
  | None => []
  end.
Proof.
  intros H. unfold matrix_section. rewrite H.
  destruct (columns data sel (ticker_data data sel) center scenarios)
    as [out [e|]]; cbn [fst snd]; [reflexivity|now rewrite app_nil_r].
Qed.

Lemma matrix_section_column_element (data : list Row) (sel : string) (d : Z)
    (x : element) :
  In x (matrix_section data sel d) ->
  (forall e, x <> Error_calculating_dates e) ->
  (forall d', x <> Warning_no_trading_data d') ->
  exists center rest o,
    idx_list (ticker_data data sel) d = center :: rest /\
    In o scenarios /\
    In x (fst (column data sel (ticker_data data sel) center o)).
Proof.
  intros Hin Hne Hnw.
  destruct (idx_list (ticker_data data sel) d) as [|center rest] eqn:E.
  - unfold matrix_section in Hin. rewrite E in Hin.
    destruct Hin as [<-|[]]. now elim (Hnw d).
  - rewrite (matrix_section_unfold _ _ _ E) in Hin.
    apply in_app_or in Hin as [Hin|Hin].
    + apply columns_In in Hin as [o [Ho Hx]]. now exists center, rest, o.
    + destruct (snd (columns _ _ _ _ _)) as [e|]; [|destruct Hin].
      destruct Hin as [<-|[]]. now elim (Hne e).
Qed.

(** X7: a column of the matrix says "No Data" only for the ticker's first
    row: from its second trading day on, a day has two observations at or
    before it, so the analysis never returns the empty frame for it. *)
Theorem matrix_no_data_only_first_day (data : list Row) (sel : string)
    (d : Z) (o : Z) :
  In (Column_no_data o) (matrix_section data sel d) ->
  exists center rest row,
    idx_list (ticker_data data sel) d = center :: rest /\
    (Z.of_nat center + o = 0)%Z /\
    nth_error (ticker_data data sel) 0 = Some row /\
    analyze_combined_performance data sel (date row) 200 100 10 =
      inr Empty_DataFrame.
Proof.
  intros Hin.
  apply matrix_section_column_element in Hin
    as (center & rest & o' & E & Ho' & Hx); try discriminate.
  exists center, rest.
  destruct (column_cases data sel center o')
    as [[_ Hc]|(row & H0 & Hrow & [(Hi & He & Hc)|[(cells & _ & _ & Hc)|(_ & _ & Hc)]])];
    cbn zeta in *; rewrite Hc in Hx; cbn [fst] in Hx.
  - destruct Hx as [Hx|[]]. discriminate Hx.
  - destruct Hx as [Hx|[Hx|[]]]; [discriminate Hx|]. injection Hx as ->.
    exists row. repeat split; [exact E|exact Hi| |exact He].
    now rewrite Hi in Hrow.
  - destruct Hx as [Hx|[Hx|[]]]; discriminate Hx.
  - destruct Hx as [Hx|[]]. discriminate Hx.
Qed.

Lemma matrix_no_data_only_first_day_witness :
  exists center rest,
    idx_list (ticker_data scenario_df "X") 1 = center :: rest /\
    (Z.of_nat center + -1 = 0)%Z.
Proof.
  assert (Hin : In (Column_no_data (-1)) (matrix_section scenario_df "X" 1))
    by (vm_compute; right; right; left; reflexivity).
  destruct (matrix_no_data_only_first_day _ _ _ _ Hin)
    as (center & rest & row & H1 & H2 & _).
  now exists center, rest.
Defined.

(** X8: every heat map of the matrix is the grid the analysis returns, with
    the default parameters, for a day that is a row of the selected ticker
    (the target date is always a trading day of the series), and it has 30
    cells. *)
Theorem matrix_chart_is_full_grid (data : list Row) (sel : string)
    (d : Z) (o : Z) (cells : list Cell) :
  In (Column_chart o cells) (matrix_section data sel d) ->
  exists row,
    In row (ticker_data data sel) /\ In row data /\ ticker row = sel /\
    analyze_combined_performance data sel (date row) 200 100 10 =
      inr (Stats cells) /\
    List.length cells = 30%nat.
Proof.
  intros Hin.
  apply matrix_section_column_element in Hin
    as (center & rest & o' & E & Ho' & Hx); try discriminate.
  destruct (column_cases data sel center o')
    as [[_ Hc]|(row & H0 & Hrow & [(Hi & He & Hc)|[(cells' & Hs & Hl & Hc)|(_ & _ & Hc)]])];
    cbn zeta in *; rewrite Hc in Hx; cbn [fst] in Hx.
  - destruct Hx as [Hx|[]]. discriminate Hx.
  - destruct Hx as [Hx|[Hx|[]]]; discriminate Hx.
  - destruct Hx as [Hx|[Hx|[]]]; [discriminate Hx|]. injection Hx as -> ->.
    exists row. apply nth_error_In in Hrow.
    assert (Hd : In row data /\ ticker row = sel).
    { pose proof (ticker_data_ticker data sel) as Ht.
      rewrite Forall_forall in Ht. split; [|now apply Ht].
      eapply Permutation_in in Hrow; [|apply sort_values_Permutation].
      now apply filter_In in Hrow as [Hrow _]. }
    destruct Hd. repeat split; assumption.
  - destruct Hx as [Hx|[]]. discriminate Hx.
Qed.

Lemma matrix_chart_is_full_grid_witness :
  exists cells,
    In (Column_chart 0 cells) (matrix_section scenario_df "X" 1) /\
    List.length cells = 30%nat.
Proof.
  eexists. split.
  - vm_compute. do 4 right. left. reflexivity.
  - match goal with
    | |- List.length ?c = _ =>
        assert (Hin : In (Column_chart 0 c) (matrix_section scenario_df "X" 1))
          by (vm_compute; do 4 right; left; reflexivity);
        destruct (matrix_chart_is_full_grid _ _ _ _ _ Hin) as (row & _ & _ & _ & _ & H);
        exact H
    end.
Defined.

(** A column whose analysis raises has shown its day's line and nothing
    else. *)
Lemma column_raises (data : list Row) (sel : string) (td : list Row)
    (center : nat) (o : Z) (out : list element) (e : exn) :
  column data sel td center o = (out, Some e) ->
  exists row,
    nth_error td (Z.to_nat (Z.of_nat center + o)) = Some row /\
    out = [Column_day o (date row) (close row) (Fear_Greed row)] /\
    analyze_combined_performance data sel (date row) 200 100 10 = inl e.
Proof.
  unfold column.
  destruct ((0 <=? Z.of_nat center + o)%Z &&
            (Z.of_nat center + o <? Z.of_nat (List.length td))%Z);
    [|discriminate].
  destruct (nth_error td (Z.to_nat (Z.of_nat center + o))) as [row|];
    [|discriminate].
  destruct (analyze_combined_performance data sel (date row) 200 100 10)
    as [e'|perf] eqn:Ea.
  - intros [= <- <-]. now exists row.
  - destruct (negb (DataFrame_empty perf)); discriminate.
Qed.

Lemma column_shows_no_error (data : list Row) (sel : string) (td : list Row)
    (center : nat) (o : Z) (x : element) (e : exn) :
  In x (fst (column data sel td center o)) -> x <> Error_calculating_dates e.
Proof.
  unfold column.
  destruct ((0 <=? Z.of_nat center + o)%Z &&
            (Z.of_nat center + o <? Z.of_nat (List.length td))%Z).
  - destruct (nth_error td (Z.to_nat (Z.of_nat center + o))) as [row|];
      [|intros []].
    destruct (analyze_combined_performance data sel (date row) 200 100 10)
      as [e'|perf].
    + intros [<-|[]]. discriminate.
    + destruct (negb (DataFrame_empty perf)); intros [<-|[<-|[]]]; discriminate.
  - intros [<-|[]]. discriminate.
Qed.

(** X9: an error on the matrix is the exception the analysis raised, with
    the default parameters, on the day of one of the five columns, a row of
    the selected ticker with 2 rows or more in its lookback window; it
    comes right after that day's line, it is the only error shown and the
    last thing shown: the columns after it are not drawn. *)
Theorem matrix_error_ends_matrix (data : list Row) (sel : string)
    (d : Z) (e : exn) :
  In (Error_calculating_dates e) (matrix_section data sel d) ->
  exists pre o row,
    matrix_section data sel d =
      pre ++ [Column_day o (date row) (close row) (Fear_Greed row);
              Error_calculating_dates e] /\
    (forall e', ~ In (Error_calculating_dates e') pre) /\
    In o scenarios /\
    In row (ticker_data data sel) /\
    analyze_combined_performance data sel (date row) 200 100 10 = inl e /\
    (2 <= List.length (subset_200 data sel (date row) 200))%nat.
Proof.
  intros Hin.
  destruct (idx_list (ticker_data data sel) d) as [|center rest] eqn:E.
  { unfold matrix_section in Hin. rewrite E in Hin.
    destruct Hin as [Hin|[]]. discriminate Hin. }
  rewrite (matrix_section_unfold _ _ _ E) in *.
  assert (Hcols : forall x e', In x (fst (columns data sel (ticker_data data sel)
                                            center scenarios)) ->
                               x <> Error_calculating_dates e').
  { intros x e' Hx. apply columns_In in Hx as [o [_ Hx]].
    now apply column_shows_no_error with (e := e') in Hx. }
  apply in_app_or in Hin as [Hin|Hin];
    [now elim (Hcols (Error_calculating_dates e) e Hin)|].
  destruct (snd (columns data sel (ticker_data data sel) center scenarios))
    as [e0|] eqn:Es; [|destruct Hin].
  destruct Hin as [[= <-]|[]].
  apply columns_exn in Es as (pre & o & out & Ho & Hc & Hf).
  apply column_raises in Hc as (row & Hrow & -> & Ha).
  exists pre, o, row. rewrite Hf, <- app_assoc. cbn [app].
  split; [reflexivity|]. split.
  { intros e' Hpre.
    apply (Hcols (Error_calculating_dates e') e'); [|reflexivity].
    rewrite Hf. apply in_or_app. now left. }
  split; [exact Ho|]. split; [now apply nth_error_In in Hrow|].
  split; [exact Ha|].
  destruct (Nat.lt_ge_cases (List.length (subset_200 data sel (date row) 200)) 2)
    as [Hl|Hl]; [|exact Hl].
  rewrite (short_window_no_data _ _ _ _ 100 10 Hl) in Ha. discriminate Ha.
Qed.

Lemma matrix_error_ends_matrix_witness :
  exists pre o row,
    matrix_section flat_df "X" 1 =
      pre ++ [Column_day o (date row) (close row) (Fear_Greed row);
              Error_calculating_dates ValueError_bin_edges_not_unique] /\
    analyze_combined_performance flat_df "X" (date row) 200 100 10 =
      inl ValueError_bin_edges_not_unique.
Proof.
  assert (Hin : In (Error_calculating_dates ValueError_bin_edges_not_unique)
                  (matrix_section flat_df "X" 1))
    by (vm_compute; do 4 right; left; reflexivity).
  destruct (matrix_error_ends_matrix _ _ _ _ Hin)
    as (pre & o & row & H & _ & _ & _ & Ha & _).
  now exists pre, o, row.
Defined.

Lemma column_before_first_row (data : list Row) (sel : string) (td : list Row)
    (center : nat) (o : Z) :
  (Z.of_nat center + o < 0)%Z ->
  column data sel td center o = ([Column_out_of_range o], None).
Proof.
  intros H. unfold column.
  destruct (Z.leb_spec 0 (Z.of_nat center + o)); [lia|reflexivity].
Qed.

Lemma columns_after_blank_columns (data : list Row) (sel : string)
    (td : list Row) (center : nat) (pre : list Z) (o : Z) (post : list Z)
    (out : list element) (x : element) :
  Forall (fun o' => (Z.of_nat center + o' < 0)%Z) pre ->
  column data sel td center o = (out, None) -> In x out ->
  In x (fst (columns data sel td center (pre ++ o :: post))).
Proof.
  intros Hpre Hc Hx. induction Hpre as [|o' pre Ho' _ IH]; cbn [app].
  - rewrite columns_cons, Hc. cbn [fst]. apply in_or_app. now left.
  - rewrite columns_cons, (column_before_first_row _ _ _ _ _ Ho'). cbn [fst].
    apply in_or_app. now right.
Qed.

(** With one row per date, only the first row is dated at or before the
    first row. *)
Lemma first_row_alone (data : list Row) (sel : string) (row : Row) :
  NoDup (map date (ticker_data data sel)) ->
  nth_error (ticker_data data sel) 0 = Some row ->
  List.length (prepare data sel (date row)) = 1%nat.
Proof.
  intros Hnd Hrow. unfold prepare.
  rewrite (Permutation_length (sort_values_Permutation _)).
  rewrite <- (Permutation_length
                (Permutation_filter (fun r => (date r <=? date row)%Z)
                   (sort_values_Permutation
                      (filter (fun r => String.eqb (ticker r) sel) data)))).
  fold (ticker_data data sel).
  pose proof (ticker_data_sorted data sel) as Hs.
  destruct (ticker_data data sel) as [|r t]; [discriminate|].
  injection Hrow as ->. cbn [filter]. rewrite Z.leb_refl. cbn [List.length].
  f_equal. rewrite filter_none; [reflexivity|].
  apply StronglySorted_inv in Hs as [_ Hs].
  cbn [map] in Hnd. inversion Hnd as [|? ? Hn _]; subst.
  rewrite Forall_forall in *. intros x Hx. specialize (Hs x Hx).
  unfold date_le in Hs. apply Z.leb_gt.
  assert (date x <> date row) by (intros F; apply Hn; rewrite <- F; now apply in_map).
  lia.
Qed.

(** X10: when the selected ticker has one row per date, its first trading
    day, whenever it is one of the five columns, says "No Data": a single
    observation gives no price range. *)
Theorem first_day_shows_no_data (data : list Row) (sel : string) (d : Z)
    (center : nat) (rest : list nat) :
  NoDup (map date (ticker_data data sel)) ->
  idx_list (ticker_data data sel) d = center :: rest ->
  (center <= 2)%nat ->
  In (Column_no_data (- Z.of_nat center)) (matrix_section data sel d).
Proof.
  intros Hnd E Hc.
  rewrite (matrix_section_unfold _ _ _ E). apply in_or_app. left.
  assert (Hrow : exists row, nth_error (ticker_data data sel) 0 = Some row).
  { assert (Hin : In center (idx_list (ticker_data data sel) d))
      by (rewrite E; now left).
    apply idx_list_from_In in Hin as [r [Hr _]].
    destruct (ticker_data data sel) as [|r0 t]; [destruct (center - 0)%nat; discriminate|].
    now exists r0. }
  destruct Hrow as [row Hrow].
  assert (Hcol : column data sel (ticker_data data sel) center (- Z.of_nat center) =
                 ([Column_day (- Z.of_nat center) (date row) (close row) (Fear_Greed row);
                   Column_no_data (- Z.of_nat center)], None)).
  { destruct (column_cases data sel center (- Z.of_nat center))
      as [[Hout _]|(row' & H0 & Hrow' & Hcases)]; cbn zeta in *.
    - assert (0 < List.length (ticker_data data sel))%nat
        by (apply nth_error_Some; congruence).
      lia.
    - replace (Z.of_nat center + - Z.of_nat center)%Z with 0%Z in * by lia.
      cbn [Z.to_nat] in Hrow'. rewrite Hrow in Hrow'. injection Hrow' as <-.
      pose proof (first_row_alone data sel Hnd Hrow) as H1.
      assert (Hshort : (List.length (subset_200 data sel (date row) 200) < 2)%nat).
      { unfold subset_200, group_of. rewrite tail_length_pos by lia. lia. }
      destruct Hcases as [(_ & _ & Hc')|[(cells & Hs & _)|(_ & H2 & _)]].
      + exact Hc'.
      + rewrite (short_window_no_data _ _ _ _ 100 10 Hshort) in Hs. discriminate Hs.
      + lia. }
  assert (Hx : In (Column_no_data (- Z.of_nat center))
                 [Column_day (- Z.of_nat center) (date row) (close row) (Fear_Greed row);
                  Column_no_data (- Z.of_nat center)])
    by (right; now left).
  destruct center as [|[|[|c]]]; [| | |lia].
  - change scenarios with ([-2; -1] ++ 0 :: [1; 2])%Z.
    eapply columns_after_blank_columns; [repeat constructor|exact Hcol|exact Hx].
  - change scenarios with ([-2] ++ (-1) :: [0; 1; 2])%Z.
    eapply columns_after_blank_columns; [repeat constructor|exact Hcol|exact Hx].
  - change scenarios with ([] ++ (-2) :: [-1; 0; 1; 2])%Z.
    eapply columns_after_blank_columns; [constructor|exact Hcol|exact Hx].
Qed.

Lemma first_day_shows_no_data_witness :
  In (Column_no_data (-1)) (matrix_section scenario_df "X" 1).
Proof.
  change (In (Column_no_data (- Z.of_nat 1)) (matrix_section scenario_df "X" 1)).
  apply first_day_shows_no_data with (rest := []).
  - vm_compute. repeat constructor; simpl; intuition discriminate.
  - reflexivity.
  - lia.
Defined.

(** ** All outcomes of a call *)

(** With [np.linspace] for the edge computation, the call is the
    function. *)
Lemma for_groups_with_np (groups : list (string * list Row)) (lb aw nb : Z)
    (results : list (list Cell)) :
  for_groups_with np.linspace groups lb aw nb results =
  for_groups groups lb aw nb results.
Proof.
  revert results. induction groups as [|[tk g] rest IH]; intros results;
    [reflexivity|].
  cbn [for_groups_with for_groups].
  change (loop_body_with np.linspace tk g lb aw nb) with (loop_body tk g lb aw nb).
  destruct (loop_body tk g lb aw nb) as [e|r]; cbn [bind]; [reflexivity|apply IH].
Qed.

Lemma analyze_with_np (df : list Row) (tk : string) (d lb aw nb : Z) :
  analyze_combined_performance_with np.linspace df tk d lb aw nb =
  analyze_combined_performance df tk d lb aw nb.
Proof.
  unfold analyze_combined_performance_with, analyze_combined_performance.
  now rewrite for_groups_with_np.
Qed.

Lemma analyze_with_loop_body (linspace : Q -> Q -> Z -> raises (list Q))
    (df : list Row) (tk : string) (d lb aw nb : Z) :
  analyze_combined_performance_with linspace df tk d lb aw nb =
  match loop_body_with linspace tk (prepare df tk d) lb aw nb with
  | inl e => inl e
  | inr None => inr Empty_DataFrame
  | inr (Some s) => inr (Stats s)
  end.
Proof.
  unfold analyze_combined_performance_with. rewrite groupby_prepare.
  destruct (prepare df tk d) as [|r g] eqn:E.
  - unfold loop_body_with. now rewrite tail_nil.
  - simpl for_groups_with.
    destruct (loop_body_with linspace tk (r :: g) lb aw nb) as [e|[s|]]; simpl;
      try reflexivity.
    destruct s; simpl; [reflexivity|]. now rewrite app_nil_r.
Qed.

(** The call by its parts, whatever the edges. *)
Lemma analyze_with_parts (linspace : Q -> Q -> Z -> raises (list Q))
    (df : list Row) (tk : string) (d lb aw nb : Z) :
  analyze_combined_performance_with linspace df tk d lb aw nb =
  if (List.length (subset_200 df tk d lb) <? 2)%nat then inr Empty_DataFrame
  else
    match linspace (min_close df tk d lb) (max_close df tk d lb) (nb + 1)%Z with
    | inl e => inl e
    | inr bins =>
        match analysis_rows (subset_100 df tk d aw) bins with
        | inl e => inl e
        | inr rows => inr (Stats (stats rows (pd.from_breaks bins) tk))
        end
    end.
Proof.
  rewrite analyze_with_loop_body. unfold loop_body_with.
  fold (group_of df tk d). fold (subset_200 df tk d lb).
  destruct (List.length (subset_200 df tk d lb) <? 2)%nat; [reflexivity|].
  fold (min_close df tk d lb). fold (max_close df tk d lb).
  destruct (linspace _ _ _) as [e|bins]; cbn [bind]; [reflexivity|].
  fold (subset_100 df tk d aw).
  destruct (analysis_rows _ _) as [e|rows]; reflexivity.
Qed.

(** [algos.unique] returns fewer values than it is given exactly when a value
    is repeated. *)
Lemma unique_length_le (l : list Q) :
  (List.length (pd.unique l) <= List.length l)%nat.
Proof.
  induction l as [|x t IH]; [apply Nat.le_refl|].
  cbn [pd.unique List.length].
  pose proof (filter_length_le (fun y => negb (Qeq_bool x y)) (pd.unique t)).
  lia.
Qed.

Lemma unique_complete (l : list Q) (y : Q) :
  In y l -> exists z, In z (pd.unique l) /\ z == y.
Proof.
  induction l as [|x t IH]; [intros []|].
  intros [->|H].
  - exists y. split; [now left|reflexivity].
  - destruct (IH H) as [z [Hz Ez]]. cbn [pd.unique].
    destruct (Qeq_bool x z) eqn:E.
    + exists x. split; [now left|]. apply Qeq_bool_iff in E. now rewrite E.
    + exists z. split; [|exact Ez]. right. apply filter_In. split; [exact Hz|].
      now rewrite E.
Qed.

Lemma filter_length_all {B : Type} (f : B -> bool) (l : list B) :
  List.length (filter f l) = List.length l -> Forall (fun x => f x = true) l.
Proof.
  induction l as [|x t IH]; [constructor|].
  cbn [filter]. pose proof (filter_length_le f t) as Hle.
  destruct (f x) eqn:E; cbn [List.length]; intros H.
  - constructor; [exact E|]. apply IH. lia.
  - lia.
Qed.

Lemma filter_length_some {B : Type} (f : B -> bool) (l : list B) :
  List.length (filter f l) <> List.length l -> exists z, In z l /\ f z = false.
Proof.
  induction l as [|z u IH]; [intros H; now elim H|].
  cbn [filter]. destruct (f z) eqn:Ez.
  - cbn [List.length]. intros H.
    destruct IH as [z' [Hz' E']]; [congruence|].
    exists z'. split; [now right|exact E'].
  - intros _. exists z. split; [now left|exact Ez].
Qed.

Lemma repeated_tl (x : Q) (t : list Q) : repeated t -> repeated (x :: t).
Proof.
  intros (i & j & Hij & Hj & E). exists (S i), (S j).
  cbn [List.length nth]. repeat split; [lia|lia|exact E].
Qed.

Lemma repeated_head (x z : Q) (t : list Q) :
  In z t -> x == z -> repeated (x :: t).
Proof.
  intros Hz E. apply (In_nth _ _ 0) in Hz as [j [Hj Ej]].
  exists 0%nat, (S j). cbn [nth List.length].
  repeat split; [lia|lia|]. now rewrite Ej.
Qed.

Lemma unique_full_distinct (l : list Q) :
  List.length (pd.unique l) = List.length l -> ~ repeated l.
Proof.
  induction l as [|x t IH].
  - intros _ (i & j & _ & Hj & _). cbn in Hj. lia.
  - cbn [pd.unique List.length].
    pose proof (filter_length_le (fun y => negb (Qeq_bool x y)) (pd.unique t)) as H1.
    pose proof (unique_length_le t) as H2.
    intros H.
    assert (Ht : List.length (pd.unique t) = List.length t) by lia.
    assert (Hf : List.length (filter (fun y => negb (Qeq_bool x y)) (pd.unique t))
                 = List.length (pd.unique t)) by lia.
    apply filter_length_all in Hf. rewrite Forall_forall in Hf.
    intros (i & j & Hij & Hj & E).
    destruct i as [|i].
    + destruct j as [|j]; [lia|]. cbn [nth List.length] in E, Hj.
      assert (Hin : In (nth j t 0) t) by (apply nth_In; lia).
      destruct (unique_complete _ _ Hin) as [z [Hz Ez]].
      specialize (Hf z Hz). apply negb_true_iff in Hf.
      assert (Hxz : Qeq_bool x z = true)
        by (apply Qeq_bool_iff; rewrite Ez; exact E).
      congruence.
    + destruct j as [|j]; [lia|]. cbn [nth List.length] in E, Hj.
      apply (IH Ht). exists i, j. repeat split; [lia|lia|exact E].
Qed.

Lemma unique_shorter_repeated (l : list Q) :
  (List.length (pd.unique l) < List.length l)%nat -> repeated l.
Proof.
  induction l as [|x t IH]; [cbn; lia|].
  cbn [pd.unique List.length]. intros H.
  destruct (Nat.eq_dec (List.length (pd.unique t)) (List.length t)) as [E|E].
  - assert (Hf : List.length (filter (fun y => negb (Qeq_bool x y)) (pd.unique t))
                 <> List.length (pd.unique t)) by lia.
    apply filter_length_some in Hf as [z [Hz Ez]].
    apply negb_false_iff, Qeq_bool_iff in Ez.
    apply unique_In in Hz. now apply repeated_head with (z := z).
  - apply repeated_tl, IH. pose proof (unique_length_le t). lia.
Qed.

Lemma unique_shorter_iff (l : list Q) :
  (List.length (pd.unique l) <? List.length l)%nat = true <-> repeated l.
Proof.
  split.
  - intros H. apply unique_shorter_repeated. now apply Nat.ltb_lt.
  - intros Hr. apply Nat.ltb_lt.
    pose proof (unique_length_le l) as Hle.
    destruct (Nat.eq_dec (List.length (pd.unique l)) (List.length l)) as [E|E];
      [|lia].
    now apply unique_full_distinct in E.
Qed.

Lemma increasing_distinct (l : list Q) :
  increasing l -> ~ repeated l -> strictly_increasing l.
Proof.
  intros Hi Hn i j Hij Hj.
  destruct (Qlt_le_dec (nth i l 0) (nth j l 0)) as [H|H]; [exact H|].
  exfalso. apply Hn. exists i, j. repeat split; [exact Hij|exact Hj|].
  apply Qle_antisym; [|exact H]. apply Hi; [lia|exact Hj].
Qed.

(** What lines 87-93 do with the edges they are given. *)
Lemma analysis_rows_outcomes (sub : list Row) (bins : list Q) :
  (~ increasing bins /\
   analysis_rows sub bins = inl ValueError_bins_not_monotonic) \/
  (increasing bins /\ repeated bins /\ List.length bins <> 2%nat /\
   analysis_rows sub bins = inl ValueError_bin_edges_not_unique) \/
  (bins = [] /\ analysis_rows sub bins = inl IndexError_no_bin_edge) \/
  (bins <> [] /\ increasing bins /\
   (~ repeated bins \/ List.length bins = 2%nat) /\
   analysis_rows sub bins = inr (annotate bins sub)).
Proof.
  destruct (pd.is_monotonic_increasing bins) eqn:Em.
  - pose proof (proj1 (is_monotonic_increasing_iff bins) Em) as Hinc.
    right.
    destruct ((List.length (pd.unique bins) <? List.length bins)%nat) eqn:Eu.
    + destruct (Nat.eq_dec (List.length bins) 2) as [E2|E2].
      * right. right.
        assert (Hne : bins <> []) by (intros ->; discriminate E2).
        repeat split; [exact Hne|exact Hinc|now right|].
        apply analysis_rows_annotate; [exact Hne|exact Hinc|now right].
      * left. repeat split; [exact Hinc|now apply unique_shorter_iff|exact E2|].
        unfold analysis_rows, pd.cut. rewrite Em, Eu. cbn [negb andb].
        destruct (Nat.eqb_spec (List.length bins) 2); [contradiction|].
        reflexivity.
    + assert (Hd : ~ repeated bins).
      { intros Hr. apply unique_shorter_iff in Hr. congruence. }
      destruct bins as [|b0 t] eqn:Eb.
      * right. left. split; reflexivity.
      * right. right. rewrite <- Eb in *.
        assert (Hne : bins <> []) by (rewrite Eb; discriminate).
        repeat split; [exact Hne|exact Hinc|now left|].
        apply analysis_rows_annotate; [exact Hne|exact Hinc|].
        left. now apply increasing_distinct.
  - left. split.
    + intros Hinc. apply is_monotonic_increasing_iff in Hinc. congruence.
    + unfold analysis_rows, pd.cut. now rewrite Em.
Qed.

(** X11: whatever the rounding of the edge computation, a call ends in one
    of six ways, decided by the lookback window and by the edges handed to
    [pd.cut]: the empty frame when the window holds fewer than 2 rows;
    otherwise the error of the edge computation when it raises; the
    monotonicity [ValueError] when the edges do not increase; the
    duplicate-edges [ValueError] when increasing edges, other than exactly
    two, hold a value twice; the [IndexError] on no edge at all; and in
    every other case a grid of 3 cells for each pair of consecutive edges.
    The cut of the sentiment and the aggregation raise nothing.  With
    [np.linspace] for the edge computation the call is the function. *)
Theorem analyze_outcomes (linspace : Q -> Q -> Z -> raises (list Q))
    (df : list Row) (tk : string) (d lb aw nb : Z) :
  let call := analyze_combined_performance_with linspace df tk d lb aw nb in
  let p := linspace (min_close df tk d lb) (max_close df tk d lb) (nb + 1)%Z in
  (((List.length (subset_200 df tk d lb) < 2)%nat /\ call = inr Empty_DataFrame) \/
   ((2 <= List.length (subset_200 df tk d lb))%nat /\
    ((exists e, p = inl e /\ call = inl e) \/
     (exists bins, p = inr bins /\
        ((~ increasing bins /\ call = inl ValueError_bins_not_monotonic) \/
         (increasing bins /\ repeated bins /\ List.length bins <> 2%nat /\
          call = inl ValueError_bin_edges_not_unique) \/
         (bins = [] /\ call = inl IndexError_no_bin_edge) \/
         (bins <> [] /\ increasing bins /\
          (~ repeated bins \/ List.length bins = 2%nat) /\
          exists cells,
            call = inr (Stats cells) /\
            List.length cells = (3 * (List.length bins - 1))%nat)))))) /\
  analyze_combined_performance_with np.linspace df tk d lb aw nb =
  analyze_combined_performance df tk d lb aw nb.
Proof.
  intros call p. split; [|apply analyze_with_np].
  unfold call. rewrite analyze_with_parts. fold p.
  destruct (Nat.ltb_spec (List.length (subset_200 df tk d lb)) 2) as [Hl|Hl].
  - left. now split.
  - right. split; [exact Hl|].
    destruct p as [e|bins]; [left; now exists e|].
    right. exists bins. split; [reflexivity|].
    destruct (analysis_rows_outcomes (subset_100 df tk d aw) bins)
      as [[H1 ->]|[(H1 & H2 & H3 & ->)|[[H1 ->]|(H1 & H2 & H3 & ->)]]].
    + left. now split.
    + right. left. now repeat split.
    + right. right. left. now split.
    + right. right. right. repeat split; [exact H1|exact H2|exact H3|].
      eexists. split; [reflexivity|].
      rewrite stats_cells_from, cells_from_length, from_breaks_length. lia.
Qed.

Lemma analyze_outcomes_witness :
  (exists cells,
     analyze_combined_performance scenario_df "X" 4 5 5 2 = inr (Stats cells) /\
     List.length cells = 6%nat) /\
  analyze_combined_performance_with coarse_linspace scenario_df "X" 4 5 5 2 =
    inl ValueError_bin_edges_not_unique.
Proof.
  split.
  - destruct (analyze_outcomes np.linspace scenario_df "X" 4 5 5 2)
      as [[[Hl _]|[_ [(e & Hp & _)|(bins & Hp & H)]]] Hnp].
    + exfalso. vm_compute in Hl. lia.
    + exfalso. vm_compute in Hp. discriminate Hp.
    + rewrite Hnp in H.
      destruct H as [[_ H]|[(_ & _ & _ & H)|[[_ H]|(_ & _ & _ & cells & H & Hc)]]];
        try (exfalso; vm_compute in H; discriminate H).
      exists cells. split; [exact H|].
      rewrite Hc. vm_compute in Hp. injection Hp as <-. reflexivity.
  - destruct (analyze_outcomes coarse_linspace scenario_df "X" 4 5 5 2)
      as [[[Hl _]|[_ [(e & Hp & _)|(bins & Hp & H)]]] _].
    + exfalso. vm_compute in Hl. lia.
    + exfalso. vm_compute in Hp. discriminate Hp.
    + destruct H as [[_ H]|[(_ & _ & _ & H)|[[_ H]|(_ & _ & _ & cells & H & Hc)]]];
        try exact H; exfalso; vm_compute in H; discriminate H.
Defined.

(** ** The target day itself *)

Lemma StronglySorted_last (l : list Row) (z : Row) :
  StronglySorted date_le (l ++ [z]) -> Forall (fun x => date_le x z) l.
Proof.
  induction l as [|a t IH]; [constructor|].
  cbn [app]. intros H. apply StronglySorted_inv in H as [Ht Ha].
  constructor; [|now apply IH].
  rewrite Forall_forall in Ha. apply Ha, in_or_app. right. now left.
Qed.

Lemma tail_keeps_last {B : Type} (n : Z) (l : list B) (z : B) :
  (1 <= n)%Z -> exists pre, pd.tail n (l ++ [z]) = pre ++ [z].
Proof.
  intros Hn. unfold pd.tail.
  destruct (Z.eqb_spec n 0); [lia|]. destruct (Z.ltb_spec 0 n); [|lia].
  rewrite length_app. cbn [List.length].
  set (k := (List.length l + 1 - Z.to_nat n)%nat).
  assert (Hk : (k <= List.length l)%nat) by (unfold k; lia).
  exists (skipn k l). rewrite skipn_app.
  replace (k - List.length l)%nat with 0%nat by lia. reflexivity.
Qed.

(** X12: when the target date is a trading day of the ticker and the ticker
    has one row per date, the target day's row is the last row of the
    analysis set, for any positive analysis window: it is the row without
    next-day gain, so the day's own gain, unknown on that day, is in no
    cell. *)
Theorem target_day_is_last_row (df : list Row) (tk : string) (d aw : Z)
    (row : Row) :
  In row df -> ticker row = tk -> date row = d ->
  NoDup (map date (filter (relevant tk d) df)) ->
  (1 <= aw)%Z ->
  exists pre,
    subset_100 df tk d aw = pre ++ [row] /\
    forall bins,
      annotate bins (subset_100 df tk d aw) =
      removelast (annotate bins (subset_100 df tk d aw)) ++
      [mkARow (close row) None
         (pd.cut_one bins (nth 0 bins 0) (Some (close row)))
         (fg_of (Fear_Greed row))].
Proof.
  intros Hin Htk Hd Hnd Haw.
  assert (Hrel : relevant tk d row = true).
  { unfold relevant. apply andb_true_iff. split.
    - now apply String.eqb_eq.
    - apply Z.leb_le. lia. }
  assert (Hp : Permutation (prepare df tk d) (filter (relevant tk d) df))
    by (rewrite prepare_relevant; apply sort_values_Permutation).
  assert (HinP : In row (prepare df tk d)).
  { eapply Permutation_in; [apply Permutation_sym, Hp|].
    apply filter_In. now split. }
  assert (Hs : StronglySorted date_le (prepare df tk d)).
  { rewrite prepare_relevant. apply sort_values_sorted with (tk := tk).
    apply Forall_forall. intros x Hx. apply filter_In in Hx as [_ Hx].
    unfold relevant in Hx. apply andb_true_iff in Hx as [Hx _].
    now apply String.eqb_eq. }
  assert (HndP : NoDup (map date (prepare df tk d))).
  { eapply Permutation_NoDup; [|exact Hnd].
    apply Permutation_map, Permutation_sym, Hp. }
  pose proof (prepare_date df tk d) as Hdate.
  assert (Hne : prepare df tk d <> []) by (intros E; rewrite E in HinP; destruct HinP).
  destruct (exists_last Hne) as [P' [z Ez]].
  assert (Hz : z = row).
  { apply (NoDup_map_injective date (prepare df tk d)); [exact HndP| |exact HinP|].
    - rewrite Ez. apply in_or_app. right. now left.
    - rewrite Ez in Hs, HinP, Hdate.
      apply StronglySorted_last in Hs. rewrite Forall_forall in Hs, Hdate.
      assert (date z <= d)%Z by (apply Hdate, in_or_app; right; now left).
      apply in_app_or in HinP as [HinP|[<-|[]]]; [|reflexivity].
      specialize (Hs row HinP). unfold date_le in Hs. lia. }
  subst z.
  unfold subset_100, group_of. rewrite Ez.
  destruct (tail_keeps_last P' row Haw) as [pre Hpre].
  exists pre. split; [exact Hpre|].
  intros bins. rewrite Hpre. apply annotate_app_last.
Qed.

Lemma target_day_is_last_row_witness :
  exists pre,
    subset_100 shuffled_df "X" 4 3 = pre ++ [mkRow "X" 4 103 None].
Proof.
  destruct (@target_day_is_last_row shuffled_df "X"%string 4%Z 3%Z
              (mkRow "X" 4 103 None)) as [pre [H _]].
  - vm_compute. do 3 right. left. reflexivity.
  - reflexivity.
  - reflexivity.
  - vm_compute. repeat constructor; simpl; intuition discriminate.
  - lia.
  - now exists pre.
Defined.

(** ** The lookback window, the edges and the brackets *)

Lemma tail_suffix {B : Type} (n : Z) (l : list B) :
  exists pre, l = pre ++ pd.tail n l.
Proof.
  unfold pd.tail. destruct (n =? 0)%Z.
  - exists l. now rewrite app_nil_r.
  - destruct (0 <? n)%Z; eexists; symmetry; apply firstn_skipn.
Qed.

(** The minimum and the maximum of a column are values of the column. *)
Lemma fold_min_In (t : list Q) (x : Q) : In (fold_left Qmin t x) (x :: t).
Proof.
  revert x. induction t as [|y t IH]; intros x; [now left|].
  cbn [fold_left]. destruct (IH (Qmin x y)) as [H|H].
  - rewrite <- H. unfold Qmin, GenericMinMax.gmin.
    destruct (x ?= y); [now left|now left|right; now left].
  - right. now right.
Qed.

Lemma fold_max_In (t : list Q) (x : Q) : In (fold_left Qmax t x) (x :: t).
Proof.
  revert x. induction t as [|y t IH]; intros x; [now left|].
  cbn [fold_left]. destruct (IH (Qmax x y)) as [H|H].
  - rewrite <- H. unfold Qmax, GenericMinMax.gmax.
    destruct (x ?= y); [now left|right; now left|now left].
  - right. now right.
Qed.

Lemma Series_min_In (s : list Q) : s <> [] -> In (pd.Series_min s) s.
Proof.
  destruct s as [|x t]; [congruence|]. intros _. apply fold_min_In.
Qed.

Lemma Series_max_In (s : list Q) : s <> [] -> In (pd.Series_max s) s.
Proof.
  destruct s as [|x t]; [congruence|]. intros _. apply fold_max_In.
Qed.

(** C7: for every call that reaches the aggregation, (1) the rows read are
    those of the ticker dated at or before the target, by date; the lookback
    window is their trailing [lookback_window] rows, or all of them if there
    are fewer, and the analysis set their trailing [analysis_window] rows;
    (2) [min_close] and [max_close] are the least and the greatest close of
    the lookback window; (3) in exact arithmetic the edges are the
    [num_brackets + 1] points interpolated linearly from [min_close] to
    [max_close], hence [num_brackets] intervals of equal width; (4) whatever
    rounding the edge computation applies, the edges [p] handed to [pd.cut]
    increase, the intervals are the pairs of consecutive edges, and a close
    of the analysis set is given bracket [k] exactly when it lies in
    (p[k], p[k+1]], or equals the first edge for [k = 0]; no close lies in
    two brackets, and a close between the first and the last edge has a
    bracket; (5) so every close of the analysis set within
    [min_close, max_close] is given one bracket. *)
Theorem bracket_coverage (df : list Row) (tk : string) (d lb aw nb : Z) :
  computes_grid df tk d lb nb ->
  let group := group_of df tk d in
  let window := subset_200 df tk d lb in
  let sample := subset_100 df tk d aw in
  let mn := min_close df tk d lb in
  let mx := max_close df tk d lb in
  let n := Z.to_nat nb in
  let bins := p_bins df tk d lb nb in
  (Permutation group (filter (relevant tk d) df) /\
   StronglySorted date_le group /\
   (exists pre, group = pre ++ window) /\
   ((0 < lb)%Z ->
    List.length window = Nat.min (List.length group) (Z.to_nat lb)) /\
   (exists pre, group = pre ++ sample) /\
   ((0 < aw)%Z ->
    List.length sample = Nat.min (List.length group) (Z.to_nat aw))) /\
  (Forall (fun r => mn <= close r /\ close r <= mx) window /\
   In mn (map close window) /\ In mx (map close window)) /\
  (np.linspace mn mx (nb + 1) = inr bins /\
   List.length bins = S n /\
   (forall i, (i <= n)%nat -> nth i bins 0 == edge mn mx n i) /\
   nth 0 bins 0 == mn /\ nth n bins 0 == mx /\ last bins 0 == mx /\
   (forall i, (i < n)%nat ->
      nth (S i) bins 0 - nth i bins 0 == (mx - mn) / inject_Z (Z.of_nat n))) /\
  (forall (linspace : Q -> Q -> Z -> raises (list Q)) (p : list Q)
          (cells : list Cell),
     linspace mn mx (nb + 1)%Z = inr p ->
     analyze_combined_performance_with linspace df tk d lb aw nb =
       inr (Stats cells) ->
     increasing p /\
     (forall k, (S k < List.length p)%nat ->
        nth_error (pd.from_breaks p) k = Some (nth k p 0, nth (S k) p 0)) /\
     exists rows,
       analysis_rows sample p = inr rows /\
       cells = stats rows (pd.from_breaks p) tk /\
       forall i r, nth_error sample i = Some r ->
         exists a, nth_error rows i = Some a /\ a_close a = close r /\
           (forall k, price_bracket a = Some k <-> in_bracket p k (close r)) /\
           (forall j k, in_bracket p j (close r) -> in_bracket p k (close r) ->
              j = k) /\
           ((2 <= List.length p)%nat ->
            nth 0 p 0 <= close r -> close r <= last p 0 ->
            exists k, (S k < List.length p)%nat /\ price_bracket a = Some k)) /\
  (analyze_combined_performance_with np.linspace df tk d lb aw nb =
     analyze_combined_performance df tk d lb aw nb /\
   exists rows,
     analysis_rows sample bins = inr rows /\
     analyze_combined_performance df tk d lb aw nb =
       inr (Stats (stats rows (pd.from_breaks bins) tk)) /\
     forall i r, nth_error sample i = Some r ->
       mn <= close r /\ close r <= mx ->
       exists a k, nth_error rows i = Some a /\ a_close a = close r /\
         (k < n)%nat /\ price_bracket a = Some k).
Proof.
  intros (Hlen & Hnb & Hr) group window sample mn mx n bins.
  destruct (analyze_grid df tk d lb aw Hlen Hnb Hr) as [HA H].
  fold bins sample in HA, H.
  assert (Hn : (0 < n)%nat) by (unfold n; lia).
  assert (Hmm : mn <= mx) by apply min_close_le_max_close.
  assert (Hl : List.length bins = S n) by apply edges_length.
  assert (Hw : window <> []).
  { intros E. unfold window in E. rewrite E in Hlen. cbn in Hlen. lia. }
  split; [|split; [|split; [|split]]].
  - split; [|split].
    + unfold group, group_of. rewrite prepare_relevant.
      apply sort_values_Permutation.
    + unfold group, group_of. rewrite prepare_relevant.
      apply sort_values_sorted with (tk := tk).
      apply Forall_forall. intros x Hx. apply filter_In in Hx as [_ Hx].
      unfold relevant in Hx. apply andb_true_iff in Hx as [Hx _].
      now apply String.eqb_eq.
    + split; [apply tail_suffix|]. split; [apply tail_length_pos|].
      split; [apply tail_suffix|apply tail_length_pos].
  - split; [|split].
    + apply Forall_forall. intros r Hr'. split.
      * apply Series_min_le. now apply in_map.
      * apply Series_max_ge. now apply in_map.
    + apply Series_min_In. intros E. apply map_eq_nil in E. contradiction.
    + apply Series_max_In. intros E. apply map_eq_nil in E. contradiction.
  - split; [now apply linspace_edges|].
    split; [exact Hl|].
    split; [intros i Hi; now apply edges_nth|].
    split; [now apply edges_first|].
    split; [unfold bins, p_bins; fold mn mx n; now rewrite edges_nth_last|].
    split; [unfold bins, p_bins; fold mn mx n; now rewrite edges_last|].
    intros i Hi. unfold bins, p_bins. fold mn mx n.
    rewrite !edges_nth by lia. apply edge_step.
  - intros linspace p cells Hp Hcall.
    rewrite analyze_with_parts in Hcall.
    destruct (Nat.ltb_spec (List.length (subset_200 df tk d lb)) 2); [lia|].
    fold mn mx in Hcall. rewrite Hp in Hcall. fold sample in Hcall.
    destruct (analysis_rows sample p) as [e|rows] eqn:Erows; [discriminate|].
    injection Hcall as <-.
    destruct (analysis_rows_inv _ _ Erows) as (Hne & Hinc & ->).
    split; [exact Hinc|].
    split; [intros k Hk; now apply from_breaks_nth_error|].
    eexists. split; [reflexivity|]. split; [reflexivity|].
    intros i r Hi. eexists. split; [apply annotate_at, Hi|].
    cbn [a_close price_bracket]. split; [reflexivity|].
    split; [intros k; now apply cut_one_in_bracket|].
    split; [intros j k; now apply in_bracket_unique|].
    intros H2 Hlo Hhi.
    destruct (cut_one_covers H2 Hinc Hlo Hhi) as [k Hk].
    exists k. split; [|exact Hk]. now apply cut_one_code_lt in Hk.
  - split; [apply analyze_with_np|].
    eexists. split; [exact HA|]. split; [exact H|].
    intros i r Hi Hin.
    destruct (cut_one_edges (close r) Hn Hmm) as [Hc _].
    destruct (Hc Hin) as [k [Hk Hkn]].
    eexists. exists k. split; [apply annotate_at, Hi|].
    cbn [a_close price_bracket]. now repeat split.
Qed.

Lemma bracket_coverage_witness :
  List.length (subset_200 shuffled_df "X" 4 3) = 3%nat /\
  np.linspace (min_close shuffled_df "X" 4 3) (max_close shuffled_df "X" 4 3)
    (2 + 1) = inr (p_bins shuffled_df "X" 4 3 2) /\
  List.length (p_bins shuffled_df "X" 4 3 2) = 3%nat.
Proof.
  assert (Hv : computes_grid shuffled_df "X" 4 3 2).
  { unfold computes_grid. repeat split; try lia.
    - vm_compute. lia.
    - left. reflexivity. }
  destruct (@bracket_coverage shuffled_df "X"%string 4%Z 3%Z 5%Z 2%Z Hv)
    as ((_ & _ & _ & Hw & _) & _ & (H1 & H2 & _) & _).
  split; [|split; [exact H1|exact H2]].
  rewrite Hw by lia. reflexivity.
Defined.
